(** * SEC XBRL annual financials: normalisation and reconciliation pipeline

    A shallow embedding of [xbrl_normalize.py], [financials.py] and the
    client of [sec_client.py].

    Modelling conventions
    - A pandas [DataFrame] is a list of column labels together with a list of
      typed rows.  A row carries one cell per column the pipeline ever reads
      or writes; a cell of a column the frame does not have is never read
      without the guard the source has.
    - Dates are day numbers (days since 1970-01-01): the filings carry
      calendar dates without a time of day.  [NaT] is [None].
    - A float cell is an [fnum]: a rational, an infinity or [NaN]; [NaN] is
      pandas' missing marker.  Rounding and the sign of zero are abstracted.
    - Python exceptions are the [Err] results of a small error monad:
      [KeyError] for a lookup of a column the frame lacks, [ValueError] for
      the explicit [raise] and for the conversions that can fail. *)

From Stdlib Require Import List ZArith QArith Bool String Ascii Lia.
From Stdlib Require Import DecimalString DecimalZ DecimalPos.
From Stdlib Require Import Sorting.Sorted Sorting.Permutation.
Import ListNotations.
Local Open Scope string_scope.
Local Open Scope Z_scope.
Local Open Scope list_scope.

(* ================================================================== *)
(** ** Exceptions and the error monad *)

Inductive exn : Type :=
| KeyError (col : string)
| ValueError (msg : string) (cols : list string).

Inductive result (A : Type) : Type :=
| Ok (a : A)
| Err (e : exn).
Arguments Ok {A} a.
Arguments Err {A} e.

Definition bind {A B : Type} (m : result A) (k : A -> result B) : result B :=
  match m with
  | Ok a => k a
  | Err e => Err e
  end.

Notation "x <- m ;; k" := (bind m (fun x => k))
  (at level 61, m at next level, right associativity).
Notation "m ;;; k" := (bind m (fun _ => k))
  (at level 61, right associativity).


(* ================================================================== *)
(** ** Floats with IEEE special values *)

Inductive fnum : Type :=
| FNaN
| FInf (negative : bool)
| FFin (q : Q).

Definition isna (x : fnum) : bool :=
  match x with
  | FNaN => true
  | _ => false
  end.

Definition Qis_zero (q : Q) : bool := (Qnum q =? 0)%Z.
Definition Qis_neg (q : Q) : bool := (Qnum q <? 0)%Z.

Definition fsub (a b : fnum) : fnum :=
  match a, b with
  | FNaN, _ | _, FNaN => FNaN
  | FInf s, FInf t => if Bool.eqb s t then FNaN else FInf s
  | FInf s, FFin _ => FInf s
  | FFin _, FInf t => FInf (negb t)
  | FFin x, FFin y => FFin (x - y)%Q
  end.

Definition fdiv (a b : fnum) : fnum :=
  match a, b with
  | FNaN, _ | _, FNaN => FNaN
  | FInf _, FInf _ => FNaN
  | FInf s, FFin y => FInf (xorb s (Qis_neg y))
  | FFin _, FInf _ => FFin 0%Q
  | FFin x, FFin y =>
      if Qis_zero y
      then (if Qis_zero x then FNaN else FInf (Qis_neg x))
      else FFin (x / y)%Q
  end.

(* ================================================================== *)
(** ** Calendar: the year of a day number ([Series.dt.year]) *)

Definition year_of (days : Z) : Z :=
  let z := days + 719468 in
  let era := z / 146097 in
  let doe := z - era * 146097 in
  let yoe := (doe - doe / 1460 + doe / 36524 - doe / 146096) / 365 in
  let doy := doe - (365 * yoe + yoe / 4 - yoe / 100) in
  let mp := (5 * doy + 2) / 153 in
  yoe + era * 400 + (if mp <? 10 then 0 else 1).

(* ================================================================== *)
(** ** Orders for [sort_values]

    A sort key is a comparison function.  [sort_values] with several columns
    is a stable sort under the lexicographic combination of the column
    orders; a descending column flips the order of its present values, and
    missing values go last in either direction ([na_position="last"]). *)

Definition cmp_t (A : Type) : Type := A -> A -> comparison.

Definition lex (c1 c2 : comparison) : comparison :=
  match c1 with
  | Eq => c2
  | _ => c1
  end.

Definition desc {A : Type} (c : cmp_t A) : cmp_t A := fun x y => c y x.

Definition na_last {A : Type} (c : cmp_t A) : cmp_t (option A) :=
  fun x y =>
    match x, y with
    | Some a, Some b => c a b
    | Some _, None => Lt
    | None, Some _ => Gt
    | None, None => Eq
    end.

Definition bool_cmp : cmp_t bool :=
  fun x y =>
    match x, y with
    | false, true => Lt
    | true, false => Gt
    | _, _ => Eq
    end.

Definition by_key {A K : Type} (k : A -> K) (c : cmp_t K) : cmp_t A :=
  fun x y => c (k x) (k y).

Definition then_by {A : Type} (c1 c2 : cmp_t A) : cmp_t A :=
  fun x y => lex (c1 x y) (c2 x y).

Fixpoint insert_by {A : Type} (c : cmp_t A) (x : A) (l : list A) : list A :=
  match l with
  | [] => [x]
  | y :: l' =>
      match c x y with
      | Gt => y :: insert_by c x l'
      | _ => x :: l
      end
  end.

(** Stable sort: rows that compare equal keep their input order. *)
Definition sort_by {A : Type} (c : cmp_t A) (l : list A) : list A :=
  fold_right (insert_by c) [] l.

(** [drop_duplicates(subset=k, keep="first")]. *)
Fixpoint drop_duplicates_first {A K : Type} (eqb : K -> K -> bool)
  (k : A -> K) (seen : list K) (l : list A) : list A :=
  match l with
  | [] => []
  | x :: l' =>
      if existsb (eqb (k x)) seen
      then drop_duplicates_first eqb k seen l'
      else x :: drop_duplicates_first eqb k (k x :: seen) l'
  end.

(** [drop_duplicates(subset=k, keep="last")]. *)
Fixpoint drop_duplicates_last {A K : Type} (eqb : K -> K -> bool)
  (k : A -> K) (l : list A) : list A :=
  match l with
  | [] => []
  | x :: l' =>
      if existsb (fun y => eqb (k x) (k y)) l'
      then drop_duplicates_last eqb k l'
      else x :: drop_duplicates_last eqb k l'
  end.

Definition le_of {A : Type} (c : cmp_t A) (x y : A) : Prop := c x y <> Gt.

(** A comparison function is an order when flipping its arguments flips its
    result and each of its three results is transitive. *)
Definition good_cmp {A : Type} (c : cmp_t A) : Prop :=
  (forall x y, c y x = CompOpp (c x y)) /\
  (forall r x y z, c x y = r -> c y z = r -> c x z = r).

(* ================================================================== *)
(** ** Strings *)

Definition upper_ascii (c : ascii) : ascii :=
  let n := nat_of_ascii c in
  if (97 <=? n)%nat && (n <=? 122)%nat then ascii_of_nat (n - 32) else c.

(** [str.upper] on the ASCII letters; no other character maps to [F] or [Y]. *)
Fixpoint upper (s : string) : string :=
  match s with
  | EmptyString => EmptyString
  | String c s' => String (upper_ascii c) (upper s')
  end.

Definition str_in (s : string) (l : list string) : bool :=
  existsb (String.eqb s) l.

Definition opt_eqb {A : Type} (eqb : A -> A -> bool) (x y : option A) : bool :=
  match x, y with
  | Some a, Some b => eqb a b
  | None, None => true
  | _, _ => false
  end.

Definition notna {A : Type} (x : option A) : bool :=
  match x with
  | Some _ => true
  | None => false
  end.

(* ================================================================== *)
(** ** Fact rows and data frames *)

Record Fact : Type := mkFact {
  f_taxonomy : string;
  f_concept : string;
  f_label : string;
  f_description : string;
  f_unit : string;
  f_value : fnum;
  f_start : option Z;
  f_end : option Z;
  f_fy : option Z;
  f_fp : option string;
  f_form : string;
  f_filed : option Z;
  f_frame : option string;
  f_accn : option string;
  f_qtrs : option Z;
  f_has_dimensions : bool;
  f_period_type : option string
}.

Definition set_start (v : option Z) (r : Fact) : Fact :=
  mkFact (f_taxonomy r) (f_concept r) (f_label r) (f_description r) (f_unit r)
    (f_value r) v (f_end r) (f_fy r) (f_fp r) (f_form r) (f_filed r)
    (f_frame r) (f_accn r) (f_qtrs r) (f_has_dimensions r) (f_period_type r).

Definition set_fy (v : option Z) (r : Fact) : Fact :=
  mkFact (f_taxonomy r) (f_concept r) (f_label r) (f_description r) (f_unit r)
    (f_value r) (f_start r) (f_end r) v (f_fp r) (f_form r) (f_filed r)
    (f_frame r) (f_accn r) (f_qtrs r) (f_has_dimensions r) (f_period_type r).

Definition set_filed (v : option Z) (r : Fact) : Fact :=
  mkFact (f_taxonomy r) (f_concept r) (f_label r) (f_description r) (f_unit r)
    (f_value r) (f_start r) (f_end r) (f_fy r) (f_fp r) (f_form r) v
    (f_frame r) (f_accn r) (f_qtrs r) (f_has_dimensions r) (f_period_type r).

Definition set_period_type (v : option string) (r : Fact) : Fact :=
  mkFact (f_taxonomy r) (f_concept r) (f_label r) (f_description r) (f_unit r)
    (f_value r) (f_start r) (f_end r) (f_fy r) (f_fp r) (f_form r) (f_filed r)
    (f_frame r) (f_accn r) (f_qtrs r) (f_has_dimensions r) v.

Record DataFrame : Type := mkFrame {
  columns : list string;
  rows : list Fact
}.

(** [pd.DataFrame()] and [pd.DataFrame([])]: no columns, no rows. *)
Definition empty_frame : DataFrame := mkFrame [] [].

Definition has_col (c : string) (d : DataFrame) : bool := str_in c (columns d).

(** [df.empty]: some axis has length zero. *)
Definition empty (d : DataFrame) : bool :=
  match rows d, columns d with
  | [], _ => true
  | _, [] => true
  | _, _ => false
  end.

(** [df[c]] raises [KeyError] when the frame has no column [c]. *)
Definition need (c : string) (d : DataFrame) : result unit :=
  if has_col c d then Ok tt else Err (KeyError c).

Fixpoint need_all (cs : list string) (d : DataFrame) : result unit :=
  match cs with
  | [] => Ok tt
  | c :: cs' => need c d ;;; need_all cs' d
  end.

(** [df[mask]]: the rows where the mask holds, the columns unchanged. *)
Definition select (p : Fact -> bool) (d : DataFrame) : DataFrame :=
  mkFrame (columns d) (filter p (rows d)).

(** [df[c] = ...]: every row's cell is rewritten; the column is appended when
    the frame did not have it. *)
Definition assign (c : string) (f : Fact -> Fact) (d : DataFrame) : DataFrame :=
  mkFrame (if has_col c d then columns d else columns d ++ [c])
          (map f (rows d)).

(** [df.drop(columns=cs, errors="ignore")]. *)
Definition drop_columns (cs : list string) (d : DataFrame) : DataFrame :=
  mkFrame (filter (fun c => negb (str_in c cs)) (columns d)) (rows d).

Definition with_rows (l : list Fact) (d : DataFrame) : DataFrame :=
  mkFrame (columns d) l.

(* ================================================================== *)
(** ** xbrl_normalize.py *)

Record NormalizeConfig : Type := mkNormalizeConfig {
  taxonomy : string;
  preferred_units : list string;
  keep_dimensions : bool;
  keep_forms : option (list string)
}.

Definition default_preferred_units : list string := ["USD"; "shares"; "pure"].

Definition default_normalize_config : NormalizeConfig :=
  mkNormalizeConfig "us-gaap" default_preferred_units false None.

(** One raw observation record.  A field the record lacks is [None]; dates
    and numbers stand for what the lenient parsers make of the raw text, a
    text that does not parse being missing.  [i_dims] says that the record
    has a non-empty [dims] entry. *)
Record RawItem : Type := mkRawItem {
  i_val : fnum;
  i_start : option Z;
  i_end : option Z;
  i_fy : option Z;
  i_fp : option string;
  i_form : option string;
  i_filed : option Z;
  i_frame : option string;
  i_accn : option string;
  i_qtrs : option Z;
  i_dims : bool
}.

(** A JSON value where a record is expected. *)
Inductive jitem : Type :=
| NotADict
| ADict (item : RawItem).

(** A JSON value where a list of records is expected. *)
Inductive jfacts : Type :=
| NotAList
| AList (items : list jitem).

Record ConceptObj : Type := mkConceptObj {
  co_label : option string;
  co_description : option string;
  co_units : option (list (string * jfacts))
}.

Definition Taxonomy : Type := list (string * ConceptObj).

Record CompanyFacts : Type := mkCompanyFacts {
  facts : option (list (string * Taxonomy))
}.

Definition _as_str (x : option string) : string :=
  match x with
  | None => ""
  | Some s => s
  end.

Fixpoint dict_get {V : Type} (d : list (string * V)) (key : string) : option V :=
  match d with
  | [] => None
  | (k, v) :: d' => if String.eqb k key then Some v else dict_get d' key
  end.

Definition _safe_get {V : Type} (d : list (string * V)) (key : string)
  (default : V) : V :=
  match dict_get d key with
  | Some v => v
  | None => default
  end.

Definition or_default {V : Type} (x : option V) (default : V) : V :=
  match x with
  | Some v => v
  | None => default
  end.

Definition normalize_columns : list string :=
  ["taxonomy"; "concept"; "label"; "description"; "unit"; "value"; "start";
   "end"; "fy"; "fp"; "form"; "filed"; "frame"; "accn"; "qtrs";
   "has_dimensions"].

(** The body of the innermost loop: the row appended for one item, if any. *)
Definition item_rows (cfg : NormalizeConfig) (concept label description
  unit : string) (it : jitem) : list Fact :=
  match it with
  | NotADict => []
  | ADict item =>
      let form := _as_str (i_form item) in
      if match keep_forms cfg with
         | Some fs => negb (str_in form fs)
         | None => false
         end
      then []
      else
        let has_dims := i_dims item in
        if has_dims && negb (keep_dimensions cfg)
        then []
        else [mkFact (taxonomy cfg) concept label description unit
                (i_val item) (i_start item) (i_end item) (i_fy item)
                (i_fp item) form (i_filed item) (i_frame item) (i_accn item)
                (i_qtrs item) has_dims None]
  end.

Definition unit_rows (cfg : NormalizeConfig) (concept label description
  : string) (u : string * jfacts) : list Fact :=
  match snd u with
  | NotAList => []
  | AList items =>
      flat_map (item_rows cfg concept label description (fst u)) items
  end.

Definition concept_rows (cfg : NormalizeConfig) (c : string * ConceptObj)
  : list Fact :=
  let concept := fst c in
  let concept_obj := snd c in
  let label := or_default (co_label concept_obj) "" in
  let description := or_default (co_description concept_obj) "" in
  let units_obj := or_default (co_units concept_obj) [] in
  flat_map (unit_rows cfg concept label description) units_obj.

Definition period_type_of (r : Fact) : string :=
  if notna (f_start r) then "duration" else "instant".

Definition normalize_companyfacts_to_df (companyfacts : CompanyFacts)
  (cfg : NormalizeConfig) : DataFrame :=
  let facts_root := or_default (facts companyfacts) [] in
  let tax := _safe_get facts_root (taxonomy cfg) [] in
  let rows := flat_map (concept_rows cfg) tax in
  let df := match rows with
            | [] => empty_frame
            | _ => mkFrame normalize_columns rows
            end in
  if empty df then df
  else assign "period_type"
         (fun r => set_period_type (Some (period_type_of r)) r) df.

Definition sentinel_rank : Z := 10000.

Fixpoint index_of (u : string) (l : list string) : option Z :=
  match l with
  | [] => None
  | x :: l' =>
      if String.eqb x u then Some 0
      else match index_of u l' with
           | Some i => Some (i + 1)
           | None => None
           end
  end.

(** [preferred_units.index(u) if u in preferred_units else 10_000]. *)
Definition unit_rank (preferred_units : list string) (u : string) : Z :=
  match index_of u preferred_units with
  | Some i => i
  | None => sentinel_rank
  end.

(** [groupby("concept")["unit_rank"].transform("min")] at row [r]. *)
Definition best_rank (preferred_units : list string) (l : list Fact)
  (r : Fact) : Z :=
  fold_right
    (fun r' m =>
       if String.eqb (f_concept r') (f_concept r)
       then Z.min (unit_rank preferred_units (f_unit r')) m
       else m)
    (unit_rank preferred_units (f_unit r)) l.

Definition choose_preferred_unit (df : DataFrame)
  (preferred_units : option (list string)) : result DataFrame :=
  if empty df then Ok df
  else
    let preferred_units := or_default preferred_units default_preferred_units in
    need "unit" df ;;;
    let rank := fun r => unit_rank preferred_units (f_unit r) in
    let df2 := select (fun r => rank r <? sentinel_rank) df in
    if empty df2 then Ok df2
    else
      need "concept" df2 ;;;
      let kept := rows df2 in
      Ok (select (fun r => rank r =? best_rank preferred_units kept r) df2).

Definition str_cmp : cmp_t string := String.compare.

(** The sort of [dedupe_keep_latest_filed]: eight columns, all ascending. *)
Definition dedupe_order : cmp_t Fact :=
  then_by (by_key f_concept str_cmp)
  (then_by (by_key f_unit str_cmp)
  (then_by (by_key f_start (na_last Z.compare))
  (then_by (by_key f_end (na_last Z.compare))
  (then_by (by_key f_fy (na_last Z.compare))
  (then_by (by_key f_fp (na_last str_cmp))
  (then_by (by_key f_form str_cmp)
           (by_key f_filed (na_last Z.compare)))))))).

Definition dedupe_columns : list string :=
  ["concept"; "unit"; "start"; "end"; "fy"; "fp"; "form"; "filed"].

Definition dedupe_key (r : Fact) :=
  (f_concept r, f_unit r, f_start r, f_end r, f_fy r, f_fp r, f_form r).

Definition dedupe_key_eqb (a b : string * string * option Z * option Z
  * option Z * option string * string) : bool :=
  let '(c1, u1, s1, e1, y1, p1, m1) := a in
  let '(c2, u2, s2, e2, y2, p2, m2) := b in
  String.eqb c1 c2 && String.eqb u1 u2 && opt_eqb Z.eqb s1 s2
  && opt_eqb Z.eqb e1 e2 && opt_eqb Z.eqb y1 y2 && opt_eqb String.eqb p1 p2
  && String.eqb m1 m2.

Definition dedupe_keep_latest_filed (df : DataFrame) : result DataFrame :=
  if empty df then Ok df
  else
    need_all dedupe_columns df ;;;
    let df2 := with_rows (sort_by dedupe_order (rows df)) df in
    Ok (with_rows (drop_duplicates_last dedupe_key_eqb dedupe_key (rows df2))
          df2).

Definition normalize_pipeline (companyfacts : CompanyFacts)
  (cfg : NormalizeConfig) : result DataFrame :=
  let df := normalize_companyfacts_to_df companyfacts cfg in
  df <- choose_preferred_unit df (Some (preferred_units cfg)) ;;
  dedupe_keep_latest_filed df.

(* ================================================================== *)
(** ** financials.py *)

Record ConceptSpec : Type := mkConceptSpec {
  name : string;
  candidates : list string;
  unit : string;
  period_type : option string;
  forms : option (list string)
}.

Record FinancialsConfig : Type := mkFinancialsConfig {
  forms_annual : list string;
  last_n_years : Z
}.

Definition default_financials_config : FinancialsConfig :=
  mkFinancialsConfig ["10-K"] 5.

Definition _filter_forms (df : DataFrame) (forms : list string)
  : result DataFrame :=
  need "form" df ;;;
  Ok (select (fun r => str_in (f_form r) forms) df).

Definition _filter_unit (df : DataFrame) (unit : string) : result DataFrame :=
  need "unit" df ;;;
  Ok (select (fun r => String.eqb (f_unit r) unit) df).

Definition _filter_period_type (df : DataFrame) (period_type : option string)
  : result DataFrame :=
  match period_type with
  | None => Ok df
  | Some p =>
      need "period_type" df ;;;
      Ok (select (fun r => opt_eqb String.eqb (f_period_type r) (Some p)) df)
  end.

(** [(end - start).dt.days]; missing when either date is. *)
Definition span_days (r : Fact) : option Z :=
  match f_end r, f_start r with
  | Some e, Some s => Some (e - s)
  | _, _ => None
  end.

Definition near_one_year (r : Fact) : bool :=
  match span_days r with
  | Some n => (330 <=? n) && (n <=? 400)
  | None => false
  end.

Definition astype_str (x : option string) : string :=
  match x with
  | Some s => s
  | None => "None"
  end.

Definition is_fy_tag (r : Fact) : bool :=
  String.eqb (upper (astype_str (f_fp r))) "FY".

Definition qtrs_is_4 (r : Fact) : bool := opt_eqb Z.eqb (f_qtrs r) (Some 4).

(** The cell written by [d[c] = _ensure_datetime(d, c) if c in d.columns else
    pd.NaT] and its like: unchanged when the column is there. *)
Definition coerce_or_na (c : string) (d : DataFrame) (na : Fact -> Fact)
  : Fact -> Fact :=
  if has_col c d then (fun r => r) else na.

Definition _annualize_duration_series (d : DataFrame) : result DataFrame :=
  if empty d then Ok d
  else
    let out := d in
    let out := assign "start" (coerce_or_na "start" out (set_start None)) out in
    need "end" out ;;;
    let out := assign "end" (fun r => r) out in
    let '(out, used_filter) :=
      if has_col "qtrs" out
      then
        let q4 := select qtrs_is_4 out in
        if negb (empty q4) then (q4, true) else (out, false)
      else (out, false) in
    let out :=
      if negb used_filter && has_col "fp" out
      then
        let fy_rows := select is_fy_tag out in
        if negb (empty fy_rows) then fy_rows else out
      else out in
    if existsb (fun r => notna (f_start r)) (rows out)
    then Ok (select near_one_year out)
    else Ok out.

(** Helper columns of [_select_best_row_per_fy]; they are computed after the
    rows without a fiscal year or an end date have been dropped. *)
Definition fy_int (r : Fact) : Z := or_default (f_fy r) 0.
Definition end_year (r : Fact) : Z := year_of (or_default (f_end r) 0).
Definition year_gap (r : Fact) : Z := Z.abs (end_year r - fy_int r).

Definition is_q4 (d : DataFrame) (r : Fact) : bool :=
  if has_col "qtrs" d then qtrs_is_4 r else false.

Definition dur_days (r : Fact) : Z :=
  match f_start r with
  | Some s => or_default (f_end r) 0 - s
  | None => -1
  end.

(** [sort_values(["fy_int", "year_gap", "is_q4", "dur_days", "filed", "end"],
    ascending=[True, True, False, False, False, False])]. *)
Definition best_row_order (d : DataFrame) : cmp_t Fact :=
  then_by (by_key fy_int Z.compare)
  (then_by (by_key year_gap Z.compare)
  (then_by (by_key (is_q4 d) (desc bool_cmp))
  (then_by (by_key dur_days (desc Z.compare))
  (then_by (by_key f_filed (na_last (desc Z.compare)))
           (by_key f_end (na_last (desc Z.compare))))))).

(** [dropna(subset=["fy", "end", "value"])]. *)
Definition complete (r : Fact) : bool :=
  notna (f_fy r) && notna (f_end r) && negb (isna (f_value r)).

Definition helper_columns : list string :=
  ["fy_int"; "end_year"; "year_gap"; "is_q4"; "dur_days"].

(** The date and fiscal-year columns after the coercions that open
    [_select_best_row_per_fy]. *)
Definition coerce_columns (df : DataFrame) : result DataFrame :=
  need "end" df ;;;
  let d := assign "end" (fun r => r) df in
  let d := assign "start" (coerce_or_na "start" d (set_start None)) d in
  let d := assign "filed" (coerce_or_na "filed" d (set_filed None)) d in
  let d := assign "fy" (coerce_or_na "fy" d (set_fy None)) d in
  Ok d.

Definition _select_best_row_per_fy (df : DataFrame) : result DataFrame :=
  if empty df then Ok df
  else
    d <- coerce_columns df ;;
    need "value" d ;;;
    let d := select complete d in
    if empty d then Ok d
    else
      let sorted := sort_by (best_row_order d) (rows d) in
      let d := with_rows (drop_duplicates_first Z.eqb fy_int [] sorted) d in
      Ok (drop_columns helper_columns d).

Definition default_mvp_specs : list ConceptSpec :=
  [ mkConceptSpec "revenue"
      ["RevenueFromContractWithCustomerExcludingAssessedTax"; "Revenues";
       "SalesRevenueNet"]
      "USD" (Some "duration") (Some ["10-K"]);
    mkConceptSpec "gross_profit" ["GrossProfit"]
      "USD" (Some "duration") (Some ["10-K"]);
    mkConceptSpec "operating_income" ["OperatingIncomeLoss"]
      "USD" (Some "duration") (Some ["10-K"]);
    mkConceptSpec "net_income" ["NetIncomeLoss"]
      "USD" (Some "duration") (Some ["10-K"]);
    mkConceptSpec "cfo"
      ["NetCashProvidedByUsedInOperatingActivities";
       "NetCashProvidedByUsedInOperatingActivitiesContinuingOperations"]
      "USD" (Some "duration") (Some ["10-K"]);
    mkConceptSpec "capex"
      ["PaymentsToAcquirePropertyPlantAndEquipment";
       "PaymentsToAcquireProductiveAssets"]
      "USD" (Some "duration") (Some ["10-K"]);
    mkConceptSpec "cash" ["CashAndCashEquivalentsAtCarryingValue"]
      "USD" (Some "instant") (Some ["10-K"]);
    mkConceptSpec "equity" ["StockholdersEquity"]
      "USD" (Some "instant") (Some ["10-K"]) ].

(** Truth value of [spec.forms]: neither [None] nor the empty list. *)
Definition truthy_forms (fs : option (list string)) : option (list string) :=
  match fs with
  | Some (f :: l) => Some (f :: l)
  | _ => None
  end.

Definition _prepare_base (df : DataFrame) (spec : ConceptSpec)
  : result DataFrame :=
  let base := df in
  base <- match truthy_forms (forms spec) with
          | Some fs => _filter_forms base fs
          | None => Ok base
          end ;;
  base <- _filter_unit base (unit spec) ;;
  _filter_period_type base (period_type spec).

Definition _extract_series_for_concept (base : DataFrame) (spec : ConceptSpec)
  (concept : string) : result DataFrame :=
  need "concept" base ;;;
  let d := select (fun r => String.eqb (f_concept r) concept) base in
  need "value" d ;;;
  need "end" d ;;;
  let d := select (fun r => negb (isna (f_value r)) && notna (f_end r)) d in
  if empty d then Ok d
  else
    let d := assign "fy" (coerce_or_na "fy" d (set_fy None)) d in
    let d := assign "end" (fun r => r) d in
    let d := select complete d in
    if empty d then Ok d
    else
      d <- (if opt_eqb String.eqb (period_type spec) (Some "duration")
            then _annualize_duration_series d
            else Ok d) ;;
      _select_best_row_per_fy d.

(** [Series.max()]: the greatest present value, missing when there is none. *)
Definition max_present (l : list (option Z)) : option Z :=
  fold_right
    (fun x m =>
       match x, m with
       | Some a, Some b => Some (Z.max a b)
       | Some a, None => Some a
       | None, _ => m
       end)
    None l.

Fixpoint present {A : Type} (l : list (option A)) : list A :=
  match l with
  | [] => []
  | Some a :: l' => a :: present l'
  | None :: l' => present l'
  end.

(** [Series.nunique()]: the number of distinct present values. *)
Definition nunique (l : list (option Z)) : Z :=
  Z.of_nat (List.length (nodup Z.eq_dec (present l))).

Definition Score : Type := (Z * Z * option Z)%type.

(** [int(...max())] fails on a missing maximum. *)
Definition score_of (d : DataFrame) : result Score :=
  need "fy" d ;;;
  match max_present (map f_fy (rows d)) with
  | None => Err (ValueError "cannot convert float NaN to integer" [])
  | Some max_fy =>
      let row_count := nunique (map f_fy (rows d)) in
      need "end" d ;;;
      let max_end := max_present (map f_end (rows d)) in
      Ok (max_fy, row_count, max_end)
  end.

(** Python's [>] on the score tuples: the first component on which the
    tuples differ decides; a missing timestamp differs from everything and
    is greater than nothing. *)
Definition score_gt (a b : Score) : bool :=
  let '(fy1, n1, e1) := a in
  let '(fy2, n2, e2) := b in
  if negb (fy1 =? fy2) then fy1 >? fy2
  else if negb (n1 =? n2) then n1 >? n2
  else match e1, e2 with
       | Some x, Some y => x >? y
       | _, _ => false
       end.

Record Best : Type := mkBest {
  best_concept : option string;
  best_df : DataFrame;
  best_score : option Score
}.

Definition no_best : Best := mkBest None empty_frame None.

(** The loop body of [_choose_best_concept] over the remaining candidates. *)
Fixpoint choose_loop (base : DataFrame) (spec : ConceptSpec)
  (cands : list string) (best : Best) : result Best :=
  match cands with
  | [] => Ok best
  | concept :: rest =>
      d <- _extract_series_for_concept base spec concept ;;
      if empty d then choose_loop base spec rest best
      else
        score <- score_of d ;;
        if match best_score best with
           | None => true
           | Some b => score_gt score b
           end
        then choose_loop base spec rest (mkBest (Some concept) d (Some score))
        else choose_loop base spec rest best
  end.

Definition _choose_best_concept (base : DataFrame) (spec : ConceptSpec)
  : result (option string * DataFrame) :=
  best <- choose_loop base spec (candidates spec) no_best ;;
  Ok (best_concept best, best_df best).

(** A row of the tidy series: fy, fiscal_year_end, value, concept_used, name. *)
Record SeriesRow : Type := mkSeriesRow {
  s_fy : option Z;
  s_fiscal_year_end : option Z;
  s_value : fnum;
  s_concept_used : string;
  s_name : string
}.

Definition lastn {A : Type} (n : nat) (l : list A) : list A :=
  skipn (List.length l - n) l.

(** [DataFrame.tail(n)]: the last [n] rows; for a negative [n] all rows but
    the first [-n]. *)
Definition tail {A : Type} (n : Z) (l : list A) : list A :=
  if n =? 0 then []
  else if 0 <? n then lastn (Z.to_nat n) l
  else skipn (Z.to_nat (- n)) l.

Definition extract_annual_series (df : DataFrame) (spec : ConceptSpec)
  (last_n_years : Z) : result (list SeriesRow) :=
  base <- _prepare_base df spec ;;
  cd <- _choose_best_concept base spec ;;
  let '(concept_used, d) := cd in
  match concept_used with
  | None => Ok []
  | Some concept_used =>
      if empty d then Ok []
      else
        need "fy" d ;;;
        let sorted := sort_by (by_key f_fy (na_last Z.compare)) (rows d) in
        let d := with_rows (tail last_n_years sorted) d in
        need_all ["fy"; "end"; "value"] d ;;;
        Ok (map (fun r => mkSeriesRow (f_fy r) (f_end r) (f_value r)
                            concept_used (name spec)) (rows d))
  end.

(** *** The wide annual table *)

Inductive column : Type :=
| NumCol (cells : list fnum)
| DateCol (cells : list (option Z)).

(** The table returned by [build_annual_financials_table]: the [fy] column,
    the other columns in order, and [attrs["concept_map"]] when it is set. *)
Record AnnualTable : Type := mkAnnualTable {
  t_fy : list Z;
  t_columns : list (string * column);
  t_concept_map : option (list (string * string))
}.

(** [pd.DataFrame()]: no columns, no rows, no attributes. *)
Definition empty_table : AnnualTable := mkAnnualTable [] [] None.

Fixpoint dict_set {V : Type} (d : list (string * V)) (key : string) (v : V)
  : list (string * V) :=
  match d with
  | [] => [(key, v)]
  | (k, x) :: d' =>
      if String.eqb k key then (k, v) :: d' else (k, x) :: dict_set d' key v
  end.

Definition dict_has {V : Type} (d : list (string * V)) (key : string) : bool :=
  notna (dict_get d key).

(** [wide[c]] as a float column. *)
Definition num_col (cols : list (string * column)) (c : string) : list fnum :=
  match dict_get cols c with
  | Some (NumCol l) => l
  | _ => []
  end.

Fixpoint zip_with {A B C : Type} (f : A -> B -> C) (l : list A) (m : list B)
  : list C :=
  match l, m with
  | a :: l', b :: m' => f a b :: zip_with f l' m'
  | _, _ => []
  end.

(** [Series.shift(1)]. *)
Definition shift1 (l : list fnum) : list fnum := removelast (FNaN :: l).

(** [Series.pct_change(fill_method=None)]: [data / data.shift(1) - 1]. *)
Definition pct_change (l : list fnum) : list fnum :=
  zip_with (fun x prev => fsub (fdiv x prev) (FFin 1)) l (shift1 l).

(** The set of mandatory columns, listed in the order [sorted] gives them. *)
Definition required_cols : list string :=
  ["concept"; "end"; "form"; "period_type"; "unit"; "value"].

(** The loop over the specs: the non-empty series in order and the concept
    map. *)
Fixpoint series_loop (df : DataFrame) (specs : list ConceptSpec)
  (last_n_years : Z) (all_series : list (list SeriesRow))
  (concept_map : list (string * string))
  : result (list (list SeriesRow) * list (string * string)) :=
  match specs with
  | [] => Ok (all_series, concept_map)
  | spec :: rest =>
      s <- extract_annual_series df spec last_n_years ;;
      match s with
      | [] =>
          series_loop df rest last_n_years all_series
            (dict_set concept_map (name spec) "")
      | _ :: _ =>
          series_loop df rest last_n_years (all_series ++ [s])
            (dict_set concept_map (name spec)
               (s_concept_used (last s (mkSeriesRow None None FNaN "" ""))))
      end
  end.

Definition sorted_unique_Z (l : list Z) : list Z :=
  sort_by Z.compare (nodup Z.eq_dec l).

Definition sorted_unique_str (l : list string) : list string :=
  sort_by str_cmp (nodup string_dec l).

(** The aggregate ["last"] of the group [(fy, name)]: its last present value,
    missing for an empty group. *)
Definition last_value (long : list SeriesRow) (fy : Z) (nm : string) : fnum :=
  fold_left
    (fun acc s =>
       if opt_eqb Z.eqb (s_fy s) (Some fy) && String.eqb (s_name s) nm
          && negb (isna (s_value s))
       then s_value s else acc)
    long FNaN.

(** [long.groupby("fy")["fiscal_year_end"].max()] at [fy]. *)
Definition fy_end_of (long : list SeriesRow) (fy : Z) : option Z :=
  max_present
    (map s_fiscal_year_end
       (filter (fun s => opt_eqb Z.eqb (s_fy s) (Some fy)) long)).

Definition set_column (cols : list (string * column)) (c : string)
  (v : column) : list (string * column) := dict_set cols c v.

Definition na_column (n : nat) : column := NumCol (repeat FNaN n).

Definition has_wide_col (cols : list (string * column)) (c : string) : bool :=
  String.eqb c "fy" || dict_has cols c.

(** [wide[a] op wide[b]] when both columns exist, else [pd.NA]. *)
Definition derive (n : nat) (cols : list (string * column))
  (op : fnum -> fnum -> fnum) (a b : string) : column :=
  if has_wide_col cols a && has_wide_col cols b
  then NumCol (zip_with op (num_col cols a) (num_col cols b))
  else na_column n.

(** [pivot_table(index="fy", columns="name", values="value", aggfunc="last")
    .reset_index()]: groups whose aggregate is missing are dropped; the index
    and the columns are the sorted distinct fiscal years and names left.
    [reset_index] cannot insert [fy] next to a column of that name. *)
Definition pivot (long : list SeriesRow)
  : result (list Z * list (string * column)) :=
  let kept := filter (fun s => negb (isna (s_value s))) long in
  let index := sorted_unique_Z (present (map s_fy kept)) in
  let names := sorted_unique_str (map s_name kept) in
  if str_in "fy" names
  then Err (ValueError "cannot insert fy, already exists" [])
  else Ok (index,
           map (fun nm => (nm, NumCol (map (fun fy => last_value long fy nm)
                                         index))) names).

(** [wide.merge(fy_end, on="fy", how="left")]: a column both sides have is
    renamed with the suffixes [_x] and [_y]. *)
Definition merge_fy_end (long : list SeriesRow) (index : list Z)
  (cols : list (string * column)) : list (string * column) :=
  let ends := DateCol (map (fy_end_of long) index) in
  if dict_has cols "fiscal_year_end"
  then map (fun kv => if String.eqb (fst kv) "fiscal_year_end"
                      then ("fiscal_year_end_x", snd kv) else kv) cols
       ++ [("fiscal_year_end_y", ends)]
  else cols ++ [("fiscal_year_end", ends)].

Definition build_annual_financials_table (df : DataFrame)
  (specs : option (list ConceptSpec)) (cfg : option FinancialsConfig)
  : result AnnualTable :=
  let cfg := or_default cfg default_financials_config in
  let specs := or_default specs default_mvp_specs in
  let missing := filter (fun c => negb (has_col c df)) required_cols in
  match missing with
  | _ :: _ => Err (ValueError "Input df missing required columns" missing)
  | [] =>
      sm <- series_loop df specs (last_n_years cfg) [] [] ;;
      let '(all_series, concept_map) := sm in
      match all_series with
      | [] => Ok empty_table
      | _ :: _ =>
          let long := List.concat all_series in
          let long := filter (fun s => notna (s_fy s)) long in
          iw <- pivot long ;;
          let '(index, wide) := iw in
          let n := List.length index in
          let wide := merge_fy_end long index wide in
          let wide := set_column wide "fcf" (derive n wide fsub "cfo" "capex") in
          let wide := set_column wide "revenue_yoy"
                        (if has_wide_col wide "revenue"
                         then NumCol (pct_change (num_col wide "revenue"))
                         else na_column n) in
          let wide := set_column wide "gross_margin"
                        (derive n wide fdiv "gross_profit" "revenue") in
          let wide := set_column wide "operating_margin"
                        (derive n wide fdiv "operating_income" "revenue") in
          let wide := set_column wide "net_margin"
                        (derive n wide fdiv "net_income" "revenue") in
          let wide := set_column wide "fcf_margin"
                        (derive n wide fdiv "fcf" "revenue") in
          Ok (mkAnnualTable index wide (Some concept_map))
      end
  end.

(* ================================================================== *)
(** ** The annualization rules as the specification words them *)

(** Exactly one of: the facts spanning four quarters if there are any, else
    the facts tagged FY if there are any, else all facts. *)
Definition annual_rule (l : list Fact) : list Fact :=
  if existsb qtrs_is_4 l then filter qtrs_is_4 l
  else if existsb is_fy_tag l then filter is_fy_tag l
  else l.

(** The near-year-length filter, skipped when no fact has a start date. *)
Definition span_filter (l : list Fact) : list Fact :=
  if existsb (fun r => notna (f_start r)) l then filter near_one_year l
  else l.

Definition annualize_spec (l : list Fact) : list Fact :=
  span_filter (annual_rule l).

(* ================================================================== *)
(** ** The best-row order as the specification words it *)



(* ================================================================== *)
(** ** The score order as the specification words it *)

(** Lexicographic order on (maximum fiscal year, number of fiscal years,
    maximum end date). *)
Definition score_lt (a b : Score) : Prop :=
  let '(fy1, n1, e1) := a in
  let '(fy2, n2, e2) := b in
  fy1 < fy2 \/
  fy1 = fy2 /\
  (n1 < n2 \/
   n1 = n2 /\ exists x y, e1 = Some x /\ e2 = Some y /\ x < y).

Definition score_le (a b : Score) : Prop :=
  let '(fy1, n1, e1) := a in
  let '(fy2, n2, e2) := b in
  fy1 < fy2 \/
  fy1 = fy2 /\
  (n1 < n2 \/
   n1 = n2 /\ exists x y, e1 = Some x /\ e2 = Some y /\ x <= y).

(** Candidate [concept] yields a non-empty annual series with score [s]. *)
Definition scored (base : DataFrame) (spec : ConceptSpec) (concept : string)
  (s : Score) : Prop :=
  exists d, _extract_series_for_concept base spec concept = Ok d /\
            empty d = false /\ score_of d = Ok s.

(** Candidate [concept] yields an empty annual series. *)
Definition no_data (base : DataFrame) (spec : ConceptSpec) (concept : string)
  : Prop :=
  exists d, _extract_series_for_concept base spec concept = Ok d /\
            empty d = true.

(* ================================================================== *)
(** ** Invariants of the reconciliation steps *)

Definition all_complete (d : DataFrame) : Prop :=
  Forall (fun r => complete r = true) (rows d).

(** [out] has the columns of [d], and complete rows if [d] has. *)
Definition keeps (d out : DataFrame) : Prop :=
  (forall c, has_col c d = true -> has_col c out = true) /\
  (all_complete d -> all_complete out).

(** The state of the candidate loop after the candidates [done]: nothing is
    chosen and no candidate had data, or the chosen candidate beats the ones
    before it and is not beaten by the ones after it. *)
Definition chosen_inv (base : DataFrame) (spec : ConceptSpec)
  (done : list string) (best : Best) : Prop :=
  match best_score best with
  | None =>
      best_concept best = None /\ best_df best = empty_frame /\
      forall c, In c done -> no_data base spec c
  | Some s =>
      exists c pre post,
        best_concept best = Some c /\ done = pre ++ c :: post /\
        _extract_series_for_concept base spec c = Ok (best_df best) /\
        empty (best_df best) = false /\
        score_of (best_df best) = Ok s /\
        (exists e, snd s = Some e) /\
        (forall c' s', In c' pre -> scored base spec c' s' -> score_lt s' s) /\
        (forall c' s', In c' post -> scored base spec c' s' -> score_le s' s)
  end.

(** The table has the six mandatory columns. *)
Definition has_required (df : DataFrame) : Prop :=
  forall c, In c required_cols -> has_col c df = true.


(* ================================================================== *)
(** ** Reading the annual table by fiscal year *)

Fixpoint position (y : Z) (l : list Z) : option nat :=
  match l with
  | [] => None
  | x :: l' => if x =? y then Some 0%nat else option_map S (position y l')
  end.

(** The cell of float column [col] in the row of fiscal year [fy]; missing
    when the table has no such row. *)
Definition cell_at (t : AnnualTable) (col : string) (fy : Z) : fnum :=
  match position fy (t_fy t) with
  | Some i => nth i (num_col (t_columns t) col) FNaN
  | None => FNaN
  end.

(** Revenue growth as the specification words it: missing exactly in the
    first row and in rows whose prior fiscal year has no revenue. *)
Definition yoy_missing_iff_first_or_prior_missing (t : AnnualTable) : Prop :=
  forall i y, nth_error (t_fy t) i = Some y ->
    (isna (cell_at t "revenue_yoy" y) = true <->
     i = 0%nat \/ isna (cell_at t "revenue" (y - 1)) = true).

(* ================================================================== *)
(** ** Sample data *)

Definition all_columns : list string := normalize_columns ++ ["period_type"].

Definition sample_fact (concept : string) (value : Z) (start : option Z)
  (end_ fy : Z) (fp : string) (filed : Z) (qtrs : option Z) : Fact :=
  mkFact "us-gaap" concept "" "" "USD" (FFin (inject_Z value)) start
    (Some end_) (Some fy) (Some fp) "10-K" (Some filed) None None qtrs false
    (Some (if notna start then "duration" else "instant")).

(** Fiscal year 2022: 2021-12-31 is day 18992, 2022-07-03 is day 19176 and
    2022-12-31 is day 19357. *)
Definition fact_full_year_2022 : Fact :=
  sample_fact "Revenues" 100 (Some 18992) 19357 2022 "FY" 19400 (Some 4).

Definition fact_half_year_2022 : Fact :=
  sample_fact "Revenues" 50 (Some 19176) 19357 2022 "Q2" 19400 (Some 2).

Definition two_durations_2022 : DataFrame :=
  mkFrame all_columns [fact_full_year_2022; fact_half_year_2022].

(** Full fiscal years: 2018-12-31 is day 17896, and the year ends of 2019
    to 2023 are days 18261, 18627, 18992, 19357 and 19722. *)
Definition annual_fact (concept : string) (value : Z) (start end_ fy : Z)
  : Fact :=
  sample_fact concept value (Some start) end_ fy "FY" (end_ + 45) (Some 4).

(** "Revenues" reported through fiscal year 2020, the newer tag from 2021
    through 2023. *)
Definition revenue_tags_frame : DataFrame :=
  mkFrame all_columns
    [ annual_fact "Revenues" 90 17896 18261 2019;
      annual_fact "Revenues" 100 18261 18627 2020;
      annual_fact "RevenuesFromContractWithCustomer" 110 18627 18992 2021;
      annual_fact "RevenuesFromContractWithCustomer" 120 18992 19357 2022;
      annual_fact "RevenuesFromContractWithCustomer" 130 19357 19722 2023 ].

Definition revenue_tags_spec : ConceptSpec :=
  mkConceptSpec "revenue" ["Revenues"; "RevenuesFromContractWithCustomer"]
    "USD" (Some "duration") (Some ["10-K"]).

(** Two tags reporting the same fiscal years with the same end dates. *)
Definition tied_tags_frame : DataFrame :=
  mkFrame all_columns
    [ annual_fact "SalesRevenueNet" 120 18992 19357 2022;
      annual_fact "Revenues" 100 18992 19357 2022;
      annual_fact "SalesRevenueNet" 130 19357 19722 2023;
      annual_fact "Revenues" 105 19357 19722 2023 ].

Definition tied_tags_spec : ConceptSpec :=
  mkConceptSpec "revenue" ["Revenues"; "SalesRevenueNet"]
    "USD" (Some "duration") (Some ["10-K"]).

(** Revenue for fiscal year 2021 only, net income for 2021 and 2022. *)
Definition revenue_missing_2022_frame : DataFrame :=
  mkFrame all_columns
    [ annual_fact "Revenues" 100 18627 18992 2021;
      annual_fact "NetIncomeLoss" 10 18627 18992 2021;
      annual_fact "NetIncomeLoss" 12 18992 19357 2022 ].

Definition revenue_missing_2022_table : AnnualTable :=
  Eval vm_compute in
    match build_annual_financials_table revenue_missing_2022_frame None None
    with
    | Ok t => t
    | Err _ => empty_table
    end.

(** Revenue for fiscal years 2019 and 2021, none for 2020. *)
Definition revenue_gap_frame : DataFrame :=
  mkFrame all_columns
    [ annual_fact "Revenues" 100 17896 18261 2019;
      annual_fact "Revenues" 150 18627 18992 2021 ].

(** A fact store without any concept for the taxonomy. *)
Definition empty_store : CompanyFacts :=
  mkCompanyFacts (Some [("us-gaap", [])]).

(* ================================================================== *)
(** ** The rest of xbrl_normalize.py *)

(** The rows the loops of [normalize_companyfacts_to_df] collect. *)
Definition collected_rows (companyfacts : CompanyFacts)
  (cfg : NormalizeConfig) : list Fact :=
  flat_map (concept_rows cfg)
    (_safe_get (or_default (facts companyfacts) []) (taxonomy cfg) []).

Definition filter_forms (df : DataFrame) (forms : list string)
  : result DataFrame :=
  if empty df then Ok df
  else
    need "form" df ;;;
    Ok (select (fun r => str_in (f_form r) forms) df).

(** [sort_values(["end", "filed"], ascending=True)]. *)
Definition end_filed_order : cmp_t Fact :=
  then_by (by_key f_end (na_last Z.compare))
          (by_key f_filed (na_last Z.compare)).

Definition extract_concept_series (df : DataFrame) (concept unit : string)
  : result DataFrame :=
  if empty df then Ok empty_frame
  else
    need "concept" df ;;;
    need "unit" df ;;;
    let d := select (fun r => String.eqb (f_concept r) concept
                              && String.eqb (f_unit r) unit) df in
    need "end" d ;;;
    need "filed" d ;;;
    Ok (with_rows (sort_by end_filed_order (rows d)) d).

(* ================================================================== *)
(** ** The rest of financials.py *)

Definition scale_cols : list string :=
  ["revenue"; "gross_profit"; "operating_income"; "net_income"; "cfo";
   "capex"; "fcf"; "cash"; "equity"].

(** The float [1e9]. *)
Definition billion : fnum := FFin (inject_Z 1000000000).

(** [df.empty] of an annual table: it has no row. *)
Definition table_empty (t : AnnualTable) : bool :=
  match t_fy t with
  | [] => true
  | _ => false
  end.

(** One turn of the loop of [format_financials_for_display]:
    [out[col] = out[col] / 1e9] when the column is there.  Dividing a column
    of timestamps by a float is a [TypeError], here [None]. *)
Definition scale_column (out : option (list (string * column)))
  (col : string) : option (list (string * column)) :=
  match out with
  | None => None
  | Some cols =>
      match dict_get cols col with
      | None => Some cols
      | Some (NumCol l) =>
          Some (set_column cols col (NumCol (map (fun x => fdiv x billion) l)))
      | Some (DateCol _) => None
      end
  end.

Definition format_financials_for_display (df : AnnualTable)
  : option AnnualTable :=
  if table_empty df then Some df
  else
    match fold_left scale_column scale_cols (Some (t_columns df)) with
    | Some cols => Some (mkAnnualTable (t_fy df) cols (t_concept_map df))
    | None => None
    end.

(** The length of a column. *)
Definition column_length (c : column) : nat :=
  match c with
  | NumCol l => List.length l
  | DateCol l => List.length l
  end.

Definition is_num_col (c : column) : bool :=
  match c with
  | NumCol _ => true
  | DateCol _ => false
  end.

(** The names of the columns the builder derives or adds. *)
Definition derived_cols : list string :=
  ["fcf"; "revenue_yoy"; "gross_margin"; "operating_margin"; "net_margin";
   "fcf_margin"].

(** A store with one concept in two units: an annual fact, an instant fact
    from a quarterly report, a fact with dimensions, and a record that is
    not a dictionary. *)
Definition sample_item (val : Z) (start : option Z) (end_ fy : Z)
  (form : string) (filed : Z) (dims : bool) : jitem :=
  ADict (mkRawItem (FFin (inject_Z val)) start (Some end_) (Some fy)
           (Some "FY") (Some form) (Some filed) None None None dims).

Definition sample_store : CompanyFacts :=
  mkCompanyFacts
    (Some [("us-gaap",
            [("Revenues",
              mkConceptObj (Some "Revenues") None
                (Some [("USD",
                        AList [sample_item 100 (Some 18992) 19357 2022
                                 "10-K" 19400 false;
                               sample_item 7 None 19357 2022 "10-Q" 19401
                                 false;
                               sample_item 40 (Some 18992) 19357 2022
                                 "10-K" 19400 true;
                               NotADict]);
                       ("shares",
                        AList [sample_item 3 None 19357 2022 "10-K" 19400
                                 false]);
                       ("EUR", NotAList)]))])]).

Definition annual_forms_config : NormalizeConfig :=
  mkNormalizeConfig "us-gaap" default_preferred_units false (Some ["10-K"]).

Definition with_keep_forms (cfg : NormalizeConfig) (fs : option (list string))
  : NormalizeConfig :=
  mkNormalizeConfig (taxonomy cfg) (preferred_units cfg) (keep_dimensions cfg)
    fs.

(** The rows [choose_preferred_unit] keeps of the rows [l]: those with a
    listed unit whose rank is the least of their concept. *)
Definition kept_rows (prefs : list string) (l : list Fact) : list Fact :=
  let listed := filter (fun r => unit_rank prefs (f_unit r) <? sentinel_rank)
                  l in
  filter (fun r => unit_rank prefs (f_unit r) =? best_rank prefs listed r)
    listed.

(** The rows [dedupe_keep_latest_filed] keeps of the rows [l]. *)
Definition deduped_rows (l : list Fact) : list Fact :=
  drop_duplicates_last dedupe_key_eqb dedupe_key (sort_by dedupe_order l).

(** The table has every column of the list. *)
Definition has_columns (cs : list string) (d : DataFrame) : Prop :=
  forall c, In c cs -> has_col c d = true.

(** The derived columns as [build_annual_financials_table] appends them to
    the merged table [wide] of [n] rows. *)
Definition with_derived (n : nat) (wide : list (string * column))
  : list (string * column) :=
  let wide := set_column wide "fcf" (derive n wide fsub "cfo" "capex") in
  let wide := set_column wide "revenue_yoy"
                (if has_wide_col wide "revenue"
                 then NumCol (pct_change (num_col wide "revenue"))
                 else na_column n) in
  let wide := set_column wide "gross_margin"
                (derive n wide fdiv "gross_profit" "revenue") in
  let wide := set_column wide "operating_margin"
                (derive n wide fdiv "operating_income" "revenue") in
  let wide := set_column wide "net_margin"
                (derive n wide fdiv "net_income" "revenue") in
  set_column wide "fcf_margin" (derive n wide fdiv "fcf" "revenue").

(** Every column has [n] cells, and only the fiscal-year-end columns hold
    dates. *)
Definition well_formed_columns (n : nat) (cols : list (string * column))
  : Prop :=
  forall k v, In (k, v) cols ->
    column_length v = n
    /\ (is_num_col v = true \/ k = "fiscal_year_end"
        \/ k = "fiscal_year_end_y").

(** The concept that the loop of the builder records for a metric whose
    series is [s]. *)
Definition concept_of_series (s : list SeriesRow) : string :=
  match s with
  | [] => ""
  | _ :: _ => s_concept_used (last s (mkSeriesRow None None FNaN "" ""))
  end.

Definition nonempty {A : Type} (l : list A) : bool :=
  match l with
  | [] => false
  | _ :: _ => true
  end.

Definition record_concept (m : list (string * string))
  (p : ConceptSpec * list SeriesRow) : list (string * string) :=
  dict_set m (name (fst p)) (concept_of_series (snd p)).

(** Column names a metric must avoid to keep its column: the derived
    columns and the fiscal-year-end column with its merge suffixes. *)
Definition reserved_cols : list string :=
  derived_cols ++ ["fiscal_year_end"; "fiscal_year_end_x";
                   "fiscal_year_end_y"].

(** The rows that the aggregate of the group [(fy, nm)] is taken over. *)
Definition in_group (fy : Z) (nm : string) (s : SeriesRow) : bool :=
  opt_eqb Z.eqb (s_fy s) (Some fy) && String.eqb (s_name s) nm
  && negb (isna (s_value s)).

(* ================================================================== *)
(** ** sec_client.py *)

(** A Python [str] is a [string] of code points below 256.  [str.isspace]
    on these code points. *)
Definition is_space (c : ascii) : bool :=
  let n := nat_of_ascii c in
  ((9 <=? n) && (n <=? 13) || (28 <=? n) && (n <=? 32)
   || (n =? 133) || (n =? 160))%nat.

Fixpoint lstrip (s : string) : string :=
  match s with
  | EmptyString => EmptyString
  | String c r => if is_space c then lstrip r else s
  end.

Fixpoint rstrip (s : string) : string :=
  match s with
  | EmptyString => EmptyString
  | String c r =>
      match rstrip r with
      | EmptyString => if is_space c then EmptyString else String c EmptyString
      | String _ _ as r' => String c r'
      end
  end.

(** [s.strip()] *)
Definition strip (s : string) : string := rstrip (lstrip s).

Fixpoint zeros (n : nat) : string :=
  match n with
  | O => EmptyString
  | S k => String "0" (zeros k)
  end.

Definition is_sign (c : ascii) : bool := Ascii.eqb c "+" || Ascii.eqb c "-".

(** [s.zfill(width)]: zeros on the left, after a leading sign. *)
Definition zfill (width : nat) (s : string) : string :=
  if (width <=? String.length s)%nat then s
  else
    let fill := (width - String.length s)%nat in
    match s with
    | EmptyString => zeros fill
    | String c rest =>
        if is_sign c then String c (zeros fill ++ rest)%string
        else (zeros fill ++ s)%string
    end.

(** The argument of [cik_pad10]: [int | str]. *)
Inductive cik_arg : Type :=
| CikInt (n : Z)
| CikStr (s : string).

(** [str(cik)] *)
Definition str (cik : cik_arg) : string :=
  match cik with
  | CikInt n => NilZero.string_of_int (Z.to_int n)
  | CikStr s => s
  end.

Definition cik_pad10 (cik : cik_arg) : string :=
  let s := strip (str cik) in
  zfill 10 s.

(** The configuration of the client.  The time-out of a request and the
    least interval between requests bear on waiting only and are left
    out. *)
Record SecClientConfig : Type := mkSecClientConfig {
  user_agent : string;
  data_base_url : string;
  sec_base_url : string;
  cache_dir : string;
  max_retries : Z
}.

(** What one [session.get] gives: a response with its status code and its
    body as JSON ([None] when [resp.json()] raises), or an exception of the
    transport. *)
Inductive response (json : Type) : Type :=
| Answer (status : Z) (body : option json)
| NoAnswer.
Arguments Answer {json} status body.
Arguments NoAnswer {json}.

(** The exceptions that the [except Exception] of the retry loop catches. *)
Inductive request_error : Type :=
| Forbidden
| HTTPError (status : Z)
| TransportError
| BodyError.

(** The exceptions that leave [get_json]; [RequestFailed] is the
    [RuntimeError] raised [from last_err] after the loop. *)
Inductive client_exn : Type :=
| JSONDecodeError
| RequestFailed (full_url : string) (last_err : option request_error).

Inductive client_result (A : Type) : Type :=
| Got (a : A)
| Raised (e : client_exn).
Arguments Got {A} a.
Arguments Raised {A} e.

(** The files of the cache directory, by path, and the URLs requested so
    far, oldest first.  Waiting (rate limit, back-off) changes neither. *)
Record world : Type := mkWorld {
  cache : list (string * string);
  requests : list string
}.

Section SecClient.

Context {json : Type}.
(** [json.dumps], [json.loads] ([None]: it raises) and the hexadecimal
    SHA-256 digest of a key. *)
Variable dumps : json -> string.
Variable loads : string -> option json.
Variable sha256_hexdigest : string -> string.
(** The answer to the [n]-th request of the session, made to a URL. *)
Variable server : nat -> string -> response json.

Definition _make_cache_filename (key : string) : string :=
  (substring 0 24 (sha256_hexdigest key) ++ ".json")%string.

Definition _cache_key_to_path (cfg : SecClientConfig) (cache_key : string)
  : string :=
  (cache_dir cfg ++ "/" ++ _make_cache_filename cache_key)%string.

Definition full_url_of (cfg : SecClientConfig) (url : string) : string :=
  if prefix "http" url then url
  else if prefix "/" url then (data_base_url cfg ++ url)%string
  else (data_base_url cfg ++ "/" ++ url)%string.

(** [cache_key or full_url]: an empty key counts as none. *)
Definition cache_file_of (cfg : SecClientConfig) (url : string)
  (cache_key : option string) : string :=
  let full_url := full_url_of cfg url in
  let key := match cache_key with
             | Some k => if String.eqb k "" then full_url else k
             | None => full_url
             end in
  _cache_key_to_path cfg key.

(** The loop [for attempt in range(1, max_retries + 1)], by the number of
    attempts that are left. *)
Fixpoint retry_loop (attempts : nat) (full_url cache_file : string)
  (last_err : option request_error) (w : world)
  : world * client_result json :=
  match attempts with
  | O => (w, Raised (RequestFailed full_url last_err))
  | S rest =>
      let w1 := mkWorld (cache w) (requests w ++ [full_url]) in
      match server (List.length (requests w)) full_url with
      | NoAnswer => retry_loop rest full_url cache_file (Some TransportError) w1
      | Answer status body =>
          if status =? 429
          then retry_loop rest full_url cache_file last_err w1
          else if status =? 403
          then retry_loop rest full_url cache_file (Some Forbidden) w1
          else if (400 <=? status) && (status <? 600)
          then retry_loop rest full_url cache_file
                 (Some (HTTPError status)) w1
          else
            match body with
            | None => retry_loop rest full_url cache_file (Some BodyError) w1
            | Some data =>
                (mkWorld (dict_set (cache w1) cache_file (dumps data))
                   (requests w1),
                 Got data)
            end
      end
  end.

Definition get_json (cfg : SecClientConfig) (url : string)
  (cache_key : option string) (use_cache : bool) (w : world)
  : world * client_result json :=
  let full_url := full_url_of cfg url in
  let cache_file := cache_file_of cfg url cache_key in
  match (if use_cache then dict_get (cache w) cache_file else None) with
  | Some text =>
      match loads text with
      | Some data => (w, Got data)
      | None => (w, Raised JSONDecodeError)
      end
  | None =>
      retry_loop (Z.to_nat (max_retries cfg)) full_url cache_file None w
  end.

Definition get_submissions (cfg : SecClientConfig) (cik10 : cik_arg)
  (use_cache : bool) (w : world) : world * client_result json :=
  let cik10 := cik_pad10 cik10 in
  get_json cfg ("/submissions/CIK" ++ cik10 ++ ".json")%string
    (Some ("submissions_" ++ cik10)%string) use_cache w.

Definition get_companyfacts (cfg : SecClientConfig) (cik10 : cik_arg)
  (use_cache : bool) (w : world) : world * client_result json :=
  let cik10 := cik_pad10 cik10 in
  get_json cfg ("/api/xbrl/companyfacts/CIK" ++ cik10 ++ ".json")%string
    (Some ("companyfacts_" ++ cik10)%string) use_cache w.

End SecClient.

(** A server that refuses every request, and a client configuration. *)
Definition refusing_server : nat -> string -> response string :=
  fun _ _ => Answer 403 None.

Definition answering_server : nat -> string -> response string :=
  fun _ _ => Answer 200 (Some "{}").

Definition sample_client_config : SecClientConfig :=
  mkSecClientConfig "Jane Doe jane@example.com" "https://data.sec.gov"
    "https://www.sec.gov" ".cache" 3.

Definition fresh_world : world := mkWorld [] [].

(** A string that [strip] leaves as it is. *)
Definition stripped (s : string) : Prop :=
  match s with
  | EmptyString => True
  | String c r => is_space c = false /\ rstrip r = r
  end.

(** The first row of the sample store under [annual_forms_config], and the
    net income series of [revenue_missing_2022_frame]. *)
Definition sample_row : Fact :=
  Eval vm_compute in
    hd (annual_fact "Revenues" 100 18992 19357 2022)
      (rows (normalize_companyfacts_to_df sample_store annual_forms_config)).

Definition net_income_spec : ConceptSpec :=
  mkConceptSpec "net_income" ["NetIncomeLoss"]
    "USD" (Some "duration") (Some ["10-K"]).

Definition net_income_series : list SeriesRow :=
  Eval vm_compute in
    match extract_annual_series revenue_missing_2022_frame net_income_spec 5
    with
    | Ok s => s
    | Err _ => []
    end.

(* ================================================================== *)
(** * Properties *)

(** ** Calendar *)

Example year_of_samples :
  year_of 0 = 1970 /\ year_of (-1) = 1969 /\ year_of 10956 = 1999
  /\ year_of 11016 = 2000 /\ year_of 18992 = 2021 /\ year_of 18993 = 2022
  /\ year_of 19357 = 2022 /\ year_of 19358 = 2023.
Proof. repeat split; reflexivity. Qed.

(** ** The error monad *)


Lemma bind_ok_inv {A B : Type} (m : result A) (k : A -> result B) (b : B) :
  bind m k = Ok b -> exists a, m = Ok a /\ k a = Ok b.
Proof. destruct m as [a|e]; simpl; [eauto | discriminate]. Qed.

Lemma need_ok (c : string) (d : DataFrame) :
  has_col c d = true -> need c d = Ok tt.
Proof. unfold need. intros ->. reflexivity. Qed.


(** ** Orders *)

Section Orders.
Context {A : Type}.

Lemma good_refl (c : cmp_t A) : good_cmp c -> forall x, c x x = Eq.
Proof.
  intros [Hs _] x. specialize (Hs x x).
  destruct (c x x); simpl in Hs; congruence.
Qed.

Lemma good_flip (c : cmp_t A) :
  good_cmp c -> forall x y r, c x y = r -> c y x = CompOpp r.
Proof. intros [Hs _] x y r <-. apply Hs. Qed.

Lemma good_eq_l (c : cmp_t A) :
  good_cmp c -> forall x y z, c x y = Eq -> c x z = c y z.
Proof.
  intros Hg x y z Hxy. pose proof Hg as [Hs Ht].
  pose proof (good_flip c Hg _ _ _ Hxy) as Hyx. simpl in Hyx.
  destruct (c y z) eqn:Hyz.
  - eapply Ht; eauto.
  - destruct (c x z) eqn:Hxz; [ | reflexivity | ].
    + rewrite (Ht Eq y x z Hyx Hxz) in Hyz. discriminate.
    + pose proof (good_flip c Hg _ _ _ Hxz) as Hzx. simpl in Hzx.
      rewrite (Ht Lt y z x Hyz Hzx) in Hyx. discriminate.
  - destruct (c x z) eqn:Hxz; [ | | reflexivity ].
    + rewrite (Ht Eq y x z Hyx Hxz) in Hyz. discriminate.
    + pose proof (good_flip c Hg _ _ _ Hyz) as Hzy. simpl in Hzy.
      rewrite (Ht Lt x z y Hxz Hzy) in Hxy. discriminate.
Qed.

Lemma good_eq_r (c : cmp_t A) :
  good_cmp c -> forall x y z, c y z = Eq -> c x z = c x y.
Proof.
  intros Hg x y z Hyz. pose proof Hg as [Hs _].
  pose proof (good_flip c Hg _ _ _ Hyz) as Hzy. simpl in Hzy.
  rewrite (Hs z x), (Hs y x).
  f_equal. apply (good_eq_l c Hg). exact Hzy.
Qed.

Lemma le_of_refl (c : cmp_t A) : good_cmp c -> forall x, le_of c x x.
Proof. intros Hg x. unfold le_of. rewrite (good_refl c Hg). discriminate. Qed.

Lemma le_of_trans (c : cmp_t A) :
  good_cmp c -> forall x y z, le_of c x y -> le_of c y z -> le_of c x z.
Proof.
  intros Hg x y z. unfold le_of. pose proof Hg as [Hs Ht].
  destruct (c x y) eqn:Hxy; [ | | congruence ]; intros _.
  - rewrite (good_eq_l c Hg _ _ z Hxy). auto.
  - destruct (c y z) eqn:Hyz; [ | | congruence ]; intros _.
    + rewrite (good_eq_r c Hg x _ _ Hyz), Hxy. discriminate.
    + rewrite (Ht Lt x y z Hxy Hyz). discriminate.
Qed.

Lemma le_of_total (c : cmp_t A) :
  good_cmp c -> forall x y, c x y = Gt -> le_of c y x.
Proof.
  intros Hg x y H. unfold le_of.
  rewrite (good_flip c Hg _ _ _ H). discriminate.
Qed.

(** The lexicographic combination of two orders is an order. *)
Lemma good_then_by (c1 c2 : cmp_t A) :
  good_cmp c1 -> good_cmp c2 -> good_cmp (then_by c1 c2).
Proof.
  intros H1 H2. pose proof H1 as [Hs1 Ht1]. pose proof H2 as [Hs2 Ht2].
  split.
  - intros x y. unfold then_by, lex. rewrite (Hs1 x y), (Hs2 x y).
    destruct (c1 x y); reflexivity.
  - intros r x y z. unfold then_by, lex.
    destruct (c1 x y) eqn:Hxy.
    + rewrite (good_eq_l c1 H1 _ _ z Hxy).
      destruct (c1 y z) eqn:Hyz; intros E1 E2; try congruence.
      eapply Ht2; eauto.
    + destruct (c1 y z) eqn:Hyz; intros E1 E2; try congruence.
      * rewrite (good_eq_r c1 H1 x _ _ Hyz), Hxy. congruence.
      * rewrite (Ht1 Lt x y z Hxy Hyz). congruence.
    + destruct (c1 y z) eqn:Hyz; intros E1 E2; try congruence.
      * rewrite (good_eq_r c1 H1 x _ _ Hyz), Hxy. congruence.
      * rewrite (Ht1 Gt x y z Hxy Hyz). congruence.
Qed.

Lemma good_by_key {K : Type} (k : A -> K) (c : cmp_t K) :
  good_cmp c -> good_cmp (by_key k c).
Proof.
  intros [Hs Ht]. split; unfold by_key.
  - intros x y. apply Hs.
  - intros r x y z. apply Ht.
Qed.

Lemma good_desc (c : cmp_t A) : good_cmp c -> good_cmp (desc c).
Proof.
  intros [Hs Ht]. split; unfold desc.
  - intros x y. apply Hs.
  - intros r x y z Hxy Hyz. eapply Ht; eauto.
Qed.

Lemma good_na_last (c : cmp_t A) : good_cmp c -> good_cmp (na_last c).
Proof.
  intros [Hs Ht]. split.
  - intros [x|] [y|]; simpl; auto.
  - intros r [x|] [y|] [z|]; simpl; try congruence. apply Ht.
Qed.
End Orders.

Lemma good_Z_compare : good_cmp Z.compare.
Proof.
  split.
  - intros x y. apply Z.compare_antisym.
  - intros [ | | ] x y z.
    + rewrite !Z.compare_eq_iff. congruence.
    + rewrite !Z.compare_lt_iff. lia.
    + rewrite !Z.compare_gt_iff. lia.
Qed.

Lemma good_bool_cmp : good_cmp bool_cmp.
Proof.
  split.
  - intros [ | ] [ | ]; reflexivity.
  - intros r [ | ] [ | ] [ | ]; simpl; congruence.
Qed.

Lemma good_ascii_compare : good_cmp Ascii.compare.
Proof.
  split.
  - intros x y. apply Ascii.compare_antisym.
  - intros [ | | ] x y z; unfold Ascii.compare.
    + rewrite !N.compare_eq_iff. congruence.
    + rewrite !N.compare_lt_iff. lia.
    + rewrite !N.compare_gt_iff. lia.
Qed.

Lemma good_str_cmp : good_cmp str_cmp.
Proof.
  split.
  - intros x y. unfold str_cmp. apply String.compare_antisym.
  - unfold str_cmp. intros r x. revert r.
    induction x as [ | a x IH]; intros r [ | b y] [ | c z]; simpl;
      try congruence.
    pose proof good_ascii_compare as Hg. pose proof Hg as [_ Ht].
    destruct (Ascii.compare a b) eqn:Hab.
    + rewrite (good_eq_l _ Hg _ _ c Hab).
      destruct (Ascii.compare b c) eqn:Hbc; intros E1 E2; try congruence.
      eapply IH; eauto.
    + destruct (Ascii.compare b c) eqn:Hbc; intros E1 E2; try congruence.
      * rewrite (good_eq_r _ Hg a _ _ Hbc), Hab. congruence.
      * rewrite (Ht Lt a b c Hab Hbc). congruence.
    + destruct (Ascii.compare b c) eqn:Hbc; intros E1 E2; try congruence.
      * rewrite (good_eq_r _ Hg a _ _ Hbc), Hab. congruence.
      * rewrite (Ht Gt a b c Hab Hbc). congruence.
Qed.

(** ** The stable sort *)

Section Sorting.
Context {A : Type} (c : cmp_t A).

Lemma insert_by_In (x y : A) (l : list A) :
  In y (insert_by c x l) <-> y = x \/ In y l.
Proof.
  induction l as [ | a l IH]; simpl.
  - intuition.
  - destruct (c x a); simpl; try rewrite IH; intuition.
Qed.

Lemma sort_by_In (y : A) (l : list A) : In y (sort_by c l) <-> In y l.
Proof.
  induction l as [ | a l IH]; simpl.
  - reflexivity.
  - fold (sort_by c l). rewrite insert_by_In, IH. intuition.
Qed.


Hypothesis Hg : good_cmp c.

Lemma insert_by_sorted (x : A) (l : list A) :
  StronglySorted (le_of c) l -> StronglySorted (le_of c) (insert_by c x l).
Proof.
  induction l as [ | a l IH]; intros Hl; simpl.
  - constructor; constructor.
  - inversion Hl as [ | ? ? Hl' Hall]; subst.
    destruct (c x a) eqn:Hxa.
    + constructor; [ exact Hl | ].
      constructor; [ unfold le_of; congruence | ].
      eapply Forall_impl; [ | exact Hall ].
      intros y Hy. eapply le_of_trans; eauto. unfold le_of; congruence.
    + constructor; [ exact Hl | ].
      constructor; [ unfold le_of; congruence | ].
      eapply Forall_impl; [ | exact Hall ].
      intros y Hy. eapply le_of_trans; eauto. unfold le_of; congruence.
    + constructor; [ apply IH; exact Hl' | ].
      apply Forall_forall. intros y Hy. apply insert_by_In in Hy.
      destruct Hy as [-> | Hy].
      * apply le_of_total; assumption.
      * rewrite Forall_forall in Hall. apply Hall. exact Hy.
Qed.

Lemma sort_by_sorted (l : list A) : StronglySorted (le_of c) (sort_by c l).
Proof.
  induction l as [ | a l IH]; simpl.
  - constructor.
  - apply insert_by_sorted. exact IH.
Qed.

(** Sorting a sorted list changes nothing. *)
Lemma sort_by_sorted_id (l : list A) :
  StronglySorted (le_of c) l -> sort_by c l = l.
Proof.
  induction l as [ | a l IH]; intros Hl; simpl.
  - reflexivity.
  - inversion Hl as [ | ? ? Hl' Hall]; subst.
    fold (sort_by c l). rewrite (IH Hl').
    destruct l as [ | b l]; [ reflexivity | ]. simpl.
    inversion Hall as [ | ? ? Hab _]; subst. unfold le_of in Hab.
    destruct (c a b); congruence.
Qed.

End Sorting.

(** ** Dropping duplicates *)

Section Duplicates.
Context {A K : Type} (eqb : K -> K -> bool) (k : A -> K).
Hypothesis eqb_spec : forall a b, eqb a b = true <-> a = b.

Lemma existsb_eqb_In (x : K) (seen : list K) :
  existsb (eqb x) seen = true <-> In x seen.
Proof.
  rewrite existsb_exists. split.
  - intros [y [Hy E]]. apply eqb_spec in E. subst. exact Hy.
  - intros H. exists x. split; [ exact H | apply eqb_spec; reflexivity ].
Qed.

Lemma drop_first_In (r : A) (l : list A) (seen : list K) :
  In r (drop_duplicates_first eqb k seen l) -> In r l /\ ~ In (k r) seen.
Proof.
  revert seen. induction l as [ | a l IH]; simpl; intros seen H.
  - destruct H.
  - destruct (existsb (eqb (k a)) seen) eqn:E.
    + apply IH in H. tauto.
    + destruct H as [<- | H].
      * split; [ tauto | ]. rewrite <- existsb_eqb_In. congruence.
      * apply IH in H. simpl in H. tauto.
Qed.


Lemma drop_first_keys_NoDup (l : list A) (seen : list K) :
  NoDup (map k (drop_duplicates_first eqb k seen l)).
Proof.
  revert seen. induction l as [ | a l IH]; simpl; intros seen.
  - constructor.
  - destruct (existsb (eqb (k a)) seen) eqn:E; [ apply IH | ].
    simpl. constructor; [ | apply IH ].
    intros Hin. apply in_map_iff in Hin. destruct Hin as [r [Hk Hr]].
    apply drop_first_In in Hr. destruct Hr as [_ Hns].
    apply Hns. left. symmetry. exact Hk.
Qed.



Lemma drop_last_In (r : A) (l : list A) :
  In r (drop_duplicates_last eqb k l) -> In r l.
Proof.
  induction l as [ | a l IH]; simpl; [ tauto | ].
  destruct (existsb _ l); simpl; intuition.
Qed.

Lemma drop_last_keys_NoDup (l : list A) :
  NoDup (map k (drop_duplicates_last eqb k l)).
Proof.
  induction l as [ | a l IH]; simpl.
  - constructor.
  - destruct (existsb (fun y => eqb (k a) (k y)) l) eqn:E; [ exact IH | ].
    simpl. constructor; [ | exact IH ].
    intros Hin. apply in_map_iff in Hin. destruct Hin as [r [Hk Hr]].
    apply drop_last_In in Hr.
    assert (existsb (fun y => eqb (k a) (k y)) l = true); [ | congruence ].
    apply existsb_exists. exists r. split; [ exact Hr | ].
    apply eqb_spec. symmetry. exact Hk.
Qed.

(** Rows with distinct keys are all kept. *)
Lemma drop_last_NoDup_id (l : list A) :
  NoDup (map k l) -> drop_duplicates_last eqb k l = l.
Proof.
  induction l as [ | a l IH]; simpl; intros Hnd.
  - reflexivity.
  - inversion Hnd as [ | ? ? Hna Hnd']; subst.
    destruct (existsb (fun y => eqb (k a) (k y)) l) eqn:E.
    + exfalso. apply Hna. apply existsb_exists in E.
      destruct E as [r [Hr E]]. apply eqb_spec in E. rewrite E.
      apply in_map. exact Hr.
    + f_equal. apply IH. exact Hnd'.
Qed.

Lemma drop_last_sorted (R : A -> A -> Prop) (l : list A) :
  StronglySorted R l -> StronglySorted R (drop_duplicates_last eqb k l).
Proof.
  induction l as [ | a l IH]; simpl; intros Hs.
  - constructor.
  - inversion Hs as [ | ? ? Hs' Hall]; subst.
    destruct (existsb _ l); [ auto | ].
    constructor; [ auto | ].
    rewrite Forall_forall in *. intros y Hy. apply Hall.
    apply drop_last_In. exact Hy.
Qed.
End Duplicates.

(** ** Data frames *)

Lemma has_col_select (c : string) (p : Fact -> bool) (d : DataFrame) :
  has_col c (select p d) = has_col c d.
Proof. reflexivity. Qed.

Lemma has_col_with_rows (c : string) (l : list Fact) (d : DataFrame) :
  has_col c (with_rows l d) = has_col c d.
Proof. reflexivity. Qed.

Lemma str_in_In (s : string) (l : list string) :
  str_in s l = true <-> In s l.
Proof.
  unfold str_in. rewrite existsb_exists. split.
  - intros [x [Hx E]]. apply String.eqb_eq in E. subst. exact Hx.
  - intros H. exists s. split; [ exact H | apply String.eqb_refl ].
Qed.

Lemma has_col_assign (c c' : string) (f : Fact -> Fact) (d : DataFrame) :
  has_col c (assign c' f d) = has_col c d || String.eqb c c'.
Proof.
  unfold assign, has_col at 1. simpl.
  destruct (has_col c' d) eqn:E.
  - fold (has_col c d). destruct (String.eqb c c') eqn:Ec.
    + apply String.eqb_eq in Ec. subst. rewrite E. reflexivity.
    + rewrite orb_false_r. reflexivity.
  - unfold str_in. rewrite existsb_app. simpl. rewrite orb_false_r.
    reflexivity.
Qed.

Lemma need_all_same_columns (cs : list string) (d d' : DataFrame) :
  columns d = columns d' -> need_all cs d = need_all cs d'.
Proof.
  intros H. induction cs as [ | c cs IH]; simpl; [ reflexivity | ].
  unfold need, has_col. rewrite H, IH. reflexivity.
Qed.

Lemma has_col_columns (c : string) (d : DataFrame) :
  has_col c d = true -> columns d <> [].
Proof. unfold has_col. destruct (columns d); [ discriminate | discriminate ]. Qed.

Lemma empty_false_rows (d : DataFrame) : empty d = false -> rows d <> [].
Proof. unfold empty. destruct (rows d); [ discriminate | discriminate ]. Qed.

Lemma empty_true_rows (d : DataFrame) :
  columns d <> [] -> empty d = true -> rows d = [].
Proof.
  unfold empty. destruct (rows d); [ reflexivity | ].
  destruct (columns d); [ congruence | discriminate ].
Qed.

(** ** Latest-filed deduplication *)

Lemma opt_eqb_spec {A : Type} (eqb : A -> A -> bool) :
  (forall a b, eqb a b = true <-> a = b) ->
  forall x y, opt_eqb eqb x y = true <-> x = y.
Proof.
  intros H [a|] [b|]; simpl; try rewrite H;
    split; intros E; try congruence; try discriminate; reflexivity.
Qed.

Lemma dedupe_key_eqb_spec a b : dedupe_key_eqb a b = true <-> a = b.
Proof.
  destruct a as [[[[[[c1 u1] s1] e1] y1] p1] m1].
  destruct b as [[[[[[c2 u2] s2] e2] y2] p2] m2].
  unfold dedupe_key_eqb. rewrite !andb_true_iff.
  rewrite !String.eqb_eq.
  rewrite !(opt_eqb_spec Z.eqb Z.eqb_eq).
  rewrite (opt_eqb_spec String.eqb String.eqb_eq).
  split.
  - intros [[[[[[-> ->] ->] ->] ->] ->] ->]. reflexivity.
  - intros E. inversion E. subst. tauto.
Qed.

Lemma good_dedupe_order : good_cmp dedupe_order.
Proof.
  unfold dedupe_order.
  repeat apply good_then_by;
    apply good_by_key; try apply good_na_last;
    first [ exact good_Z_compare | exact good_str_cmp ].
Qed.

(** After a pass over a non-empty table every identity tuple occurs once. *)
Lemma dedupe_groups_singleton (df d' : DataFrame) :
  empty df = false -> dedupe_keep_latest_filed df = Ok d' ->
  NoDup (map dedupe_key (rows d')).
Proof.
  unfold dedupe_keep_latest_filed. intros ->.
  destruct (need_all dedupe_columns df); simpl; [ | discriminate ].
  intros E. inversion E. subst. simpl.
  apply drop_last_keys_NoDup. exact dedupe_key_eqb_spec.
Qed.

(** C9. Latest-filed deduplication is idempotent: a second pass over the
    result of a first pass returns that result, and a pass that raises
    leaves its exception. *)
Theorem dedupe_keep_latest_filed_idempotent (df : DataFrame) :
  bind (dedupe_keep_latest_filed df) dedupe_keep_latest_filed
  = dedupe_keep_latest_filed df.
Proof.
  unfold dedupe_keep_latest_filed at 1 3.
  destruct (empty df) eqn:Hempty.
  - simpl. unfold dedupe_keep_latest_filed. rewrite Hempty. reflexivity.
  - destruct (need_all dedupe_columns df) as [[]|e] eqn:Hneed; simpl;
      [ | reflexivity ].
    set (sorted := sort_by dedupe_order (rows df)).
    set (kept := drop_duplicates_last dedupe_key_eqb dedupe_key sorted).
    unfold dedupe_keep_latest_filed.
    destruct (empty (with_rows kept (with_rows sorted df)));
      [ reflexivity | ].
    rewrite (need_all_same_columns dedupe_columns _ df) by reflexivity.
    rewrite Hneed. simpl. unfold with_rows. simpl. do 2 f_equal.
    assert (Hsorted : StronglySorted (le_of dedupe_order) kept).
    { apply drop_last_sorted. apply sort_by_sorted. exact good_dedupe_order. }
    rewrite (sort_by_sorted_id _ kept Hsorted).
    apply drop_last_NoDup_id; [ exact dedupe_key_eqb_spec | ].
    apply drop_last_keys_NoDup. exact dedupe_key_eqb_spec.
Qed.

(** ** Preferred unit selection *)

Lemma index_of_In (u : string) (l : list string) (i : Z) :
  index_of u l = Some i -> In u l.
Proof.
  revert i. induction l as [ | x l IH]; simpl; intros i H; [ discriminate | ].
  destruct (String.eqb x u) eqn:E.
  - left. apply String.eqb_eq. exact E.
  - destruct (index_of u l); [ right; eapply IH; reflexivity | discriminate ].
Qed.

Lemma index_of_inj (u v : string) (l : list string) (i : Z) :
  index_of u l = Some i -> index_of v l = Some i -> u = v.
Proof.
  revert i. induction l as [ | x l IH]; simpl; intros i Hu Hv;
    [ discriminate | ].
  assert (Hnn : forall w j, index_of w l = Some j -> 0 <= j).
  { clear. induction l as [ | y l IHl]; simpl; intros w j H;
      [ discriminate | ].
    destruct (String.eqb y w); [ inversion H; lia | ].
    destruct (index_of w l) eqn:E; [ | discriminate ].
    inversion H. specialize (IHl _ _ E). lia. }
  destruct (String.eqb x u) eqn:Eu, (String.eqb x v) eqn:Ev.
  - apply String.eqb_eq in Eu, Ev. congruence.
  - destruct (index_of v l) eqn:E; [ | discriminate ].
    inversion Hu. inversion Hv. apply Hnn in E. lia.
  - destruct (index_of u l) eqn:E; [ | discriminate ].
    inversion Hu. inversion Hv. apply Hnn in E. lia.
  - destruct (index_of u l) eqn:E1; [ | discriminate ].
    destruct (index_of v l) eqn:E2; [ | discriminate ].
    inversion Hu. inversion Hv. apply (IH z); [ reflexivity | f_equal; lia ].
Qed.

Lemma unit_rank_listed (prefs : list string) (u : string) :
  unit_rank prefs u < sentinel_rank -> In u prefs.
Proof.
  unfold unit_rank. destruct (index_of u prefs) eqn:E; [ | lia ].
  intros _. eapply index_of_In. exact E.
Qed.

Lemma unit_rank_inj (prefs : list string) (u v : string) :
  unit_rank prefs u < sentinel_rank ->
  unit_rank prefs u = unit_rank prefs v -> u = v.
Proof.
  unfold unit_rank. destruct (index_of u prefs) eqn:Eu; [ | lia ].
  destruct (index_of v prefs) eqn:Ev; [ | lia ].
  intros _ ->. eapply index_of_inj; eauto.
Qed.

Lemma best_rank_le_own (prefs : list string) (l : list Fact) (r : Fact) :
  best_rank prefs l r <= unit_rank prefs (f_unit r).
Proof.
  unfold best_rank. induction l as [ | a l IH]; simpl; [ lia | ].
  destruct (String.eqb (f_concept a) (f_concept r)); lia.
Qed.

Lemma best_rank_le_group (prefs : list string) (l : list Fact) (r r' : Fact) :
  In r' l -> f_concept r' = f_concept r ->
  best_rank prefs l r <= unit_rank prefs (f_unit r').
Proof.
  unfold best_rank. induction l as [ | a l IH]; simpl; intros Hin Hc;
    [ destruct Hin | ].
  destruct Hin as [-> | Hin].
  - rewrite Hc, String.eqb_refl. lia.
  - specialize (IH Hin Hc).
    destruct (String.eqb (f_concept a) (f_concept r)); lia.
Qed.

(** C8. The preferred-unit step returns a table without rows unchanged.  On
    a table with the unit and concept columns it returns rows of the input
    whose unit is in the preference list and has the least rank among the
    listed units seen for the row's concept, and rows of one concept share
    their unit. *)
Theorem choose_preferred_unit_spec (df : DataFrame)
  (preferred_units : option (list string)) :
  let prefs := or_default preferred_units default_preferred_units in
  (rows df = [] -> choose_preferred_unit df preferred_units = Ok df) /\
  (has_col "unit" df = true -> has_col "concept" df = true ->
   exists out,
     choose_preferred_unit df preferred_units = Ok out /\
     (forall r, In r (rows out) ->
        In r (rows df) /\ In (f_unit r) prefs /\
        forall r', In r' (rows df) -> f_concept r' = f_concept r ->
          In (f_unit r') prefs ->
          unit_rank prefs (f_unit r) <= unit_rank prefs (f_unit r')) /\
     (forall r1 r2, In r1 (rows out) -> In r2 (rows out) ->
        f_concept r1 = f_concept r2 -> f_unit r1 = f_unit r2)).
Proof.
  intros prefs. unfold choose_preferred_unit. fold prefs. split.
  { intros Hnil. unfold empty. rewrite Hnil. reflexivity. }
  intros Hunit Hconcept.
  destruct (empty df) eqn:Hempty.
  - exists df. split; [ reflexivity | ].
    assert (Hnil : rows df = []).
    { apply empty_true_rows; [ | exact Hempty ].
      apply (has_col_columns _ _ Hunit). }
    rewrite Hnil. split; [ intros r [] | intros r1 r2 [] ].
  - rewrite (need_ok _ _ Hunit). simpl.
    set (df2 := select (fun r => unit_rank prefs (f_unit r) <? sentinel_rank) df).
    destruct (empty df2) eqn:Hempty2.
    + exists df2. split; [ reflexivity | ].
      assert (Hnil : rows df2 = []).
      { apply empty_true_rows; [ | exact Hempty2 ].
        apply (has_col_columns "unit"). exact Hunit. }
      rewrite Hnil. split; [ intros r [] | intros r1 r2 [] ].
    + assert (Hc2 : has_col "concept" df2 = true) by exact Hconcept.
      rewrite (need_ok _ _ Hc2). simpl. eexists. split; [ reflexivity | ].
      assert (Hkept : forall r,
        In r (filter (fun r => unit_rank prefs (f_unit r)
                               =? best_rank prefs (rows df2) r) (rows df2)) ->
        In r (rows df) /\ unit_rank prefs (f_unit r) < sentinel_rank /\
        unit_rank prefs (f_unit r) = best_rank prefs (rows df2) r).
      { intros r Hr. apply filter_In in Hr. destruct Hr as [Hr E].
        simpl in Hr. apply filter_In in Hr. destruct Hr as [Hr Hlt].
        repeat split; [ exact Hr | lia | lia ]. }
      split.
      * intros r Hr. destruct (Hkept r Hr) as [Hin [Hlt Hbest]].
        split; [ exact Hin | ]. split; [ apply unit_rank_listed; exact Hlt | ].
        intros r' Hin' Hc' _.
        destruct (unit_rank prefs (f_unit r') <? sentinel_rank) eqn:E.
        -- rewrite Hbest. apply best_rank_le_group; [ | exact Hc' ].
           simpl. apply filter_In. split; assumption.
        -- lia.
      * intros r1 r2 H1 H2 Hc.
        pose proof H1 as H1'. pose proof H2 as H2'.
        apply filter_In in H1', H2'. destruct H1' as [H1' _], H2' as [H2' _].
        destruct (Hkept r1 H1) as [_ [Hlt1 Hb1]].
        destruct (Hkept r2 H2) as [_ [Hlt2 Hb2]].
        apply (unit_rank_inj prefs); [ exact Hlt1 | ].
        pose proof (best_rank_le_group prefs (rows df2) r1 r2 H2'
                      (eq_sym Hc)).
        pose proof (best_rank_le_group prefs (rows df2) r2 r1 H1' Hc).
        lia.
Qed.

(** ** Duration annualization *)

Lemma frame_eta (d : DataFrame) : mkFrame (columns d) (rows d) = d.
Proof. destruct d. reflexivity. Qed.

Lemma assign_id (c : string) (d : DataFrame) :
  has_col c d = true -> assign c (fun r => r) d = d.
Proof.
  intros H. unfold assign. rewrite H, map_id. apply frame_eta.
Qed.

Lemma coerce_or_na_present (c : string) (d : DataFrame) (na : Fact -> Fact) :
  has_col c d = true -> coerce_or_na c d na = (fun r => r).
Proof. unfold coerce_or_na. intros ->. reflexivity. Qed.

Lemma existsb_filter_nil {A : Type} (p : A -> bool) (l : list A) :
  existsb p l = match filter p l with [] => false | _ => true end.
Proof.
  induction l as [ | a l IH]; simpl; [ reflexivity | ].
  destruct (p a); simpl; [ reflexivity | exact IH ].
Qed.

Lemma empty_select (p : Fact -> bool) (d : DataFrame) :
  columns d <> [] -> empty (select p d) = negb (existsb p (rows d)).
Proof.
  intros H. unfold empty, select. simpl. rewrite existsb_filter_nil.
  destruct (filter p (rows d)); [ reflexivity | ].
  destruct (columns d); [ congruence | reflexivity ].
Qed.


Lemma annual_rule_In (r : Fact) (l : list Fact) :
  In r (annual_rule l) -> In r l.
Proof.
  unfold annual_rule.
  destruct (existsb qtrs_is_4 l);
    [ | destruct (existsb is_fy_tag l) ]; intros H;
    try (apply filter_In in H; tauto); exact H.
Qed.

(** On facts that all have a start date the span filter is never skipped. *)
Lemma span_filter_durations (l : list Fact) :
  (forall r, In r l -> notna (f_start r) = true) ->
  annualize_spec l = filter near_one_year (annual_rule l).
Proof.
  intros Hstart. unfold annualize_spec, span_filter.
  destruct (annual_rule l) as [ | r m] eqn:E; [ reflexivity | ].
  assert (Hr : notna (f_start r) = true).
  { apply Hstart. apply annual_rule_In. rewrite E. left. reflexivity. }
  cbn [existsb]. rewrite Hr. reflexivity.
Qed.

(** C2. On a table of duration facts (the start, end, qtrs and fp columns are
    there) annualization returns the rows that the ordered rules leave:
    the four-quarter facts, else the FY-tagged facts, else all, and then,
    unless no remaining fact has a start date, those spanning 330 to 400
    days; when every fact has a start date the span filter is applied.  Of a
    four-quarter fact over 365 days and a two-quarter fact over 181 days
    only the first is kept. *)
Theorem annualize_duration_series_spec (d : DataFrame)
  (Hstart : has_col "start" d = true) (Hend : has_col "end" d = true)
  (Hqtrs : has_col "qtrs" d = true) (Hfp : has_col "fp" d = true) :
  _annualize_duration_series d = Ok (with_rows (annualize_spec (rows d)) d)
  /\ ((forall r, In r (rows d) -> notna (f_start r) = true) ->
      _annualize_duration_series d
      = Ok (with_rows (filter near_one_year (annual_rule (rows d))) d))
  /\ _annualize_duration_series two_durations_2022
     = Ok (with_rows [fact_full_year_2022] two_durations_2022)
  /\ span_days fact_full_year_2022 = Some 365
  /\ span_days fact_half_year_2022 = Some 181.
Proof.
  assert (Hmain : _annualize_duration_series d
                  = Ok (with_rows (annualize_spec (rows d)) d)).
  { pose proof (has_col_columns _ _ Hend) as Hcols.
    unfold _annualize_duration_series.
    destruct (empty d) eqn:Hempty.
    - pose proof (empty_true_rows d Hcols Hempty) as Hnil.
      destruct d as [cols rs]. simpl in Hnil. subst rs. reflexivity.
    - rewrite (coerce_or_na_present _ _ _ Hstart).
      rewrite (assign_id _ _ Hstart), (need_ok _ _ Hend). simpl.
      rewrite (assign_id _ _ Hend), Hqtrs.
      rewrite (empty_select _ _ Hcols), negb_involutive.
      unfold annualize_spec, annual_rule, span_filter.
      destruct (existsb qtrs_is_4 (rows d)) eqn:Hq4.
      + simpl. destruct (existsb (fun r => notna (f_start r))
                           (filter qtrs_is_4 (rows d))); reflexivity.
      + simpl. rewrite Hfp. rewrite (empty_select _ _ Hcols), negb_involutive.
        destruct (existsb is_fy_tag (rows d)) eqn:Hfy.
        * simpl. destruct (existsb (fun r => notna (f_start r))
                             (filter is_fy_tag (rows d))); reflexivity.
        * simpl. destruct (existsb (fun r => notna (f_start r)) (rows d));
            unfold with_rows, select; try rewrite frame_eta; reflexivity. }
  split; [ exact Hmain | ]. split.
  - intros Hall. rewrite Hmain, (span_filter_durations _ Hall). reflexivity.
  - repeat split; reflexivity.
Qed.

(** ** Best row per fiscal year *)

Lemma good_best_row_order (d : DataFrame) : good_cmp (best_row_order d).
Proof.
  unfold best_row_order.
  pose proof good_Z_compare as HZ.
  pose proof (good_desc _ HZ) as HZd.
  repeat apply good_then_by; apply good_by_key;
    first [ exact HZ | exact HZd | exact (good_desc _ good_bool_cmp)
          | exact (good_na_last _ HZd) ].
Qed.





Lemma coerce_columns_ok (df : DataFrame) :
  has_col "end" df = true ->
  exists d, coerce_columns df = Ok d /\
    (forall c, has_col c df = true -> has_col c d = true) /\
    has_col "qtrs" d = has_col "qtrs" df /\
    columns d <> [] /\
    (rows df = [] -> rows d = []).
Proof.
  intros Hend. unfold coerce_columns. rewrite (need_ok _ _ Hend). simpl.
  eexists. split; [ reflexivity | ]. split; [ | split; [ | split ] ].
  - intros c Hc. rewrite !has_col_assign, Hc. reflexivity.
  - rewrite !has_col_assign. simpl. rewrite !orb_false_r. reflexivity.
  - apply (has_col_columns "end"). rewrite !has_col_assign, Hend. reflexivity.
  - intros H. simpl. rewrite H. reflexivity.
Qed.


Lemma complete_has_fy (r : Fact) :
  complete r = true -> f_fy r = Some (fy_int r).
Proof.
  unfold complete, fy_int. destruct (f_fy r); simpl; [ reflexivity | ].
  discriminate.
Qed.


(** ** The reconciliation steps return

    On a table with the columns they read, the steps raise nothing; they
    keep the columns of their input and rows with a fiscal year, an end date
    and a value. *)

Lemma keeps_refl (d : DataFrame) : keeps d d.
Proof. split; auto. Qed.

Lemma keeps_trans (d1 d2 d3 : DataFrame) :
  keeps d1 d2 -> keeps d2 d3 -> keeps d1 d3.
Proof. intros [H1 H2] [H3 H4]. split; auto. Qed.

Lemma keeps_select (p : Fact -> bool) (d : DataFrame) : keeps d (select p d).
Proof.
  split; [ auto | ]. unfold all_complete. simpl. rewrite !Forall_forall.
  intros H r Hr. apply filter_In in Hr. apply H. tauto.
Qed.

Lemma keeps_assign (c : string) (f : Fact -> Fact) (d : DataFrame) :
  (forall r, complete (f r) = complete r) -> keeps d (assign c f d).
Proof.
  intros Hf. split.
  - intros c' Hc'. rewrite has_col_assign, Hc'. reflexivity.
  - unfold all_complete. simpl. rewrite !Forall_forall.
    intros H r Hr. apply in_map_iff in Hr. destruct Hr as [r0 [<- Hr0]].
    rewrite Hf. auto.
Qed.

Lemma complete_coerce_start (d : DataFrame) (r : Fact) :
  complete (coerce_or_na "start" d (set_start None) r) = complete r.
Proof. unfold coerce_or_na. destruct (has_col "start" d); reflexivity. Qed.


Lemma select_complete_all (d : DataFrame) : all_complete (select complete d).
Proof.
  unfold all_complete. simpl. apply Forall_forall. intros r Hr.
  apply filter_In in Hr. tauto.
Qed.

Lemma annualize_returns (d : DataFrame) :
  has_col "end" d = true ->
  exists out, _annualize_duration_series d = Ok out /\ keeps d out.
Proof.
  intros Hend. unfold _annualize_duration_series.
  destruct (empty d); [ exists d; split; [ reflexivity | apply keeps_refl ] | ].
  set (d1 := assign "start" (coerce_or_na "start" d (set_start None)) d).
  assert (K1 : keeps d d1) by (apply keeps_assign, complete_coerce_start).
  rewrite (need_ok "end" d1 (proj1 K1 _ Hend)). simpl.
  set (d2 := assign "end" (fun r => r) d1).
  assert (K2 : keeps d d2).
  { eapply keeps_trans; [ exact K1 | ]. apply keeps_assign. reflexivity. }
  assert (Hsel : forall p, keeps d (select p d2)).
  { intros p. eapply keeps_trans; [ exact K2 | apply keeps_select ]. }
  assert (Hsel2 : forall p q, keeps d (select p (select q d2))).
  { intros p q. eapply keeps_trans; [ apply Hsel | apply keeps_select ]. }
  destruct (has_col "qtrs" d2);
    [ destruct (negb (empty (select qtrs_is_4 d2))) | ]; simpl;
    try (destruct (has_col "fp" d2);
         [ destruct (negb (empty (select is_fy_tag d2))) | ]);
    match goal with
    | |- context [existsb ?p ?l] => destruct (existsb p l)
    end; eexists; (split; [ reflexivity | ]); auto.
Qed.

Lemma has_col_drop_columns (c : string) (cs : list string) (d : DataFrame) :
  str_in c cs = false ->
  has_col c (drop_columns cs d) = has_col c d.
Proof.
  intros Hc. unfold has_col, drop_columns. simpl.
  induction (columns d) as [ | x l IH]; simpl; [ reflexivity | ].
  destruct (str_in x cs) eqn:Ex; simpl.
  - rewrite IH. destruct (String.eqb c x) eqn:E; [ | reflexivity ].
    apply String.eqb_eq in E. congruence.
  - rewrite IH. reflexivity.
Qed.

Lemma select_best_returns (df : DataFrame) :
  has_col "end" df = true -> has_col "value" df = true ->
  exists out, _select_best_row_per_fy df = Ok out /\
    (all_complete df -> all_complete out) /\
    (empty out = false ->
     has_col "fy" out = true /\ has_col "end" out = true
     /\ has_col "value" out = true /\ all_complete out).
Proof.
  intros Hend Hvalue.
  destruct (coerce_columns_ok df Hend) as [d [Hd [Hcols [_ [Hne _]]]]].
  unfold _select_best_row_per_fy.
  destruct (empty df) eqn:Hempty.
  - exists df. split; [ reflexivity | ]. split; [ auto | congruence ].
  - rewrite Hd. simpl. rewrite (need_ok "value" d (Hcols _ Hvalue)). simpl.
    assert (Hfy : has_col "fy" d = true).
    { revert Hd. unfold coerce_columns. rewrite (need_ok _ _ Hend). simpl.
      intros E. inversion E. rewrite has_col_assign, String.eqb_refl.
      apply orb_true_r. }
    destruct (empty (select complete d)) eqn:Hempty2.
    + eexists. split; [ reflexivity | ]. split; [ | congruence ].
      intros _. apply select_complete_all.
    + eexists. split; [ reflexivity | ].
      assert (Hall : all_complete
        (drop_columns helper_columns
           (with_rows
              (drop_duplicates_first Z.eqb fy_int []
                 (sort_by (best_row_order (select complete d))
                    (rows (select complete d))))
              (select complete d)))).
      { unfold all_complete. simpl. apply Forall_forall. intros r Hr.
        apply (drop_first_In Z.eqb fy_int Z.eqb_eq) in Hr.
        destruct Hr as [Hr _]. apply sort_by_In in Hr.
        apply filter_In in Hr. tauto. }
      split; [ intros _; exact Hall | ]. intros _.
      rewrite !has_col_drop_columns by reflexivity.
      rewrite !has_col_with_rows, !has_col_select.
      rewrite Hfy, (Hcols _ Hend), (Hcols _ Hvalue). auto.
Qed.

Lemma extract_returns (base : DataFrame) (spec : ConceptSpec)
  (concept : string) :
  has_col "concept" base = true -> has_col "value" base = true ->
  has_col "end" base = true ->
  exists d, _extract_series_for_concept base spec concept = Ok d /\
    (empty d = false ->
     has_col "fy" d = true /\ has_col "end" d = true
     /\ has_col "value" d = true /\ all_complete d).
Proof.
  intros Hconcept Hvalue Hend. unfold _extract_series_for_concept.
  rewrite (need_ok _ _ Hconcept). simpl.
  set (d0 := select (fun r => String.eqb (f_concept r) concept) base).
  rewrite (need_ok "value" d0 Hvalue), (need_ok "end" d0 Hend). simpl.
  set (d1 := select (fun r => negb (isna (f_value r)) && notna (f_end r)) d0).
  destruct (empty d1) eqn:E1.
  { exists d1. split; [ reflexivity | congruence ]. }
  set (d4 := select complete
               (assign "end" (fun r => r)
                  (assign "fy" (coerce_or_na "fy" d1 (set_fy None)) d1))).
  assert (Hcols : forall c, has_col c base = true -> has_col c d4 = true).
  { intros c Hc. unfold d4. rewrite has_col_select, !has_col_assign.
    unfold d1, d0. rewrite !has_col_select, Hc. reflexivity. }
  destruct (empty d4) eqn:E4.
  { exists d4. split; [ reflexivity | congruence ]. }
  assert (H5 : exists d5,
    (if opt_eqb String.eqb (period_type spec) (Some "duration")
     then _annualize_duration_series d4 else Ok d4) = Ok d5 /\ keeps d4 d5).
  { destruct (opt_eqb String.eqb (period_type spec) (Some "duration")).
    - apply annualize_returns. auto.
    - exists d4. split; [ reflexivity | apply keeps_refl ]. }
  destruct H5 as [d5 [-> [K5 A5]]]. simpl.
  destruct (select_best_returns d5) as [out [Hout [_ Hprops]]]; auto.
  exists out. split; [ exact Hout | exact Hprops ].
Qed.

Lemma max_present_some (l : list (option Z)) (x : Z) :
  In (Some x) l -> exists m, max_present l = Some m.
Proof.
  induction l as [ | a l IH]; simpl; intros H; [ destruct H | ].
  destruct a as [a|].
  - destruct (max_present l); eauto.
  - destruct H as [H | H]; [ discriminate | auto ].
Qed.

Lemma score_of_returns (d : DataFrame) :
  has_col "fy" d = true -> has_col "end" d = true -> empty d = false ->
  all_complete d ->
  exists fy n e, score_of d = Ok (fy, n, Some e).
Proof.
  intros Hfy Hend Hempty Hall. unfold score_of.
  rewrite (need_ok _ _ Hfy), (need_ok _ _ Hend). simpl.
  apply empty_false_rows in Hempty.
  destruct (rows d) as [ | r l] eqn:Hrows; [ congruence | ].
  unfold all_complete in Hall. rewrite Hrows in Hall.
  inversion Hall as [ | ? ? Hr _]; subst.
  unfold complete in Hr. apply andb_true_iff in Hr. destruct Hr as [Hr _].
  apply andb_true_iff in Hr. destruct Hr as [Hy He].
  destruct (f_fy r) as [y|] eqn:Ey; [ | discriminate ].
  destruct (f_end r) as [e|] eqn:Ee; [ | discriminate ].
  destruct (max_present_some (map f_fy (r :: l)) y) as [m Hm].
  { simpl. left. exact Ey. }
  destruct (max_present_some (map f_end (r :: l)) e) as [m' Hm'].
  { simpl. left. exact Ee. }
  rewrite Hm, Hm'. simpl. eauto.
Qed.

(** Every candidate yields an empty series or a series with a score whose
    maximum end date is present. *)
Lemma candidate_cases (base : DataFrame) (spec : ConceptSpec)
  (concept : string) :
  has_col "concept" base = true -> has_col "value" base = true ->
  has_col "end" base = true ->
  no_data base spec concept \/
  exists fy n e, scored base spec concept (fy, n, Some e).
Proof.
  intros Hc Hv He.
  destruct (extract_returns base spec concept Hc Hv He) as [d [Hd Hprops]].
  destruct (empty d) eqn:Hempty.
  - left. exists d. auto.
  - right. destruct (Hprops eq_refl) as [Hfy [Hend [_ Hall]]].
    destruct (score_of_returns d Hfy Hend Hempty Hall) as [fy [n [e Hs]]].
    exists fy, n, e, d. auto.
Qed.

Lemma scored_functional (base : DataFrame) (spec : ConceptSpec)
  (concept : string) (s s' : Score) :
  scored base spec concept s -> scored base spec concept s' -> s = s'.
Proof. intros [d [H1 [_ H2]]] [d' [H1' [_ H2']]]. congruence. Qed.

Lemma scored_not_no_data (base : DataFrame) (spec : ConceptSpec)
  (concept : string) (s : Score) :
  scored base spec concept s -> no_data base spec concept -> False.
Proof. intros [d [H1 [H2 _]]] [d' [H1' H2']]. congruence. Qed.

(** Python's tuple comparison is the strict lexicographic order. *)
Lemma score_gt_true (a b : Score) :
  (exists x, snd a = Some x) -> (exists y, snd b = Some y) ->
  score_gt a b = true -> score_lt b a.
Proof.
  destruct a as [[fy1 n1] e1], b as [[fy2 n2] e2].
  intros [x Hx] [y Hy]. simpl in Hx, Hy. subst. unfold score_gt, score_lt.
  destruct (fy1 =? fy2) eqn:E1; simpl; [ | lia ].
  destruct (n1 =? n2) eqn:E2; simpl; [ | lia ].
  intros H. right. split; [ lia | ]. right. split; [ lia | ].
  exists y, x. repeat split. lia.
Qed.

Lemma score_gt_false (a b : Score) :
  (exists x, snd a = Some x) -> (exists y, snd b = Some y) ->
  score_gt a b = false -> score_le a b.
Proof.
  destruct a as [[fy1 n1] e1], b as [[fy2 n2] e2].
  intros [x Hx] [y Hy]. simpl in Hx, Hy. subst. unfold score_gt, score_le.
  destruct (fy1 =? fy2) eqn:E1; simpl; [ | lia ].
  destruct (n1 =? n2) eqn:E2; simpl; [ | lia ].
  intros H. right. split; [ lia | ]. right. split; [ lia | ].
  exists x, y. repeat split. lia.
Qed.

Lemma score_lt_trans (a b c : Score) :
  score_lt a b -> score_lt b c -> score_lt a c.
Proof.
  destruct a as [[fy1 n1] e1], b as [[fy2 n2] e2], c as [[fy3 n3] e3].
  unfold score_lt.
  intros [H | [H1 [H | [H2 [x [y [Hx [Hy Hxy]]]]]]]]
         [G | [G1 [G | [G2 [x' [y' [Hx' [Hy' Hxy']]]]]]]]; try lia.
  right. split; [ lia | ]. right. split; [ lia | ].
  exists x, y'. repeat split; try assumption. assert (y = x') by congruence.
  lia.
Qed.

Lemma score_le_lt_trans (a b c : Score) :
  score_le a b -> score_lt b c -> score_lt a c.
Proof.
  destruct a as [[fy1 n1] e1], b as [[fy2 n2] e2], c as [[fy3 n3] e3].
  unfold score_le, score_lt.
  intros [H | [H1 [H | [H2 [x [y [Hx [Hy Hxy]]]]]]]]
         [G | [G1 [G | [G2 [x' [y' [Hx' [Hy' Hxy']]]]]]]]; try lia.
  right. split; [ lia | ]. right. split; [ lia | ].
  exists x, y'. repeat split; try assumption. assert (y = x') by congruence.
  lia.
Qed.

Lemma score_lt_le (a b : Score) : score_lt a b -> score_le a b.
Proof.
  destruct a as [[fy1 n1] e1], b as [[fy2 n2] e2]. unfold score_le, score_lt.
  intros [H | [H1 [H | [H2 [x [y [Hx [Hy Hxy]]]]]]]]; try lia.
  right. split; [ lia | ]. right. split; [ lia | ].
  exists x, y. repeat split; try assumption. lia.
Qed.

(** ** Candidate concept selection *)

Section ChooseBestConcept.
Variables (base : DataFrame) (spec : ConceptSpec).
Hypothesis Hconcept : has_col "concept" base = true.
Hypothesis Hvalue : has_col "value" base = true.
Hypothesis Hend : has_col "end" base = true.

Lemma chosen_inv_skip (done : list string) (best : Best) (c : string) :
  chosen_inv base spec done best -> no_data base spec c ->
  chosen_inv base spec (done ++ [c]) best.
Proof.
  unfold chosen_inv. intros Hinv Hno.
  destruct (best_score best) as [s|].
  - destruct Hinv as [c0 [pre [post [H1 [H2 [H3 [H4 [H5 [H6 [H7 H8]]]]]]]]]].
    exists c0, pre, (post ++ [c]). subst done.
    rewrite <- app_assoc. simpl. repeat (split; [ assumption || reflexivity | ]).
    intros c' s' Hin Hs. apply in_app_or in Hin.
    destruct Hin as [Hin | [<- | []]]; [ eauto | ].
    exfalso. eapply scored_not_no_data; eauto.
  - destruct Hinv as [H1 [H2 H3]]. repeat (split; [ assumption | ]).
    intros c' Hin. apply in_app_or in Hin.
    destruct Hin as [Hin | [<- | []]]; auto.
Qed.

Lemma choose_loop_spec (cands done : list string) (best : Best) :
  chosen_inv base spec done best ->
  exists best',
    choose_loop base spec cands best = Ok best' /\
    chosen_inv base spec (done ++ cands) best'.
Proof.
  revert done best. induction cands as [ | c rest IH]; intros done best Hinv.
  - exists best. rewrite app_nil_r. split; [ reflexivity | exact Hinv ].
  - replace (done ++ c :: rest) with ((done ++ [c]) ++ rest)
      by (rewrite <- app_assoc; reflexivity).
    simpl.
    destruct (candidate_cases base spec c Hconcept Hvalue Hend)
      as [Hno | [fy [n [e Hsc]]]].
    + pose proof Hno as [d [Hd Hempty]]. rewrite Hd. simpl. rewrite Hempty.
      apply IH. apply chosen_inv_skip; assumption.
    + pose proof Hsc as [d [Hd [Hempty Hs]]].
      rewrite Hd. cbn [bind]. rewrite Hempty, Hs. cbn [bind].
      unfold chosen_inv in Hinv.
      destruct (best_score best) as [b|] eqn:Hb.
      * destruct Hinv
          as [c0 [pre [post [H1 [H2 [H3 [H4 [H5 [H6 [H7 H8]]]]]]]]]].
        assert (Hsc0 : scored base spec c0 b) by (exists (best_df best); auto).
        destruct (score_gt (fy, n, Some e) b) eqn:Hgt.
        -- apply IH. unfold chosen_inv. simpl.
           exists c, done, []. repeat (split; [ eauto; fail | ]).
           apply score_gt_true in Hgt; [ | simpl; eauto | exact H6 ].
           split; [ | intros c' s' [] ].
           intros c' s' Hin Hs'. subst done. apply in_app_or in Hin.
           destruct Hin as [Hin | [<- | Hin]].
           ++ eapply score_lt_trans; [ eapply H7; eauto | exact Hgt ].
           ++ rewrite (scored_functional _ _ _ _ _ Hs' Hsc0). exact Hgt.
           ++ eapply score_le_lt_trans; [ eapply H8; eauto | exact Hgt ].
        -- apply IH. unfold chosen_inv. rewrite Hb.
           exists c0, pre, (post ++ [c]). subst done.
           rewrite <- app_assoc. simpl.
           repeat (split; [ assumption || reflexivity | ]).
           intros c' s' Hin Hs'. apply in_app_or in Hin.
           destruct Hin as [Hin | [<- | []]]; [ eauto | ].
           rewrite (scored_functional _ _ _ _ _ Hs' Hsc).
           apply score_gt_false; [ simpl; eauto | exact H6 | exact Hgt ].
      * destruct Hinv as [H1 [H2 H3]].
        apply IH. unfold chosen_inv. simpl.
        exists c, done, []. repeat (split; [ eauto; fail | ]).
        split; [ | intros c' s' [] ].
        intros c' s' Hin Hs'. exfalso.
        eapply scored_not_no_data; eauto.
Qed.

(** The outcome of the whole loop. *)
Lemma choose_best_concept_outcome :
  exists best,
    _choose_best_concept base spec = Ok (best_concept best, best_df best) /\
    chosen_inv base spec (candidates spec) best.
Proof.
  destruct (choose_loop_spec (candidates spec) [] no_best) as [best [H1 H2]].
  - unfold chosen_inv. simpl. repeat split. intros c [].
  - exists best. unfold _choose_best_concept. rewrite H1. simpl.
    split; [ reflexivity | exact H2 ].
Qed.
End ChooseBestConcept.

Lemma score_le_refl (s : Score) : (exists e, snd s = Some e) -> score_le s s.
Proof.
  destruct s as [[fy n] e]. intros [x Hx]. simpl in Hx. subst.
  unfold score_le. right. split; [ reflexivity | ]. right.
  split; [ reflexivity | ]. exists x, x. repeat split. lia.
Qed.

Lemma score_lt_irrefl (s : Score) : ~ score_lt s s.
Proof.
  destruct s as [[fy n] e]. unfold score_lt.
  intros [H | [_ [H | [_ [x [y [Hx [Hy Hxy]]]]]]]]; try lia.
  assert (x = y) by congruence. lia.
Qed.

(** C3. On a base table with the concept, value and end columns, candidate
    selection returns no concept when no candidate has data, and otherwise
    a candidate together with its annual series whose score (maximum fiscal
    year, number of fiscal years, maximum end date) is lexicographically at
    least the score of every candidate with data.  With "Revenues" covering
    2019 to 2020 and "RevenuesFromContractWithCustomer" covering 2021 to
    2023 the latter is returned. *)
Theorem choose_best_concept_greatest_score (base : DataFrame)
  (spec : ConceptSpec)
  (Hconcept : has_col "concept" base = true)
  (Hvalue : has_col "value" base = true)
  (Hend : has_col "end" base = true) :
  (exists concept d,
     _choose_best_concept base spec = Ok (concept, d) /\
     match concept with
     | None => forall c, In c (candidates spec) -> no_data base spec c
     | Some c =>
         In c (candidates spec) /\
         _extract_series_for_concept base spec c = Ok d /\
         exists s, scored base spec c s /\
           forall c' s', In c' (candidates spec) -> scored base spec c' s' ->
                         score_le s' s
     end)
  /\ scored revenue_tags_frame revenue_tags_spec "Revenues"
       (2020, 2, Some 18627)
  /\ scored revenue_tags_frame revenue_tags_spec
       "RevenuesFromContractWithCustomer" (2023, 3, Some 19722)
  /\ exists d, _choose_best_concept revenue_tags_frame revenue_tags_spec
               = Ok (Some "RevenuesFromContractWithCustomer", d).
Proof.
  split.
  - destruct (choose_best_concept_outcome base spec Hconcept Hvalue Hend)
      as [best [Hres Hinv]].
    exists (best_concept best), (best_df best). split; [ exact Hres | ].
    unfold chosen_inv in Hinv. destruct (best_score best) as [s|].
    + destruct Hinv as [c [pre [post [H1 [H2 [H3 [H4 [H5 [H6 [H7 H8]]]]]]]]]].
      rewrite H1. split; [ rewrite H2; apply in_elt | ].
      split; [ exact H3 | ].
      assert (Hsc : scored base spec c s) by (exists (best_df best); auto).
      exists s. split; [ exact Hsc | ].
      intros c' s' Hin Hs'. rewrite H2 in Hin. apply in_app_or in Hin.
      destruct Hin as [Hin | [<- | Hin]].
      * apply score_lt_le. eauto.
      * rewrite (scored_functional _ _ _ _ _ Hs' Hsc).
        apply score_le_refl. exact H6.
      * eauto.
    + destruct Hinv as [-> [_ H]]. exact H.
  - split; [ | split ].
    + eexists. split; [ vm_compute; reflexivity | ].
      split; vm_compute; reflexivity.
    + eexists. split; [ vm_compute; reflexivity | ].
      split; vm_compute; reflexivity.
    + eexists. vm_compute. reflexivity.
Qed.

(** C10. On a base table with the concept, value and end columns, the
    candidate that selection returns comes, in the candidate list, after
    only candidates that have no data or a strictly smaller score: among
    candidates with the same greatest score the earliest listed is the one
    chosen.  Of two tags with equal scores the first listed is returned. *)
Theorem choose_best_concept_first_among_ties (base : DataFrame)
  (spec : ConceptSpec)
  (Hconcept : has_col "concept" base = true)
  (Hvalue : has_col "value" base = true)
  (Hend : has_col "end" base = true) :
  (exists concept d,
     _choose_best_concept base spec = Ok (concept, d) /\
     match concept with
     | None => True
     | Some c =>
         exists pre post s,
           candidates spec = pre ++ c :: post /\
           scored base spec c s /\
           (forall c' s', In c' pre -> scored base spec c' s' ->
                          score_lt s' s) /\
           (forall c', In c' pre -> ~ scored base spec c' s) /\
           (forall c' s', In c' post -> scored base spec c' s' ->
                          score_le s' s)
     end)
  /\ scored tied_tags_frame tied_tags_spec "Revenues" (2023, 2, Some 19722)
  /\ scored tied_tags_frame tied_tags_spec "SalesRevenueNet"
       (2023, 2, Some 19722)
  /\ exists d, _choose_best_concept tied_tags_frame tied_tags_spec
               = Ok (Some "Revenues", d).
Proof.
  split.
  - destruct (choose_best_concept_outcome base spec Hconcept Hvalue Hend)
      as [best [Hres Hinv]].
    exists (best_concept best), (best_df best). split; [ exact Hres | ].
    unfold chosen_inv in Hinv. destruct (best_score best) as [s|].
    + destruct Hinv as [c [pre [post [H1 [H2 [H3 [H4 [H5 [H6 [H7 H8]]]]]]]]]].
      rewrite H1. exists pre, post, s. split; [ exact H2 | ].
      split; [ exists (best_df best); auto | ].
      split; [ exact H7 | ]. split; [ | exact H8 ].
      intros c' Hin Hs. apply (score_lt_irrefl s). eauto.
    + destruct Hinv as [-> _]. exact I.
  - split; [ | split ].
    + eexists. split; [ vm_compute; reflexivity | ].
      split; vm_compute; reflexivity.
    + eexists. split; [ vm_compute; reflexivity | ].
      split; vm_compute; reflexivity.
    + eexists. vm_compute. reflexivity.
Qed.

(** ** The table builder returns *)

Lemma prepare_base_returns (df : DataFrame) (spec : ConceptSpec) :
  has_col "form" df = true -> has_col "unit" df = true ->
  has_col "period_type" df = true ->
  exists base, _prepare_base df spec = Ok base /\
    forall c, has_col c base = has_col c df.
Proof.
  intros Hform Hunit Hpt. unfold _prepare_base.
  destruct (truthy_forms (forms spec)) as [fs|]; simpl.
  - unfold _filter_forms. rewrite (need_ok _ _ Hform). simpl.
    unfold _filter_unit. rewrite (need_ok "unit" (select _ df) Hunit). simpl.
    unfold _filter_period_type. destruct (period_type spec) as [p|].
    + rewrite (need_ok "period_type" (select _ (select _ df)) Hpt). simpl.
      eexists. split; [ reflexivity | reflexivity ].
    + eexists. split; [ reflexivity | reflexivity ].
  - unfold _filter_unit. rewrite (need_ok "unit" df Hunit). simpl.
    unfold _filter_period_type. destruct (period_type spec) as [p|].
    + rewrite (need_ok "period_type" (select _ df) Hpt). simpl.
      eexists. split; [ reflexivity | reflexivity ].
    + eexists. split; [ reflexivity | reflexivity ].
Qed.

Lemma extract_annual_series_returns (df : DataFrame) (spec : ConceptSpec)
  (n : Z) :
  has_required df ->
  exists s, extract_annual_series df spec n = Ok s /\
            Forall (fun row => s_name row = name spec) s.
Proof.
  intros Hreq. unfold extract_annual_series.
  destruct (prepare_base_returns df spec) as [base [-> Hcols]];
    try (apply Hreq; simpl; tauto).
  simpl.
  assert (Hc : has_col "concept" base = true)
    by (rewrite Hcols; apply Hreq; simpl; tauto).
  assert (Hv : has_col "value" base = true)
    by (rewrite Hcols; apply Hreq; simpl; tauto).
  assert (He : has_col "end" base = true)
    by (rewrite Hcols; apply Hreq; simpl; tauto).
  destruct (choose_best_concept_outcome base spec Hc Hv He)
    as [best [-> Hinv]].
  simpl. unfold chosen_inv in Hinv. destruct (best_score best) as [sc|].
  - destruct Hinv as [c [pre [post [H1 [_ [H3 [H4 _]]]]]]].
    rewrite H1, H4.
    destruct (extract_returns base spec c Hc Hv He) as [d [Hd Hprops]].
    assert (d = best_df best) by congruence. subst d.
    destruct (Hprops H4) as [Hfy [Hend [Hvalue _]]].
    rewrite (need_ok _ _ Hfy). simpl.
    rewrite (need_ok "fy" (with_rows _ (best_df best)) Hfy),
            (need_ok "end" (with_rows _ (best_df best)) Hend),
            (need_ok "value" (with_rows _ (best_df best)) Hvalue).
    simpl. eexists. split; [ reflexivity | ].
    apply Forall_forall. intros row Hrow. apply in_map_iff in Hrow.
    destruct Hrow as [r [<- _]]. reflexivity.
  - destruct Hinv as [-> _]. exists []. split; [ reflexivity | constructor ].
Qed.



Lemma missing_nil_iff (df : DataFrame) :
  filter (fun c => negb (has_col c df)) required_cols = [] <->
  has_required df.
Proof.
  unfold has_required. split.
  - intros H c Hc. destruct (has_col c df) eqn:E; [ reflexivity | ].
    assert (Hin : In c (filter (fun c => negb (has_col c df)) required_cols)).
    { apply filter_In. rewrite E. auto. }
    rewrite H in Hin. destruct Hin.
  - intros H. destruct (filter _ required_cols) as [ | c l] eqn:E;
      [ reflexivity | ].
    assert (Hin : In c (filter (fun c => negb (has_col c df)) required_cols))
      by (rewrite E; left; reflexivity).
    apply filter_In in Hin. destruct Hin as [Hin Hc].
    rewrite (H c Hin) in Hc. discriminate.
Qed.


(** ** Columns of the annual table *)

Lemma dict_get_set_same {V : Type} (d : list (string * V)) (k : string)
  (v : V) : dict_get (dict_set d k v) k = Some v.
Proof.
  induction d as [ | [k' x] d IH]; simpl.
  - rewrite String.eqb_refl. reflexivity.
  - destruct (String.eqb k' k) eqn:E; simpl; rewrite E; auto.
Qed.

Lemma dict_get_set_other {V : Type} (d : list (string * V)) (k k' : string)
  (v : V) : k <> k' -> dict_get (dict_set d k v) k' = dict_get d k'.
Proof.
  intros Hne. induction d as [ | [k0 x] d IH]; simpl.
  - destruct (String.eqb k k') eqn:E; [ | reflexivity ].
    apply String.eqb_eq in E. congruence.
  - destruct (String.eqb k0 k) eqn:E; simpl.
    + apply String.eqb_eq in E. subst k0.
      destruct (String.eqb k k') eqn:E'; [ | reflexivity ].
      apply String.eqb_eq in E'. congruence.
    + destruct (String.eqb k0 k'); [ reflexivity | exact IH ].
Qed.

Lemma dict_get_app {V : Type} (d1 d2 : list (string * V)) (k : string) :
  dict_get (d1 ++ d2) k
  = match dict_get d1 k with
    | Some v => Some v
    | None => dict_get d2 k
    end.
Proof.
  induction d1 as [ | [k' x] d1 IH]; simpl; [ reflexivity | ].
  destruct (String.eqb k' k); [ reflexivity | exact IH ].
Qed.

Lemma dict_get_rename {V : Type} (d : list (string * V)) (a b k : string) :
  k <> a -> k <> b ->
  dict_get (map (fun kv => if String.eqb (fst kv) a then (b, snd kv) else kv) d)
    k = dict_get d k.
Proof.
  intros Ha Hb. induction d as [ | [k' x] d IH]; simpl; [ reflexivity | ].
  destruct (String.eqb k' a) eqn:E; simpl.
  - apply String.eqb_eq in E. subst k'.
    destruct (String.eqb b k) eqn:E1; [ apply String.eqb_eq in E1; congruence | ].
    destruct (String.eqb a k) eqn:E2; [ apply String.eqb_eq in E2; congruence | ].
    exact IH.
  - destruct (String.eqb k' k); [ reflexivity | exact IH ].
Qed.

Lemma dict_get_tabulate {V : Type} (f : string -> V) (names : list string)
  (k : string) :
  dict_get (map (fun nm => (nm, f nm)) names) k
  = if str_in k names then Some (f k) else None.
Proof.
  induction names as [ | nm names IH]; simpl; [ reflexivity | ].
  rewrite (String.eqb_sym k nm).
  destruct (String.eqb nm k) eqn:E; simpl; [ | exact IH ].
  apply String.eqb_eq in E. subst. reflexivity.
Qed.

Lemma merge_fy_end_revenue (long : list SeriesRow) (index : list Z)
  (cols : list (string * column)) :
  dict_get (merge_fy_end long index cols) "revenue" = dict_get cols "revenue".
Proof.
  unfold merge_fy_end. destruct (dict_has cols "fiscal_year_end").
  - rewrite dict_get_app, dict_get_rename by discriminate.
    destruct (dict_get cols "revenue"); reflexivity.
  - rewrite dict_get_app. destruct (dict_get cols "revenue"); reflexivity.
Qed.

(** ** The index of the annual table *)

Lemma insert_by_NoDup {A : Type} (c : cmp_t A) (x : A) (l : list A) :
  ~ In x l -> NoDup l -> NoDup (insert_by c x l).
Proof.
  induction l as [ | a l IH]; simpl; intros Hx Hnd.
  - constructor; [ tauto | constructor ].
  - inversion Hnd as [ | ? ? Ha Hl]; subst.
    destruct (c x a); try (constructor; [ simpl; tauto | exact Hnd ]).
    constructor.
    + rewrite insert_by_In. intros [-> | H]; tauto.
    + apply IH; tauto.
Qed.

Lemma sort_by_NoDup {A : Type} (c : cmp_t A) (l : list A) :
  NoDup l -> NoDup (sort_by c l).
Proof.
  induction l as [ | a l IH]; simpl; intros Hnd; [ constructor | ].
  inversion Hnd as [ | ? ? Ha Hl]; subst. fold (sort_by c l).
  apply insert_by_NoDup; [ rewrite sort_by_In; exact Ha | auto ].
Qed.

Lemma sorted_unique_increasing (l : list Z) :
  StronglySorted Z.lt (sorted_unique_Z l).
Proof.
  unfold sorted_unique_Z.
  assert (Hnd : NoDup (sort_by Z.compare (nodup Z.eq_dec l)))
    by (apply sort_by_NoDup, NoDup_nodup).
  pose proof (sort_by_sorted Z.compare good_Z_compare (nodup Z.eq_dec l))
    as Hs.
  induction Hs as [ | a m Hs IH Hall]; [ constructor | ].
  inversion Hnd as [ | ? ? Ha Hm]; subst.
  constructor; [ auto | ].
  rewrite Forall_forall in *. intros y Hy.
  specialize (Hall y Hy). unfold le_of in Hall.
  destruct (Z.compare_spec a y); [ subst; tauto | assumption | congruence ].
Qed.

Lemma increasing_NoDup (l : list Z) : StronglySorted Z.lt l -> NoDup l.
Proof.
  induction 1 as [ | a l Hs IH Hall]; constructor; [ | exact IH ].
  intros Hin. rewrite Forall_forall in Hall. specialize (Hall a Hin). lia.
Qed.

Lemma position_nth_error (l : list Z) (i : nat) (y : Z) :
  NoDup l -> nth_error l i = Some y -> position y l = Some i.
Proof.
  revert i. induction l as [ | x l IH]; intros i Hnd Hi.
  - destruct i; discriminate.
  - inversion Hnd as [ | ? ? Hx Hl]; subst. destruct i as [ | i]; simpl in *.
    + inversion Hi. subst. rewrite Z.eqb_refl. reflexivity.
    + destruct (x =? y) eqn:E.
      * apply Z.eqb_eq in E. subst. exfalso. apply Hx.
        eapply nth_error_In. exact Hi.
      * rewrite (IH i Hl Hi). reflexivity.
Qed.

(** In an increasing index the prior fiscal year, if present, is the row
    just before. *)
Lemma prior_year_is_previous_row (l : list Z) (i : nat) (y : Z) :
  StronglySorted Z.lt l -> nth_error l i = Some y -> In (y - 1) l ->
  exists j, i = S j /\ nth_error l j = Some (y - 1).
Proof.
  intros Hs. revert i. induction Hs as [ | x l Hs IH Hall]; intros i Hi Hin.
  - destruct Hin.
  - rewrite Forall_forall in Hall. destruct i as [ | i]; simpl in Hi.
    + inversion Hi. subst. destruct Hin as [Hin | Hin]; [ lia | ].
      specialize (Hall _ Hin). lia.
    + destruct Hin as [Hin | Hin].
      * destruct i as [ | i].
        -- exists 0%nat. split; [ reflexivity | ]. simpl. congruence.
        -- exfalso. destruct l as [ | z l]; [ discriminate | ].
           simpl in Hi. inversion Hs as [ | ? ? _ Hz]; subst.
           rewrite Forall_forall in Hz.
           pose proof (Hz y (nth_error_In _ _ Hi)).
           pose proof (Hall z (or_introl eq_refl)). lia.
      * destruct (IH i Hi Hin) as [j [-> Hj]].
        exists (S j). split; [ reflexivity | exact Hj ].
Qed.

(** ** Percentage change *)

Lemma zip_with_previous {B : Type} (f : fnum -> fnum -> B) (d : B)
  (l : list fnum) (p : fnum) (i : nat) :
  (i < List.length l)%nat ->
  nth i (zip_with f l (removelast (p :: l))) d
  = f (nth i l FNaN) (nth i (p :: l) FNaN).
Proof.
  revert p i. induction l as [ | a l IH]; intros p i Hi; simpl in Hi;
    [ lia | ].
  change (removelast (p :: a :: l)) with (p :: removelast (a :: l)).
  destruct i as [ | i]; [ reflexivity | ].
  change (nth (S i) (zip_with f (a :: l) (p :: removelast (a :: l))) d)
    with (nth i (zip_with f l (removelast (a :: l))) d).
  rewrite IH by lia. reflexivity.
Qed.

Lemma pct_change_first (l : list fnum) : nth 0 (pct_change l) FNaN = FNaN.
Proof.
  destruct l as [ | a l]; [ reflexivity | ].
  unfold pct_change, shift1. rewrite zip_with_previous by (simpl; lia).
  simpl. destruct a; reflexivity.
Qed.

Lemma pct_change_next (l : list fnum) (j : nat) :
  (S j < List.length l)%nat ->
  nth (S j) (pct_change l) FNaN
  = fsub (fdiv (nth (S j) l FNaN) (nth j l FNaN)) (FFin 1).
Proof.
  intros H. unfold pct_change, shift1. rewrite zip_with_previous by exact H.
  reflexivity.
Qed.

(** ** Revenue growth *)

Lemma fdiv_nan_r (a : fnum) : fdiv a FNaN = FNaN.
Proof. destruct a; reflexivity. Qed.

Lemma yoy_formula_missing (cur prior : fnum) :
  isna cur = true \/ isna prior = true ->
  isna (fsub (fdiv cur prior) (FFin 1)) = true.
Proof.
  intros [H | H].
  - destruct cur; try discriminate. reflexivity.
  - destruct prior; try discriminate. rewrite fdiv_nan_r. reflexivity.
Qed.

(** What the builder makes of the revenue column. *)
Lemma build_revenue_columns (df : DataFrame)
  (specs : option (list ConceptSpec)) (cfg : option FinancialsConfig)
  (t : AnnualTable) :
  build_annual_financials_table df specs cfg = Ok t ->
  dict_has (t_columns t) "revenue" = true ->
  num_col (t_columns t) "revenue_yoy"
  = pct_change (num_col (t_columns t) "revenue")
  /\ List.length (num_col (t_columns t) "revenue") = List.length (t_fy t)
  /\ StronglySorted Z.lt (t_fy t).
Proof.
  intros Hbuild Hrev. unfold build_annual_financials_table in Hbuild.
  destruct (filter (fun c => negb (has_col c df)) required_cols);
    [ | discriminate ].
  apply bind_ok_inv in Hbuild. destruct Hbuild as [[all cmap] [_ Hbuild]].
  destruct all as [ | s0 rest];
    [ inversion Hbuild; subst; discriminate | ].
  apply bind_ok_inv in Hbuild.
  destruct Hbuild as [[index cols] [Hpivot Hbuild]].
  unfold pivot in Hpivot.
  destruct (str_in "fy" _); [ discriminate | ].
  inversion Hpivot as [[Hindex Hcols]]. clear Hpivot. subst index cols.
  cbv zeta in Hbuild. inversion Hbuild as [Ht]. clear Hbuild.
  rewrite <- Ht in Hrev. subst t. cbn [t_columns t_fy] in *.
  unfold set_column, dict_has, num_col in *.
  rewrite !dict_get_set_other in Hrev by discriminate.
  rewrite !(dict_get_set_other _ _ "revenue") by discriminate.
  rewrite !(dict_get_set_other _ _ "revenue_yoy") by discriminate.
  rewrite dict_get_set_same.
  unfold has_wide_col, dict_has.
  rewrite !(dict_get_set_other _ _ "revenue") by discriminate.
  rewrite merge_fy_end_revenue in *.
  rewrite dict_get_tabulate in *.
  destruct (str_in "revenue" _); [ | discriminate ].
  cbn [notna orb String.eqb Ascii.eqb Bool.eqb].
  split; [ reflexivity | ]. split.
  - rewrite length_map. reflexivity.
  - apply sorted_unique_increasing.
Qed.

(** C5. In a table with a revenue column, revenue growth is missing in the
    first row; in the row of a fiscal year whose prior fiscal year is a row
    of the table it is (revenue / prior revenue) - 1, hence missing when the
    revenue of either year is missing, and present when both are finite and
    the prior revenue is not zero. *)
Theorem revenue_yoy_spec (df : DataFrame) (specs : option (list ConceptSpec))
  (cfg : option FinancialsConfig) (t : AnnualTable) (i : nat) (y : Z)
  (Hbuild : build_annual_financials_table df specs cfg = Ok t)
  (Hrevenue : dict_has (t_columns t) "revenue" = true)
  (Hrow : nth_error (t_fy t) i = Some y) :
  let cur := cell_at t "revenue" y in
  let prior := cell_at t "revenue" (y - 1) in
  let yoy := cell_at t "revenue_yoy" y in
  (i = 0%nat -> yoy = FNaN) /\
  (In (y - 1) (t_fy t) ->
   yoy = fsub (fdiv cur prior) (FFin 1) /\
   (isna cur = true \/ isna prior = true -> isna yoy = true) /\
   (forall a b, cur = FFin a -> prior = FFin b -> Qis_zero b = false ->
                yoy = FFin (a / b - 1)%Q)).
Proof.
  destruct (build_revenue_columns df specs cfg t Hbuild Hrevenue)
    as [Hyoy [Hlen Hsorted]].
  pose proof (increasing_NoDup _ Hsorted) as Hnd.
  intros cur prior yoy. unfold cur, prior, yoy, cell_at.
  rewrite (position_nth_error _ _ _ Hnd Hrow). rewrite Hyoy.
  split.
  - intros ->. apply pct_change_first.
  - intros Hprior.
    destruct (prior_year_is_previous_row _ _ _ Hsorted Hrow Hprior)
      as [j [-> Hj]].
    rewrite (position_nth_error _ _ _ Hnd Hj).
    assert (Hi : (S j < List.length (num_col (t_columns t) "revenue"))%nat).
    { rewrite Hlen. apply nth_error_Some. congruence. }
    rewrite (pct_change_next _ _ Hi).
    split; [ reflexivity | ]. split.
    + apply yoy_formula_missing.
    + intros a b -> -> Hb. simpl. rewrite Hb. reflexivity.
Qed.

(** A row with no revenue of its own has no growth although the prior
    fiscal year has revenue: the wording of the specification fails on the
    table built from [revenue_missing_2022_frame]. *)
Lemma revenue_yoy_missing_despite_prior_revenue :
  build_annual_financials_table revenue_missing_2022_frame None None
  = Ok revenue_missing_2022_table
  /\ dict_has (t_columns revenue_missing_2022_table) "revenue" = true
  /\ nth_error (t_fy revenue_missing_2022_table) 1 = Some 2022
  /\ cell_at revenue_missing_2022_table "revenue" 2021 = FFin (inject_Z 100)
  /\ cell_at revenue_missing_2022_table "revenue_yoy" 2022 = FNaN
  /\ ~ yoy_missing_iff_first_or_prior_missing revenue_missing_2022_table.
Proof.
  split; [ vm_compute; reflexivity | ].
  repeat (split; [ reflexivity | ]).
  intros H. specialize (H 1%nat 2022 eq_refl). destruct H as [H _].
  destruct (H eq_refl) as [H1 | H1]; discriminate H1.
Qed.

(** Across a gap in the fiscal years the growth is taken against the row
    before: 2021 against 2019. *)
Example revenue_yoy_across_gap :
  exists t,
    build_annual_financials_table revenue_gap_frame None None = Ok t
    /\ t_fy t = [2019; 2021]
    /\ num_col (t_columns t) "revenue"
       = [FFin (inject_Z 100); FFin (inject_Z 150)]
    /\ num_col (t_columns t) "revenue_yoy"
       = [FNaN; FFin (inject_Z 150 / inject_Z 100 - 1)%Q].
Proof.
  eexists. split; [ vm_compute; reflexivity | ].
  repeat split; reflexivity.
Qed.

(** ** The empty fact store *)

(** C6. For an absent store, an empty store and a store without concepts
    for the taxonomy, the normalizer returns the table [pd.DataFrame([])]:
    it has no rows and no column, so none of the expected seventeen. *)
Theorem normalize_empty_store_has_no_columns (cfg : NormalizeConfig) :
  normalize_companyfacts_to_df (mkCompanyFacts None) cfg = empty_frame
  /\ normalize_companyfacts_to_df (mkCompanyFacts (Some [])) cfg = empty_frame
  /\ normalize_companyfacts_to_df
       (mkCompanyFacts (Some [(taxonomy cfg, [])])) cfg = empty_frame
  /\ columns empty_frame = []
  /\ has_col "concept" empty_frame = false.
Proof.
  repeat split; try reflexivity.
  unfold normalize_companyfacts_to_df, _safe_get. simpl.
  rewrite String.eqb_refl. reflexivity.
Qed.

(** C4. On a fact store without facts for the taxonomy the pipeline raises:
    normalization returns the table without columns and the table builder
    rejects it for its six missing columns.  On a table without rows that
    has every column the builder returns [pd.DataFrame()], which carries no
    concept map. *)
Theorem pipeline_on_empty_store_raises (specs : option (list ConceptSpec))
  (cfg : option FinancialsConfig) :
  normalize_pipeline empty_store default_normalize_config = Ok empty_frame
  /\ bind (normalize_pipeline empty_store default_normalize_config)
       (fun df => build_annual_financials_table df specs cfg)
     = Err (ValueError "Input df missing required columns"
              ["concept"; "end"; "form"; "period_type"; "unit"; "value"])
  /\ build_annual_financials_table (mkFrame all_columns []) None None
     = Ok empty_table
  /\ t_concept_map empty_table = None.
Proof.
  repeat split; reflexivity.
Qed.

(** ** The theorems at sample inputs *)


Lemma annualize_duration_series_spec_witness :
  has_col "start" two_durations_2022 = true
  /\ has_col "end" two_durations_2022 = true
  /\ has_col "qtrs" two_durations_2022 = true
  /\ has_col "fp" two_durations_2022 = true
  /\ (forall r, In r (rows two_durations_2022) -> notna (f_start r) = true)
  /\ _annualize_duration_series two_durations_2022
     = Ok (with_rows (annualize_spec (rows two_durations_2022))
             two_durations_2022)
  /\ _annualize_duration_series two_durations_2022
     = Ok (with_rows
             (filter near_one_year (annual_rule (rows two_durations_2022)))
             two_durations_2022).
Proof.
  assert (Hall : forall r, In r (rows two_durations_2022) ->
                           notna (f_start r) = true).
  { intros r H. simpl in H. destruct H as [<- | [<- | []]]; reflexivity. }
  repeat (split; [ reflexivity | ]).
  split; [ exact Hall | ].
  pose proof (annualize_duration_series_spec two_durations_2022
                eq_refl eq_refl eq_refl eq_refl) as [H1 [H2 _]].
  split; [ exact H1 | exact (H2 Hall) ].
Defined.

Lemma choose_best_concept_greatest_score_witness :
  has_col "concept" revenue_tags_frame = true
  /\ has_col "value" revenue_tags_frame = true
  /\ has_col "end" revenue_tags_frame = true
  /\ exists concept d,
       _choose_best_concept revenue_tags_frame revenue_tags_spec
       = Ok (concept, d) /\
       match concept with
       | None => forall c, In c (candidates revenue_tags_spec) ->
                           no_data revenue_tags_frame revenue_tags_spec c
       | Some c =>
           In c (candidates revenue_tags_spec) /\
           _extract_series_for_concept revenue_tags_frame revenue_tags_spec c
           = Ok d /\
           exists s, scored revenue_tags_frame revenue_tags_spec c s /\
             forall c' s', In c' (candidates revenue_tags_spec) ->
               scored revenue_tags_frame revenue_tags_spec c' s' ->
               score_le s' s
       end.
Proof.
  repeat (split; [ reflexivity | ]).
  exact (proj1 (choose_best_concept_greatest_score revenue_tags_frame
                  revenue_tags_spec eq_refl eq_refl eq_refl)).
Defined.

Lemma choose_best_concept_first_among_ties_witness :
  has_col "concept" tied_tags_frame = true
  /\ has_col "value" tied_tags_frame = true
  /\ has_col "end" tied_tags_frame = true
  /\ exists concept d,
       _choose_best_concept tied_tags_frame tied_tags_spec = Ok (concept, d)
       /\ match concept with
          | None => True
          | Some c =>
              exists pre post s,
                candidates tied_tags_spec = pre ++ c :: post /\
                scored tied_tags_frame tied_tags_spec c s /\
                (forall c' s', In c' pre ->
                   scored tied_tags_frame tied_tags_spec c' s' ->
                   score_lt s' s) /\
                (forall c', In c' pre ->
                   ~ scored tied_tags_frame tied_tags_spec c' s) /\
                (forall c' s', In c' post ->
                   scored tied_tags_frame tied_tags_spec c' s' ->
                   score_le s' s)
          end.
Proof.
  repeat (split; [ reflexivity | ]).
  exact (proj1 (choose_best_concept_first_among_ties tied_tags_frame
                  tied_tags_spec eq_refl eq_refl eq_refl)).
Defined.

Lemma revenue_yoy_spec_witness :
  build_annual_financials_table revenue_missing_2022_frame None None
  = Ok revenue_missing_2022_table
  /\ dict_has (t_columns revenue_missing_2022_table) "revenue" = true
  /\ nth_error (t_fy revenue_missing_2022_table) 1 = Some 2022
  /\ In (2022 - 1) (t_fy revenue_missing_2022_table)
  /\ cell_at revenue_missing_2022_table "revenue_yoy" 2022
     = fsub (fdiv (cell_at revenue_missing_2022_table "revenue" 2022)
               (cell_at revenue_missing_2022_table "revenue" (2022 - 1)))
         (FFin 1).
Proof.
  assert (Hbuild :
    build_annual_financials_table revenue_missing_2022_frame None None
    = Ok revenue_missing_2022_table) by (vm_compute; reflexivity).
  assert (Hprior : In (2022 - 1) (t_fy revenue_missing_2022_table))
    by (left; reflexivity).
  split; [ exact Hbuild | ]. split; [ reflexivity | ].
  split; [ reflexivity | ]. split; [ exact Hprior | ].
  exact (proj1 (proj2 (revenue_yoy_spec revenue_missing_2022_frame None None
                         revenue_missing_2022_table 1 2022 Hbuild eq_refl
                         eq_refl) Hprior)).
Defined.


Lemma choose_preferred_unit_spec_witness :
  (rows empty_frame = [] /\ choose_preferred_unit empty_frame None
                            = Ok empty_frame)
  /\ has_col "unit" two_durations_2022 = true
  /\ has_col "concept" two_durations_2022 = true
  /\ exists out,
       choose_preferred_unit two_durations_2022 None = Ok out /\
       (forall r, In r (rows out) ->
          In r (rows two_durations_2022) /\
          In (f_unit r) default_preferred_units /\
          forall r', In r' (rows two_durations_2022) ->
            f_concept r' = f_concept r ->
            In (f_unit r') default_preferred_units ->
            unit_rank default_preferred_units (f_unit r)
            <= unit_rank default_preferred_units (f_unit r')) /\
       (forall r1 r2, In r1 (rows out) -> In r2 (rows out) ->
          f_concept r1 = f_concept r2 -> f_unit r1 = f_unit r2).
Proof.
  split.
  { split; [ reflexivity | ].
    exact (proj1 (choose_preferred_unit_spec empty_frame None) eq_refl). }
  repeat (split; [ reflexivity | ]).
  exact (proj2 (choose_preferred_unit_spec two_durations_2022 None)
           eq_refl eq_refl).
Defined.

(* ================================================================== *)
(** * Further properties *)

(** ** The fact normalizer *)

Lemma normalize_rows (companyfacts : CompanyFacts) (cfg : NormalizeConfig) :
  rows (normalize_companyfacts_to_df companyfacts cfg)
  = map (fun r => set_period_type (Some (period_type_of r)) r)
      (collected_rows companyfacts cfg).
Proof.
  unfold normalize_companyfacts_to_df. fold (collected_rows companyfacts cfg).
  destruct (collected_rows companyfacts cfg) as [ | r l]; reflexivity.
Qed.

Lemma normalize_columns_cases (companyfacts : CompanyFacts)
  (cfg : NormalizeConfig) :
  columns (normalize_companyfacts_to_df companyfacts cfg)
  = match collected_rows companyfacts cfg with
    | [] => []
    | _ :: _ => all_columns
    end.
Proof.
  unfold normalize_companyfacts_to_df. fold (collected_rows companyfacts cfg).
  destruct (collected_rows companyfacts cfg) as [ | r l]; reflexivity.
Qed.

Lemma collected_row_cases (companyfacts : CompanyFacts)
  (cfg : NormalizeConfig) (r : Fact) :
  In r (collected_rows companyfacts cfg) ->
  exists concept label description unit item,
    r = mkFact (taxonomy cfg) concept label description unit (i_val item)
          (i_start item) (i_end item) (i_fy item) (i_fp item)
          (_as_str (i_form item)) (i_filed item) (i_frame item)
          (i_accn item) (i_qtrs item) (i_dims item) None
    /\ (i_dims item = true -> keep_dimensions cfg = true)
    /\ (forall fs, keep_forms cfg = Some fs ->
                   In (_as_str (i_form item)) fs).
Proof.
  unfold collected_rows. intros H. apply in_flat_map in H.
  destruct H as [[concept obj] [_ H]]. unfold concept_rows in H.
  apply in_flat_map in H. destruct H as [[u fl] [_ H]].
  unfold unit_rows in H. simpl in H. destruct fl as [ | items]; [ destruct H | ].
  apply in_flat_map in H. destruct H as [it [_ H]].
  destruct it as [ | item]; [ destruct H | ]. simpl in H.
  destruct (keep_forms cfg) as [fs|] eqn:Hforms.
  - destruct (str_in (_as_str (i_form item)) fs) eqn:Hin; simpl in H;
      [ | destruct H ].
    destruct (i_dims item && negb (keep_dimensions cfg)) eqn:Hd;
      [ destruct H | ].
    destruct H as [<- | []]. do 5 eexists. split; [ reflexivity | ]. split.
    + intros Hdims. rewrite Hdims in Hd. simpl in Hd.
      apply negb_false_iff. exact Hd.
    + intros fs' E. inversion E. subst. apply str_in_In. exact Hin.
  - simpl in H.
    destruct (i_dims item && negb (keep_dimensions cfg)) eqn:Hd;
      [ destruct H | ].
    destruct H as [<- | []]. do 5 eexists. split; [ reflexivity | ]. split.
    + intros Hdims. rewrite Hdims in Hd. simpl in Hd.
      apply negb_false_iff. exact Hd.
    + intros fs' E. discriminate.
Qed.

(** X1. Every row the normalizer returns carries the configured taxonomy,
    is tagged instant exactly when it has no start date and duration
    otherwise, has no dimensions unless they are asked for, and has a form
    of the allow-list when there is one; a table with a row has the sixteen
    collected columns and period_type. *)
Theorem normalize_row_invariants (companyfacts : CompanyFacts)
  (cfg : NormalizeConfig) (r : Fact)
  (Hrow : In r (rows (normalize_companyfacts_to_df companyfacts cfg))) :
  columns (normalize_companyfacts_to_df companyfacts cfg)
  = normalize_columns ++ ["period_type"]
  /\ f_taxonomy r = taxonomy cfg
  /\ f_period_type r
     = Some (match f_start r with Some _ => "duration" | None => "instant" end)
  /\ (keep_dimensions cfg = false -> f_has_dimensions r = false)
  /\ (forall fs, keep_forms cfg = Some fs -> In (f_form r) fs).
Proof.
  split.
  - rewrite normalize_columns_cases. rewrite normalize_rows in Hrow.
    destruct (collected_rows companyfacts cfg); [ destruct Hrow | reflexivity ].
  - rewrite normalize_rows in Hrow. apply in_map_iff in Hrow.
    destruct Hrow as [r0 [<- Hr0]].
    destruct (collected_row_cases _ _ _ Hr0)
      as [concept [label [description [u [item [-> [Hdims Hforms]]]]]]].
    simpl. split; [ reflexivity | ]. split.
    + unfold period_type_of. simpl. destruct (i_start item); reflexivity.
    + split; [ | exact Hforms ].
      intros Hkeep. destruct (i_dims item); [ | reflexivity ].
      rewrite (Hdims eq_refl) in Hkeep. discriminate.
Qed.

Lemma filter_flat_map {A B : Type} (p : B -> bool) (f : A -> list B)
  (l : list A) :
  filter p (flat_map f l) = flat_map (fun x => filter p (f x)) l.
Proof.
  induction l as [ | a l IH]; simpl; [ reflexivity | ].
  rewrite filter_app, IH. reflexivity.
Qed.

Lemma flat_map_ext_all {A B : Type} (f g : A -> list B) (l : list A) :
  (forall x, f x = g x) -> flat_map f l = flat_map g l.
Proof.
  intros H. induction l as [ | a l IH]; simpl; [ reflexivity | ].
  rewrite H, IH. reflexivity.
Qed.

Lemma collected_rows_keep_forms (companyfacts : CompanyFacts)
  (cfg : NormalizeConfig) (fs : list string) :
  collected_rows companyfacts (with_keep_forms cfg (Some fs))
  = filter (fun r => str_in (f_form r) fs)
      (collected_rows companyfacts (with_keep_forms cfg None)).
Proof.
  unfold collected_rows. simpl. rewrite filter_flat_map.
  apply flat_map_ext_all. intros [concept obj]. unfold concept_rows. simpl.
  rewrite filter_flat_map. apply flat_map_ext_all. intros [u fl].
  unfold unit_rows. simpl. destruct fl as [ | items]; [ reflexivity | ].
  rewrite filter_flat_map. apply flat_map_ext_all. intros [ | item];
    [ reflexivity | ].
  simpl. destruct (str_in (_as_str (i_form item)) fs) eqn:Hin; simpl.
  - destruct (i_dims item && negb (keep_dimensions cfg)); simpl;
      [ reflexivity | ].
    rewrite Hin. reflexivity.
  - destruct (i_dims item && negb (keep_dimensions cfg)); simpl;
      [ reflexivity | ].
    rewrite Hin. reflexivity.
Qed.

Lemma filter_map_commute {A B : Type} (p : B -> bool) (q : A -> bool)
  (f : A -> B) (l : list A) :
  (forall x, p (f x) = q x) ->
  filter p (map f l) = map f (filter q l).
Proof.
  intros H. induction l as [ | a l IH]; simpl; [ reflexivity | ].
  rewrite H, IH. destruct (q a); reflexivity.
Qed.

(** X2. Normalizing with a form allow-list gives the rows that
    [filter_forms] with that list leaves of the table normalized without
    one; [filter_forms] does not raise on a normalized table. *)
Theorem keep_forms_is_filter_forms (companyfacts : CompanyFacts)
  (cfg : NormalizeConfig) (fs : list string) :
  exists d,
    filter_forms
      (normalize_companyfacts_to_df companyfacts (with_keep_forms cfg None))
      fs = Ok d
    /\ rows d
       = rows (normalize_companyfacts_to_df companyfacts
                 (with_keep_forms cfg (Some fs))).
Proof.
  set (all := normalize_companyfacts_to_df companyfacts
                (with_keep_forms cfg None)).
  assert (Hrows : filter (fun r => str_in (f_form r) fs) (rows all)
                  = rows (normalize_companyfacts_to_df companyfacts
                            (with_keep_forms cfg (Some fs)))).
  { unfold all. rewrite !normalize_rows, collected_rows_keep_forms.
    apply filter_map_commute. reflexivity. }
  unfold filter_forms. destruct (empty all) eqn:Hempty.
  - exists all. split; [ reflexivity | ]. rewrite <- Hrows.
    assert (Hnil : rows all = []).
    { unfold all in *. rewrite normalize_rows.
      unfold empty in Hempty.
      rewrite normalize_rows, normalize_columns_cases in Hempty.
      destruct (collected_rows companyfacts (with_keep_forms cfg None));
        [ reflexivity | discriminate ]. }
    rewrite Hnil. reflexivity.
  - assert (Hform : has_col "form" all = true).
    { unfold has_col, all. rewrite normalize_columns_cases.
      unfold empty, all in Hempty. rewrite normalize_rows in Hempty.
      destruct (collected_rows companyfacts (with_keep_forms cfg None));
        [ discriminate | reflexivity ]. }
    rewrite (need_ok _ _ Hform). simpl. eexists. split; [ reflexivity | ].
    exact Hrows.
Qed.

(** ** The resolver steps on rows *)

Lemma need_all_ok (cs : list string) (d : DataFrame) :
  has_columns cs d -> need_all cs d = Ok tt.
Proof.
  unfold has_columns. induction cs as [ | c cs IH]; intros H; simpl;
    [ reflexivity | ].
  rewrite (need_ok c d) by (apply H; left; reflexivity). simpl.
  apply IH. intros c' Hc'. apply H. right. exact Hc'.
Qed.

Lemma select_all (p : Fact -> bool) (d : DataFrame) :
  (forall r, In r (rows d) -> p r = true) -> select p d = d.
Proof.
  intros H. unfold select. rewrite forallb_filter_id.
  - apply frame_eta.
  - apply forallb_forall. exact H.
Qed.

Lemma choose_preferred_unit_rows (df : DataFrame)
  (preferred_units : option (list string)) :
  has_col "unit" df = true -> has_col "concept" df = true ->
  choose_preferred_unit df preferred_units
  = Ok (with_rows
          (kept_rows (or_default preferred_units default_preferred_units)
             (rows df)) df).
Proof.
  intros Hunit Hconcept. unfold choose_preferred_unit, kept_rows.
  pose proof (has_col_columns _ _ Hunit) as Hcols.
  destruct (empty df) eqn:Hempty.
  - pose proof (empty_true_rows df Hcols Hempty) as Hnil.
    destruct df as [cols rs]. simpl in Hnil. subst rs. reflexivity.
  - rewrite (need_ok _ _ Hunit). simpl.
    set (prefs := or_default preferred_units default_preferred_units).
    set (df2 := select (fun r => unit_rank prefs (f_unit r) <? sentinel_rank)
                  df).
    destruct (empty df2) eqn:Hempty2.
    + pose proof (empty_true_rows df2 Hcols Hempty2) as Hnil.
      unfold df2 in Hnil. simpl in Hnil. rewrite Hnil. simpl.
      unfold df2, select, with_rows. rewrite Hnil. reflexivity.
    + assert (Hc2 : has_col "concept" df2 = true) by exact Hconcept.
      rewrite (need_ok _ _ Hc2). reflexivity.
Qed.

Lemma kept_rows_In (prefs : list string) (l : list Fact) (r : Fact) :
  In r (kept_rows prefs l) ->
  In r l /\ unit_rank prefs (f_unit r) < sentinel_rank /\
  forall r', In r' (kept_rows prefs l) -> f_concept r' = f_concept r ->
             unit_rank prefs (f_unit r) <= unit_rank prefs (f_unit r').
Proof.
  unfold kept_rows. intros H. apply filter_In in H. destruct H as [H E].
  pose proof H as H0. apply filter_In in H0. destruct H0 as [Hin Hlt].
  split; [ exact Hin | ]. split; [ lia | ].
  intros r' H' Hc. apply filter_In in H'. destruct H' as [H' _].
  apply Z.eqb_eq in E. rewrite E. apply best_rank_le_group; assumption.
Qed.


Lemma best_rank_least (prefs : list string) (l : list Fact) (r : Fact) :
  (forall r', In r' l -> f_concept r' = f_concept r ->
              unit_rank prefs (f_unit r) <= unit_rank prefs (f_unit r')) ->
  best_rank prefs l r = unit_rank prefs (f_unit r).
Proof.
  unfold best_rank. induction l as [ | a l IH]; intros H; simpl;
    [ reflexivity | ].
  rewrite IH by (intros r' Hr'; apply H; right; exact Hr').
  destruct (String.eqb (f_concept a) (f_concept r)) eqn:E; [ | reflexivity ].
  apply String.eqb_eq in E. specialize (H a (or_introl eq_refl) E). lia.
Qed.

Lemma kept_rows_idempotent (prefs : list string) (l : list Fact) :
  kept_rows prefs (kept_rows prefs l) = kept_rows prefs l.
Proof.
  set (k := kept_rows prefs l). unfold kept_rows at 1.
  assert (H1 : filter (fun r => unit_rank prefs (f_unit r) <? sentinel_rank) k
               = k).
  { apply forallb_filter_id. apply forallb_forall. intros r Hr.
    destruct (kept_rows_In _ _ _ Hr) as [_ [Hlt _]]. lia. }
  rewrite H1. apply forallb_filter_id. apply forallb_forall. intros r Hr.
  apply Z.eqb_eq. symmetry. apply best_rank_least.
  intros r' Hr' Hc. destruct (kept_rows_In _ _ _ Hr) as [_ [_ Hmin]].
  apply Hmin; assumption.
Qed.

Lemma choose_preferred_unit_empty (df : DataFrame)
  (preferred_units : option (list string)) :
  empty df = true -> choose_preferred_unit df preferred_units = Ok df.
Proof. unfold choose_preferred_unit. intros ->. reflexivity. Qed.

(** X3. Preferred-unit selection is idempotent: a second pass over the
    result of a first pass returns that result, and a pass that raises
    leaves its exception. *)
Theorem choose_preferred_unit_idempotent (df : DataFrame)
  (preferred_units : option (list string)) :
  bind (choose_preferred_unit df preferred_units)
    (fun d => choose_preferred_unit d preferred_units)
  = choose_preferred_unit df preferred_units.
Proof.
  destruct (empty df) eqn:Hempty.
  { rewrite (choose_preferred_unit_empty df _ Hempty). simpl.
    apply choose_preferred_unit_empty. exact Hempty. }
  destruct (has_col "unit" df) eqn:Hunit.
  2:{ unfold choose_preferred_unit, need. rewrite Hempty, Hunit.
      reflexivity. }
  destruct (has_col "concept" df) eqn:Hconcept.
  - rewrite (choose_preferred_unit_rows df _ Hunit Hconcept). simpl.
    rewrite choose_preferred_unit_rows by assumption. simpl.
    rewrite kept_rows_idempotent. reflexivity.
  - assert (Hfirst : forall d,
      choose_preferred_unit df preferred_units = Ok d -> empty d = true).
    { unfold choose_preferred_unit. rewrite Hempty.
      rewrite (need_ok _ _ Hunit). simpl. intros d.
      destruct (empty (select _ df)) eqn:Hempty2.
      - intros E. inversion E. subst d. exact Hempty2.
      - unfold need. replace (has_col "concept" (select _ df)) with false
          by (symmetry; exact Hconcept).
        discriminate. }
    destruct (choose_preferred_unit df preferred_units) as [d|e] eqn:E;
      [ | reflexivity ].
    simpl. apply choose_preferred_unit_empty. apply Hfirst. reflexivity.
Qed.

(** ** Latest-filed deduplication on rows *)

Section DuplicatesLast.
Context {A K : Type} (eqb : K -> K -> bool) (k : A -> K).
Hypothesis eqb_spec : forall a b, eqb a b = true <-> a = b.

(** A kept row is the last row of the input with its key. *)
Lemma drop_last_is_last (r : A) (l : list A) :
  In r (drop_duplicates_last eqb k l) ->
  exists l1 l2, l = l1 ++ r :: l2 /\ forall z, In z l2 -> k z <> k r.
Proof.
  induction l as [ | a l IH]; simpl; intros H; [ destruct H | ].
  destruct (existsb (fun y => eqb (k a) (k y)) l) eqn:E.
  - destruct (IH H) as [l1 [l2 [-> Hl2]]]. exists (a :: l1), l2. auto.
  - destruct H as [<- | H].
    + exists [], l. split; [ reflexivity | ]. intros z Hz Heq.
      assert (existsb (fun y => eqb (k a) (k y)) l = true); [ | congruence ].
      apply existsb_exists. exists z. split; [ exact Hz | ].
      apply eqb_spec. symmetry. exact Heq.
    + destruct (IH H) as [l1 [l2 [-> Hl2]]]. exists (a :: l1), l2. auto.
Qed.

(** Every key of the input is the key of a kept row. *)
Lemma drop_last_covers (x : A) (l : list A) :
  In x l -> exists r, In r (drop_duplicates_last eqb k l) /\ k r = k x.
Proof.
  revert x. induction l as [ | a l IH]; simpl; intros x H; [ destruct H | ].
  destruct (existsb (fun y => eqb (k a) (k y)) l) eqn:E.
  - destruct H as [<- | H]; [ | auto ].
    apply existsb_exists in E. destruct E as [y [Hy E]].
    apply eqb_spec in E. destruct (IH y Hy) as [r [Hr Hk]].
    exists r. split; [ exact Hr | congruence ].
  - destruct H as [<- | H].
    + exists a. split; [ left; reflexivity | reflexivity ].
    + destruct (IH x H) as [r [Hr Hk]]. exists r. split; [ right | ]; auto.
Qed.
End DuplicatesLast.

Lemma sorted_split_before {A : Type} (R : A -> A -> Prop) (l1 l2 : list A)
  (x y : A) :
  StronglySorted R (l1 ++ x :: l2) -> In y l1 -> R y x.
Proof.
  induction l1 as [ | a l1 IH]; simpl; intros Hs Hy; [ destruct Hy | ].
  inversion Hs as [ | ? ? Hs' Hall]; subst. destruct Hy as [<- | Hy].
  - rewrite Forall_forall in Hall. apply Hall. apply in_elt.
  - apply IH; assumption.
Qed.

Lemma dedupe_order_same_key (a b : Fact) :
  dedupe_key a = dedupe_key b ->
  dedupe_order a b = na_last Z.compare (f_filed a) (f_filed b).
Proof.
  unfold dedupe_key. intros E. inversion E as [[E1 E2 E3 E4 E5 E6 E7]].
  unfold dedupe_order, then_by, by_key.
  rewrite E1, E2, E3, E4, E5, E6, E7.
  rewrite !(good_refl _ good_str_cmp).
  rewrite !(good_refl _ (good_na_last _ good_Z_compare)).
  rewrite (good_refl _ (good_na_last _ good_str_cmp)). reflexivity.
Qed.

Lemma dedupe_rows (df : DataFrame) :
  has_columns dedupe_columns df ->
  dedupe_keep_latest_filed df = Ok (with_rows (deduped_rows (rows df)) df).
Proof.
  intros Hcols. unfold dedupe_keep_latest_filed, deduped_rows.
  destruct (empty df) eqn:Hempty.
  - assert (Hnil : rows df = []).
    { apply empty_true_rows; [ | exact Hempty ].
      apply (has_col_columns "concept"). apply Hcols. left. reflexivity. }
    destruct df as [cols rs]. simpl in Hnil. subst rs. reflexivity.
  - rewrite (need_all_ok _ _ Hcols). reflexivity.
Qed.

Lemma deduped_rows_spec (l : list Fact) :
  NoDup (map dedupe_key (deduped_rows l))
  /\ (forall r, In r (deduped_rows l) -> In r l)
  /\ forall r', In r' l ->
       exists r, In r (deduped_rows l) /\ dedupe_key r = dedupe_key r'
                 /\ le_of (na_last Z.compare) (f_filed r') (f_filed r).
Proof.
  unfold deduped_rows. split; [ | split ].
  - apply drop_last_keys_NoDup. exact dedupe_key_eqb_spec.
  - intros r Hr. apply drop_last_In in Hr. apply sort_by_In in Hr. exact Hr.
  - intros r' Hr'.
    assert (Hs : In r' (sort_by dedupe_order l)) by (apply sort_by_In; auto).
    destruct (drop_last_covers dedupe_key_eqb dedupe_key
                dedupe_key_eqb_spec r' _ Hs) as [r [Hr Hk]].
    exists r. split; [ exact Hr | ]. split; [ exact Hk | ].
    destruct (drop_last_is_last dedupe_key_eqb dedupe_key
                dedupe_key_eqb_spec r _ Hr) as [l1 [l2 [Hsplit Hl2]]].
    pose proof (sort_by_sorted dedupe_order good_dedupe_order l) as Hsorted.
    rewrite Hsplit in Hs, Hsorted. apply in_app_or in Hs.
    destruct Hs as [Hs | [<- | Hs]].
    + pose proof (sorted_split_before _ _ _ _ _ Hsorted Hs) as Hle.
      unfold le_of in *. rewrite dedupe_order_same_key in Hle by congruence.
      exact Hle.
    + apply le_of_refl. apply good_na_last. exact good_Z_compare.
    + exfalso. apply (Hl2 r' Hs). congruence.
Qed.

(** X4. On a table with the eight columns it sorts by, deduplication
    returns rows of the input with pairwise distinct identity tuples; every
    input row is represented by the returned row of its identity, whose
    filing date is not earlier, a missing filing date counting as later
    than every date. *)
Theorem dedupe_keeps_latest_filed (df : DataFrame)
  (Hcols : has_columns dedupe_columns df) :
  exists out,
    dedupe_keep_latest_filed df = Ok out
    /\ columns out = columns df
    /\ NoDup (map dedupe_key (rows out))
    /\ (forall r, In r (rows out) -> In r (rows df))
    /\ forall r', In r' (rows df) ->
         exists r, In r (rows out) /\ dedupe_key r = dedupe_key r'
           /\ match f_filed r', f_filed r with
              | Some d', Some d => d' <= d
              | Some _, None => True
              | None, Some _ => False
              | None, None => True
              end.
Proof.
  rewrite (dedupe_rows df Hcols). eexists. split; [ reflexivity | ].
  split; [ reflexivity | ]. simpl.
  destruct (deduped_rows_spec (rows df)) as [Hnd [Hin Hcov]].
  split; [ exact Hnd | ]. split; [ exact Hin | ].
  intros r' Hr'. destruct (Hcov r' Hr') as [r [Hr [Hk Hle]]].
  exists r. split; [ exact Hr | ]. split; [ exact Hk | ].
  unfold le_of in Hle. destruct (f_filed r') as [d'|], (f_filed r) as [d|];
    simpl in Hle; try exact I; try congruence.
Qed.

(** ** The normalization pipeline *)




(** ** Single-concept series *)

Lemma insert_by_Permutation {A : Type} (c : cmp_t A) (x : A) (l : list A) :
  Permutation (insert_by c x l) (x :: l).
Proof.
  induction l as [ | a l IH]; simpl; [ reflexivity | ].
  destruct (c x a); try reflexivity.
  rewrite IH. apply perm_swap.
Qed.

Lemma sort_by_Permutation {A : Type} (c : cmp_t A) (l : list A) :
  Permutation (sort_by c l) l.
Proof.
  induction l as [ | a l IH]; simpl; [ reflexivity | ].
  fold (sort_by c l). rewrite insert_by_Permutation, IH. reflexivity.
Qed.

Lemma good_end_filed_order : good_cmp end_filed_order.
Proof.
  unfold end_filed_order. apply good_then_by; apply good_by_key;
    apply good_na_last; exact good_Z_compare.
Qed.

(** X6. On a table with the concept, unit, end and filed columns,
    [extract_concept_series] returns the rows of that concept and unit, each
    as often as in the input, in ascending order of end date and then of
    filing date, missing dates last.  On a table without rows it returns a
    table without columns. *)
Theorem extract_concept_series_sorted (df : DataFrame)
  (concept unit : string)
  (Hcols : has_columns ["concept"; "unit"; "end"; "filed"] df) :
  exists out,
    extract_concept_series df concept unit = Ok out
    /\ Permutation (rows out)
         (filter (fun r => String.eqb (f_concept r) concept
                           && String.eqb (f_unit r) unit) (rows df))
    /\ StronglySorted
         (fun a b =>
            le_of (na_last Z.compare) (f_end a) (f_end b)
            /\ (f_end a = f_end b ->
                le_of (na_last Z.compare) (f_filed a) (f_filed b)))
         (rows out)
    /\ (rows df = [] -> out = empty_frame).
Proof.
  unfold extract_concept_series.
  assert (Hne : columns df <> []).
  { apply (has_col_columns "concept"). apply Hcols. left. reflexivity. }
  destruct (empty df) eqn:Hempty.
  - pose proof (empty_true_rows df Hne Hempty) as Hnil.
    exists empty_frame. rewrite Hnil. simpl.
    repeat split; try reflexivity; constructor.
  - rewrite (need_ok "concept" df), (need_ok "unit" df)
      by (apply Hcols; simpl; tauto).
    simpl.
    rewrite (need_ok "end" (select _ df)), (need_ok "filed" (select _ df))
      by (rewrite has_col_select; apply Hcols; simpl; tauto).
    simpl. eexists. split; [ reflexivity | ]. simpl.
    split; [ apply sort_by_Permutation | ]. split.
    + eapply StronglySorted_ind with
        (P := fun l => StronglySorted _ l);
        [ constructor | | apply (sort_by_sorted end_filed_order
                                   good_end_filed_order) ].
      intros a l Hs IH Hall. constructor; [ exact IH | ].
      eapply Forall_impl; [ | exact Hall ].
      intros b Hab. unfold le_of, end_filed_order, then_by, by_key in *.
      destruct (na_last Z.compare (f_end a) (f_end b)) eqn:E; simpl in Hab.
      * split; [ discriminate | intros _; exact Hab ].
      * split; [ discriminate | ]. intros Eq'. rewrite Eq' in E.
        rewrite (good_refl _ (good_na_last _ good_Z_compare)) in E.
        discriminate.
      * congruence.
    + intros Hnil. apply empty_false_rows in Hempty. congruence.
Qed.

(** ** Annualization keeps year-long spans *)

Lemma span_step (d out0 : DataFrame) (f : Fact -> Fact) :
  (forall r, In r (rows out0) -> exists r0, In r0 (rows d) /\ r = f r0) ->
  exists out,
    (if existsb (fun r => notna (f_start r)) (rows out0)
     then Ok (select near_one_year out0) else Ok out0) = Ok out
    /\ (forall r, In r (rows out) -> exists r0, In r0 (rows d) /\ r = f r0)
    /\ ((forall r, In r (rows out) -> f_start r = None)
        \/ (forall r, In r (rows out) -> near_one_year r = true)).
Proof.
  intros Hsub.
  destruct (existsb (fun r => notna (f_start r)) (rows out0)) eqn:E.
  - eexists. split; [ reflexivity | ]. simpl. split.
    + intros r Hr. apply filter_In in Hr. apply Hsub. tauto.
    + right. intros r Hr. apply filter_In in Hr. tauto.
  - exists out0. split; [ reflexivity | ]. split; [ exact Hsub | ].
    left. intros r Hr.
    destruct (f_start r) eqn:Es; [ | reflexivity ].
    assert (existsb (fun r => notna (f_start r)) (rows out0) = true);
      [ | congruence ].
    apply existsb_exists. exists r. rewrite Es. auto.
Qed.

(** X7. On a table with the end column annualization returns rows of its
    input (their start date blanked when the table has no start column),
    and either none of them has a start date or each of them spans 330 to
    400 days. *)
Theorem annualize_spans_one_year (d : DataFrame)
  (Hend : has_col "end" d = true) :
  exists out,
    _annualize_duration_series d = Ok out
    /\ (forall r, In r (rows out) ->
          exists r0, In r0 (rows d)
            /\ r = (if has_col "start" d then r0 else set_start None r0))
    /\ ((forall r, In r (rows out) -> f_start r = None)
        \/ (forall r, In r (rows out) ->
              exists n, span_days r = Some n /\ 330 <= n <= 400)).
Proof.
  assert (Hnear : forall r, near_one_year r = true ->
                            exists n, span_days r = Some n /\ 330 <= n <= 400).
  { intros r. unfold near_one_year. destruct (span_days r) as [n|];
      [ | discriminate ].
    intros H. exists n. split; [ reflexivity | lia ]. }
  assert (Hgoal : exists out,
    _annualize_duration_series d = Ok out
    /\ (forall r, In r (rows out) ->
          exists r0, In r0 (rows d)
            /\ r = (fun r0 => if has_col "start" d then r0
                              else set_start None r0) r0)
    /\ ((forall r, In r (rows out) -> f_start r = None)
        \/ (forall r, In r (rows out) -> near_one_year r = true))).
  { unfold _annualize_duration_series.
    destruct (empty d) eqn:Hempty.
    - exists d. split; [ reflexivity | ].
      rewrite (empty_true_rows d (has_col_columns _ _ Hend) Hempty).
      split; [ intros r [] | left; intros r [] ].
    - set (d1 := assign "start" (coerce_or_na "start" d (set_start None)) d).
      assert (Hend1 : has_col "end" d1 = true)
        by (unfold d1; rewrite has_col_assign, Hend; reflexivity).
      rewrite (need_ok "end" d1 Hend1). simpl.
      set (d2 := assign "end" (fun r => r) d1).
      assert (Hd2 : forall r, In r (rows d2) ->
                exists r0, In r0 (rows d)
                  /\ r = (if has_col "start" d then r0
                          else set_start None r0)).
      { intros r Hr. unfold d2, d1 in Hr. simpl in Hr. rewrite map_id in Hr.
        apply in_map_iff in Hr. destruct Hr as [r0 [<- Hr0]].
        exists r0. split; [ exact Hr0 | ]. unfold coerce_or_na.
        destruct (has_col "start" d); reflexivity. }
      assert (Hsel : forall p r, In r (rows (select p d2)) ->
                exists r0, In r0 (rows d)
                  /\ r = (if has_col "start" d then r0
                          else set_start None r0)).
      { intros p r Hr. simpl in Hr. apply filter_In in Hr. apply Hd2. tauto. }
      assert (Hsel2 : forall p q r, In r (rows (select p (select q d2))) ->
                exists r0, In r0 (rows d)
                  /\ r = (if has_col "start" d then r0
                          else set_start None r0)).
      { intros p q r Hr. simpl in Hr. apply filter_In in Hr.
        apply (Hsel q). tauto. }
      destruct (has_col "qtrs" d2);
        [ destruct (negb (empty (select qtrs_is_4 d2))) | ]; simpl;
        try (destruct (has_col "fp" d2);
             [ destruct (negb (empty (select is_fy_tag d2))) | ]);
        match goal with
        | |- context [Ok (select near_one_year ?X)] =>
            apply (span_step d X (fun r0 => if has_col "start" d then r0
                                            else set_start None r0))
        end;
        first [ exact Hd2 | exact (Hsel _) | exact (Hsel2 _ _) ]. }
  destruct Hgoal as [out [H1 [H2 H3]]]. exists out.
  split; [ exact H1 | ]. split; [ exact H2 | ].
  destruct H3 as [H3 | H3]; [ left; exact H3 | right; auto ].
Qed.

(** ** Best-row selection is idempotent *)

Section DuplicatesFirst.
Context {A K : Type} (eqb : K -> K -> bool) (k : A -> K).
Hypothesis eqb_spec : forall a b, eqb a b = true <-> a = b.

Lemma drop_first_sorted (R : A -> A -> Prop) (l : list A) (seen : list K) :
  StronglySorted R l ->
  StronglySorted R (drop_duplicates_first eqb k seen l).
Proof.
  revert seen. induction l as [ | a l IH]; simpl; intros seen Hs.
  - constructor.
  - inversion Hs as [ | ? ? Hs' Hall]; subst.
    destruct (existsb (eqb (k a)) seen); [ auto | ].
    constructor; [ auto | ].
    rewrite Forall_forall in *. intros y Hy. apply Hall.
    apply (drop_first_In eqb k eqb_spec) in Hy. tauto.
Qed.

(** Rows with distinct unseen keys are all kept. *)
Lemma drop_first_NoDup_id (l : list A) (seen : list K) :
  NoDup (map k l) -> (forall x, In x l -> ~ In (k x) seen) ->
  drop_duplicates_first eqb k seen l = l.
Proof.
  revert seen. induction l as [ | a l IH]; simpl; intros seen Hnd Hseen.
  - reflexivity.
  - inversion Hnd as [ | ? ? Hna Hnd']; subst.
    destruct (existsb (eqb (k a)) seen) eqn:E.
    + exfalso. apply (Hseen a (or_introl eq_refl)).
      apply (existsb_eqb_In eqb eqb_spec). exact E.
    + f_equal. apply IH; [ exact Hnd' | ].
      intros x Hx [Hk | Hk]; [ | apply (Hseen x); auto ].
      apply Hna. rewrite Hk. apply in_map. exact Hx.
Qed.
End DuplicatesFirst.

Lemma coerce_columns_fixed (d : DataFrame) :
  has_columns ["end"; "start"; "filed"; "fy"] d -> coerce_columns d = Ok d.
Proof.
  intros H. unfold coerce_columns.
  assert (He : has_col "end" d = true) by (apply H; simpl; tauto).
  assert (Hs : has_col "start" d = true) by (apply H; simpl; tauto).
  assert (Hf : has_col "filed" d = true) by (apply H; simpl; tauto).
  assert (Hy : has_col "fy" d = true) by (apply H; simpl; tauto).
  rewrite (need_ok _ _ He). simpl. rewrite (assign_id _ _ He).
  rewrite (coerce_or_na_present _ _ _ Hs), (assign_id _ _ Hs).
  rewrite (coerce_or_na_present _ _ _ Hf), (assign_id _ _ Hf).
  rewrite (coerce_or_na_present _ _ _ Hy), (assign_id _ _ Hy).
  reflexivity.
Qed.

Lemma best_row_order_columns (d1 d2 : DataFrame) :
  has_col "qtrs" d1 = has_col "qtrs" d2 ->
  best_row_order d1 = best_row_order d2.
Proof.
  intros H. unfold best_row_order, is_q4. rewrite H. reflexivity.
Qed.

Lemma select_best_empty (df : DataFrame) :
  empty df = true -> _select_best_row_per_fy df = Ok df.
Proof. unfold _select_best_row_per_fy. intros ->. reflexivity. Qed.

Lemma filter_idempotent {A : Type} (p : A -> bool) (l : list A) :
  filter p (filter p l) = filter p l.
Proof.
  apply forallb_filter_id. apply forallb_forall. intros x Hx.
  apply filter_In in Hx. tauto.
Qed.

(** X8. On a table with the end and value columns best-row selection is
    idempotent: selecting again from its result returns that result. *)
Theorem select_best_row_per_fy_idempotent (df : DataFrame)
  (Hend : has_col "end" df = true) (Hvalue : has_col "value" df = true) :
  bind (_select_best_row_per_fy df) _select_best_row_per_fy
  = _select_best_row_per_fy df.
Proof.
  destruct (empty df) eqn:Hempty.
  { rewrite (select_best_empty df Hempty). simpl.
    apply select_best_empty. exact Hempty. }
  destruct (coerce_columns_ok df Hend) as [d [Hd [Hcols [_ [Hne _]]]]].
  assert (Hd4 : has_columns ["end"; "start"; "filed"; "fy"] d).
  { revert Hd. unfold coerce_columns. rewrite (need_ok _ _ Hend). simpl.
    intros E. inversion E. intros c Hc. rewrite !has_col_assign.
    simpl in Hc. destruct Hc as [<- | [<- | [<- | [<- | []]]]];
      try rewrite Hend; simpl; rewrite ?orb_true_r; reflexivity. }
  set (d' := select complete d).
  set (kept := drop_duplicates_first Z.eqb fy_int []
                 (sort_by (best_row_order d') (rows d'))).
  set (out := drop_columns helper_columns (with_rows kept d')).
  assert (Hrun : _select_best_row_per_fy df
                 = Ok (if empty d' then d' else out)).
  { unfold _select_best_row_per_fy. rewrite Hempty, Hd. cbn [bind].
    rewrite (need_ok "value" d (Hcols _ Hvalue)). cbn [bind]. fold d'.
    destruct (empty d'); reflexivity. }
  rewrite Hrun. cbn [bind].
  destruct (empty d') eqn:Hempty2.
  { apply select_best_empty. exact Hempty2. }
  assert (Hout4 : has_columns ["end"; "start"; "filed"; "fy"] out).
  { intros c Hc. unfold out.
    rewrite has_col_drop_columns.
    - apply Hd4. exact Hc.
    - simpl in Hc. destruct Hc as [<- | [<- | [<- | [<- | []]]]];
        reflexivity. }
  assert (Hcomplete : forall r, In r kept -> complete r = true).
  { intros r Hr. unfold kept in Hr.
    apply (drop_first_In Z.eqb fy_int Z.eqb_eq) in Hr. destruct Hr as [Hr _].
    apply sort_by_In in Hr. apply filter_In in Hr. tauto. }
  unfold _select_best_row_per_fy.
  destruct (empty out) eqn:Hempty3; [ reflexivity | ].
  rewrite (coerce_columns_fixed out Hout4). cbn [bind].
  assert (Hv : has_col "value" out = true).
  { unfold out. rewrite has_col_drop_columns by reflexivity.
    apply Hcols. exact Hvalue. }
  rewrite (need_ok _ _ Hv). cbn [bind].
  rewrite (select_all complete out) by exact Hcomplete.
  rewrite Hempty3.
  assert (Horder : best_row_order out = best_row_order d').
  { apply best_row_order_columns. unfold out.
    rewrite has_col_drop_columns by reflexivity. reflexivity. }
  rewrite Horder.
  assert (Hsorted : StronglySorted (le_of (best_row_order d')) kept).
  { apply (drop_first_sorted Z.eqb fy_int Z.eqb_eq).
    apply sort_by_sorted. apply good_best_row_order. }
  change (rows out) with kept.
  rewrite (sort_by_sorted_id _ kept Hsorted).
  rewrite (drop_first_NoDup_id Z.eqb fy_int Z.eqb_eq kept []);
    [ | apply drop_first_keys_NoDup; exact Z.eqb_eq | intros x _ [] ].
  unfold out, drop_columns, with_rows. simpl.
  rewrite filter_idempotent. reflexivity.
Qed.

(** ** The annual series of a metric *)

Lemma select_best_distinct (df : DataFrame) :
  has_col "end" df = true -> has_col "value" df = true ->
  exists out, _select_best_row_per_fy df = Ok out /\
    (empty out = false ->
     has_col "fy" out = true /\ has_col "end" out = true
     /\ has_col "value" out = true /\ all_complete out
     /\ NoDup (map fy_int (rows out))).
Proof.
  intros Hend Hvalue.
  destruct (select_best_returns df Hend Hvalue) as [out [Hout [_ Hprops]]].
  exists out. split; [ exact Hout | ]. intros Hne.
  destruct (Hprops Hne) as [H1 [H2 [H3 H4]]].
  repeat (split; [ assumption | ]).
  revert Hout. unfold _select_best_row_per_fy.
  destruct (empty df) eqn:Hempty.
  - intros E. inversion E. subst. congruence.
  - destruct (coerce_columns_ok df Hend) as [d [Hd [Hcols _]]].
    rewrite Hd. cbn [bind].
    rewrite (need_ok "value" d (Hcols _ Hvalue)). cbn [bind].
    destruct (empty (select complete d)) eqn:Hempty2.
    + intros E. inversion E. subst. congruence.
    + intros E. inversion E. subst. simpl.
      apply drop_first_keys_NoDup. exact Z.eqb_eq.
Qed.

Lemma extract_series_distinct (base : DataFrame) (spec : ConceptSpec)
  (concept : string) :
  has_col "concept" base = true -> has_col "value" base = true ->
  has_col "end" base = true ->
  exists d, _extract_series_for_concept base spec concept = Ok d /\
    (empty d = false ->
     has_col "fy" d = true /\ has_col "end" d = true
     /\ has_col "value" d = true /\ all_complete d
     /\ NoDup (map fy_int (rows d))).
Proof.
  intros Hconcept Hvalue Hend. unfold _extract_series_for_concept.
  rewrite (need_ok _ _ Hconcept). cbn [bind].
  set (d0 := select (fun r => String.eqb (f_concept r) concept) base).
  rewrite (need_ok "value" d0 Hvalue), (need_ok "end" d0 Hend). cbn [bind].
  set (d1 := select (fun r => negb (isna (f_value r)) && notna (f_end r)) d0).
  destruct (empty d1) eqn:E1.
  { exists d1. split; [ reflexivity | congruence ]. }
  set (d4 := select complete
               (assign "end" (fun r => r)
                  (assign "fy" (coerce_or_na "fy" d1 (set_fy None)) d1))).
  assert (Hcols : forall c, has_col c base = true -> has_col c d4 = true).
  { intros c Hc. unfold d4. rewrite has_col_select, !has_col_assign.
    unfold d1, d0. rewrite !has_col_select, Hc. reflexivity. }
  destruct (empty d4) eqn:E4.
  { exists d4. split; [ reflexivity | congruence ]. }
  assert (H5 : exists d5,
    (if opt_eqb String.eqb (period_type spec) (Some "duration")
     then _annualize_duration_series d4 else Ok d4) = Ok d5 /\ keeps d4 d5).
  { destruct (opt_eqb String.eqb (period_type spec) (Some "duration")).
    - apply annualize_returns. auto.
    - exists d4. split; [ reflexivity | apply keeps_refl ]. }
  destruct H5 as [d5 [-> [K5 A5]]]. cbn [bind].
  apply select_best_distinct; auto.
Qed.

Lemma sorted_skipn {A : Type} (R : A -> A -> Prop) (n : nat) (l : list A) :
  StronglySorted R l -> StronglySorted R (skipn n l).
Proof.
  revert l. induction n as [ | n IH]; intros l Hs; [ exact Hs | ].
  destruct l as [ | a l]; [ constructor | ]. simpl.
  inversion Hs; subst. auto.
Qed.

Lemma sorted_tail {A : Type} (R : A -> A -> Prop) (n : Z) (l : list A) :
  StronglySorted R l -> StronglySorted R (tail n l).
Proof.
  intros Hs. unfold tail, lastn.
  destruct (n =? 0); [ constructor | ].
  destruct (0 <? n); apply sorted_skipn; exact Hs.
Qed.

Lemma skipn_In {A : Type} (n : nat) (l : list A) (x : A) :
  In x (skipn n l) -> In x l.
Proof.
  intros H. rewrite <- (firstn_skipn n l). apply in_or_app. right. exact H.
Qed.

Lemma tail_In {A : Type} (n : Z) (l : list A) (x : A) :
  In x (tail n l) -> In x l.
Proof.
  unfold tail, lastn. destruct (n =? 0); [ intros [] | ].
  destruct (0 <? n); intros H; eapply skipn_In; exact H.
Qed.

Lemma tail_length {A : Type} (n : Z) (l : list A) :
  0 <= n -> (List.length (tail n l) <= Z.to_nat n)%nat.
Proof.
  intros Hn. unfold tail, lastn. destruct (n =? 0) eqn:E0; [ simpl; lia | ].
  destruct (0 <? n) eqn:E1; [ | lia ].
  rewrite length_skipn. lia.
Qed.

Lemma sorted_map {A B : Type} (R : A -> A -> Prop) (S : B -> B -> Prop)
  (f : A -> B) (l : list A) :
  (forall a b, R a b -> S (f a) (f b)) ->
  StronglySorted R l -> StronglySorted S (map f l).
Proof.
  intros H. induction 1 as [ | a l Hs IH Hall]; simpl; constructor;
    [ exact IH | ].
  rewrite Forall_forall in *. intros y Hy. apply in_map_iff in Hy.
  destruct Hy as [x [<- Hx]]. auto.
Qed.

(** Complete rows with distinct fiscal years, sorted by fiscal year, have
    strictly increasing fiscal years. *)
Lemma sorted_by_fy_increasing (l : list Fact) :
  Forall (fun r => complete r = true) l -> NoDup (map fy_int l) ->
  StronglySorted (fun a b => fy_int a < fy_int b)
    (sort_by (by_key f_fy (na_last Z.compare)) l).
Proof.
  intros Hall Hnd.
  set (c := by_key f_fy (na_last Z.compare)).
  assert (Hg : good_cmp c)
    by (apply good_by_key, good_na_last; exact good_Z_compare).
  pose proof (sort_by_sorted c Hg l) as Hs.
  assert (Hall' : Forall (fun r => complete r = true) (sort_by c l)).
  { rewrite Forall_forall in *. intros r Hr. apply Hall.
    apply sort_by_In in Hr. exact Hr. }
  assert (Hnd' : NoDup (map fy_int (sort_by c l))).
  { eapply Permutation_NoDup; [ | exact Hnd ].
    apply Permutation_map. symmetry. apply sort_by_Permutation. }
  induction Hs as [ | a m Hs IH Hm]; [ constructor | ].
  inversion Hall' as [ | ? ? Ha Hall'']; subst.
  simpl in Hnd'. inversion Hnd' as [ | ? ? Hna Hnd'']; subst.
  constructor; [ auto | ].
  rewrite Forall_forall in *. intros b Hb.
  specialize (Hm b Hb). specialize (Hall'' b Hb).
  unfold le_of, c, by_key in Hm.
  rewrite (complete_has_fy a Ha), (complete_has_fy b Hall'') in Hm.
  simpl in Hm.
  destruct (Z.compare_spec (fy_int a) (fy_int b)) as [E | E | E];
    [ | exact E | congruence ].
  exfalso. apply Hna. rewrite E. apply in_map. exact Hb.
Qed.

Lemma extract_annual_series_props (df : DataFrame)
  (spec : ConceptSpec) (n : Z) (Hreq : has_required df) :
  exists s,
    extract_annual_series df spec n = Ok s
    /\ (0 <= n -> (List.length s <= Z.to_nat n)%nat)
    /\ StronglySorted
         (fun a b => exists x y, s_fy a = Some x /\ s_fy b = Some y /\ x < y) s
    /\ exists concept,
         (s = [] \/ In concept (candidates spec))
         /\ Forall (fun row =>
                      s_concept_used row = concept /\ s_name row = name spec
                      /\ s_fy row <> None /\ s_fiscal_year_end row <> None
                      /\ isna (s_value row) = false) s.
Proof.
  unfold extract_annual_series.
  destruct (prepare_base_returns df spec) as [base [-> Hcols]];
    try (apply Hreq; simpl; tauto).
  cbn [bind].
  assert (Hc : has_col "concept" base = true)
    by (rewrite Hcols; apply Hreq; simpl; tauto).
  assert (Hv : has_col "value" base = true)
    by (rewrite Hcols; apply Hreq; simpl; tauto).
  assert (He : has_col "end" base = true)
    by (rewrite Hcols; apply Hreq; simpl; tauto).
  destruct (choose_best_concept_outcome base spec Hc Hv He)
    as [best [-> Hinv]].
  cbn [bind]. unfold chosen_inv in Hinv.
  destruct (best_score best) as [sc|].
  - destruct Hinv as [c [pre [post [H1 [H2 [H3 [H4 _]]]]]]].
    rewrite H1, H4.
    destruct (extract_series_distinct base spec c Hc Hv He) as [d [Hd Hprops]].
    assert (d = best_df best) by congruence. subst d.
    destruct (Hprops H4) as [Hfy [Hend [Hvalue [Hall Hnd]]]].
    rewrite (need_ok _ _ Hfy). cbn [bind need_all].
    rewrite (need_ok "fy" (with_rows _ (best_df best)) Hfy),
            (need_ok "end" (with_rows _ (best_df best)) Hend),
            (need_ok "value" (with_rows _ (best_df best)) Hvalue).
    cbn [bind]. eexists. split; [ reflexivity | ].
    cbn [rows with_rows].
    set (sorted := sort_by (by_key f_fy (na_last Z.compare))
                     (rows (best_df best))).
    assert (Hcomplete : forall r, In r (tail n sorted) -> complete r = true).
    { intros r Hr. apply tail_In in Hr. apply sort_by_In in Hr.
      unfold all_complete in Hall. rewrite Forall_forall in Hall. auto. }
    split; [ | split ].
    + intros Hn. rewrite length_map. apply tail_length. exact Hn.
    + apply Forall_forall with (P := fun r => complete r = true) in Hcomplete.
      pose proof (sorted_tail _ n _
                    (sorted_by_fy_increasing _ Hall Hnd)) as Hs.
      fold sorted in Hs. revert Hcomplete Hs.
      induction (tail n sorted) as [ | a m IH]; intros Hcomplete Hs; simpl;
        [ constructor | ].
      inversion Hs as [ | ? ? Hs' Hm]; subst.
      inversion Hcomplete as [ | ? ? Ha Hcm]; subst.
      constructor; [ auto | ].
      rewrite Forall_forall in *. intros row Hrow. apply in_map_iff in Hrow.
      destruct Hrow as [b [<- Hb]]. simpl.
      exists (fy_int a), (fy_int b).
      split; [ apply complete_has_fy; exact Ha | ].
      split; [ apply complete_has_fy; auto | auto ].
    + exists c. split; [ right; rewrite H2; apply in_elt | ].
      apply Forall_forall. intros row Hrow. apply in_map_iff in Hrow.
      destruct Hrow as [r [<- Hr]]. simpl.
      specialize (Hcomplete r Hr). unfold complete in Hcomplete.
      apply andb_true_iff in Hcomplete. destruct Hcomplete as [Hc1 Hc2].
      apply andb_true_iff in Hc1. destruct Hc1 as [Hy Hen].
      repeat split.
      * destruct (f_fy r); [ discriminate | discriminate ].
      * destruct (f_end r); [ discriminate | discriminate ].
      * apply negb_true_iff. exact Hc2.
  - destruct Hinv as [-> _]. exists []. split; [ reflexivity | ].
    split; [ simpl; lia | ]. split; [ constructor | ].
    exists "". split; [ left; reflexivity | constructor ].
Qed.

(** Rows in strictly increasing order of fiscal year. *)
Lemma increasing_fy_In (s : list SeriesRow) (a b : SeriesRow) :
  StronglySorted
    (fun a b => exists x y, s_fy a = Some x /\ s_fy b = Some y /\ x < y) s ->
  In a s -> In b s -> s_fy a = s_fy b -> a = b.
Proof.
  induction 1 as [ | c m Hs IH Hall]; intros Ha Hb E; [ destruct Ha | ].
  rewrite Forall_forall in Hall.
  destruct Ha as [<- | Ha], Hb as [<- | Hb]; auto.
  - destruct (Hall b Hb) as [x [y [Hx [Hy Hlt]]]].
    rewrite Hx, Hy in E. inversion E. lia.
  - destruct (Hall a Ha) as [x [y [Hx [Hy Hlt]]]].
    rewrite Hx, Hy in E. inversion E. lia.
Qed.

(** X9. On a table with the six mandatory columns the annual series of a
    metric has at most [last_n_years] rows when that number is not
    negative, has a fiscal year, an end date and a value in every row, and
    no two rows of one fiscal year; all rows name the metric and one
    concept, a candidate of the spec. *)
Theorem extract_annual_series_invariants (df : DataFrame)
  (spec : ConceptSpec) (n : Z) (Hreq : has_required df) :
  exists s,
    extract_annual_series df spec n = Ok s
    /\ (0 <= n -> (List.length s <= Z.to_nat n)%nat)
    /\ StronglySorted
         (fun a b => exists x y, s_fy a = Some x /\ s_fy b = Some y /\ x < y) s
    /\ (forall a b, In a s -> In b s -> s_fy a = s_fy b -> a = b)
    /\ (forall row, In row s ->
          s_name row = name spec /\ In (s_concept_used row) (candidates spec)
          /\ s_fy row <> None /\ s_fiscal_year_end row <> None
          /\ isna (s_value row) = false)
    /\ (forall a b, In a s -> In b s -> s_concept_used a = s_concept_used b).
Proof.
  destruct (extract_annual_series_props df spec n Hreq)
    as [s [Hs [Hlen [Hsorted [concept [Hc Hall]]]]]].
  exists s. rewrite Forall_forall in Hall.
  split; [ exact Hs | ]. split; [ exact Hlen | ]. split; [ exact Hsorted | ].
  split; [ intros a b; apply increasing_fy_In; exact Hsorted | ]. split.
  - intros row Hrow. destruct (Hall row Hrow) as [H1 [H2 [H3 [H4 H5]]]].
    split; [ exact H2 | ]. split; [ | tauto ].
    rewrite H1. destruct Hc as [-> | Hc]; [ destruct Hrow | exact Hc ].
  - intros a b Ha Hb. destruct (Hall a Ha) as [-> _].
    destruct (Hall b Hb) as [-> _]. reflexivity.
Qed.

(** ** The shape of the annual table *)

(** What a table that the builder returns is made of. *)
Lemma build_structure (df : DataFrame) (specs : option (list ConceptSpec))
  (cfg : option FinancialsConfig) (t : AnnualTable) :
  build_annual_financials_table df specs cfg = Ok t ->
  has_required df /\
  exists all_series concept_map,
    series_loop df (or_default specs default_mvp_specs)
      (last_n_years (or_default cfg default_financials_config)) [] []
    = Ok (all_series, concept_map)
    /\ (all_series = [] /\ t = empty_table
        \/ exists index cols,
             all_series <> []
             /\ pivot (filter (fun s => notna (s_fy s))
                         (List.concat all_series)) = Ok (index, cols)
             /\ t = mkAnnualTable index
                      (with_derived (List.length index)
                         (merge_fy_end
                            (filter (fun s => notna (s_fy s))
                               (List.concat all_series)) index cols))
                      (Some concept_map)).
Proof.
  intros Hbuild. unfold build_annual_financials_table in Hbuild.
  destruct (filter (fun c => negb (has_col c df)) required_cols) eqn:Hmissing;
    [ | discriminate ].
  split; [ apply missing_nil_iff; exact Hmissing | ].
  apply bind_ok_inv in Hbuild. destruct Hbuild as [[all cmap] [Hloop Hbuild]].
  exists all, cmap. split; [ exact Hloop | ].
  destruct all as [ | s0 rest].
  - left. inversion Hbuild. auto.
  - right. apply bind_ok_inv in Hbuild.
    destruct Hbuild as [[index cols] [Hpivot Hbuild]].
    exists index, cols. split; [ discriminate | ]. split; [ exact Hpivot | ].
    cbv zeta in Hbuild. inversion Hbuild. reflexivity.
Qed.

Lemma dict_get_In {V : Type} (d : list (string * V)) (k : string) (v : V) :
  dict_get d k = Some v -> In (k, v) d.
Proof.
  induction d as [ | [k' x] d IH]; simpl; [ discriminate | ].
  destruct (String.eqb k' k) eqn:E.
  - apply String.eqb_eq in E. intros H. inversion H. subst. left. reflexivity.
  - intros H. right. auto.
Qed.

Lemma dict_set_In {V : Type} (d : list (string * V)) (k k' : string)
  (v v' : V) :
  In (k', v') (dict_set d k v) -> (k' = k /\ v' = v) \/ In (k', v') d.
Proof.
  induction d as [ | [k0 x] d IH]; simpl.
  - intros [H | []]. inversion H. auto.
  - destruct (String.eqb k0 k) eqn:E; simpl.
    + apply String.eqb_eq in E. subst.
      intros [H | H]; [ inversion H; auto | auto ].
    + intros [H | H]; [ auto | ]. destruct (IH H); auto.
Qed.

Lemma well_formed_set (n : nat) (cols : list (string * column)) (k : string)
  (l : list fnum) :
  well_formed_columns n cols -> List.length l = n ->
  well_formed_columns n (set_column cols k (NumCol l)).
Proof.
  intros Hwf Hl k' v' Hin. apply dict_set_In in Hin.
  destruct Hin as [[-> ->] | Hin]; [ | auto ].
  split; [ exact Hl | left; reflexivity ].
Qed.

Lemma zip_with_length {A B C : Type} (f : A -> B -> C) (l : list A)
  (m : list B) :
  List.length l = List.length m ->
  List.length (zip_with f l m) = List.length l.
Proof.
  revert m. induction l as [ | a l IH]; intros [ | b m] H; simpl in *;
    try discriminate; [ reflexivity | ].
  f_equal. apply IH. lia.
Qed.

Lemma shift1_length (l : list fnum) :
  List.length (shift1 l) = List.length l.
Proof.
  unfold shift1. generalize FNaN. induction l as [ | a l IH]; intros x;
    [ reflexivity | ].
  change (removelast (x :: a :: l)) with (x :: removelast (a :: l)).
  simpl. f_equal. apply IH.
Qed.

Lemma pct_change_length (l : list fnum) :
  List.length (pct_change l) = List.length l.
Proof.
  unfold pct_change. apply zip_with_length. symmetry. apply shift1_length.
Qed.

(** A column that is read as floats has [n] cells. *)
Lemma num_col_length (n : nat) (cols : list (string * column)) (c : string) :
  well_formed_columns n cols -> dict_has cols c = true ->
  c <> "fiscal_year_end" -> c <> "fiscal_year_end_y" ->
  dict_get cols c = Some (NumCol (num_col cols c))
  /\ List.length (num_col cols c) = n.
Proof.
  intros Hwf Hhas H1 H2. unfold dict_has, num_col in *.
  destruct (dict_get cols c) as [v|] eqn:E; [ | discriminate ].
  apply dict_get_In in E. destruct (Hwf _ _ E) as [Hlen [Hnum | [Hk | Hk]]];
    try congruence.
  destruct v; [ | discriminate ]. auto.
Qed.

Lemma derive_length (n : nat) (cols : list (string * column))
  (op : fnum -> fnum -> fnum) (a b : string) :
  well_formed_columns n cols ->
  a <> "fy" -> b <> "fy" ->
  a <> "fiscal_year_end" -> a <> "fiscal_year_end_y" ->
  b <> "fiscal_year_end" -> b <> "fiscal_year_end_y" ->
  exists l, derive n cols op a b = NumCol l /\ List.length l = n
    /\ l = if dict_has cols a && dict_has cols b
           then zip_with op (num_col cols a) (num_col cols b)
           else repeat FNaN n.
Proof.
  intros Hwf Ha Hb Ha1 Ha2 Hb1 Hb2. unfold derive, has_wide_col.
  apply String.eqb_neq in Ha, Hb. rewrite Ha, Hb. simpl.
  destruct (dict_has cols a) eqn:Hda; simpl.
  - destruct (dict_has cols b) eqn:Hdb.
    + destruct (num_col_length n cols a Hwf Hda Ha1 Ha2) as [_ Hla].
      destruct (num_col_length n cols b Hwf Hdb Hb1 Hb2) as [_ Hlb].
      eexists. split; [ reflexivity | ]. split; [ | reflexivity ].
      rewrite zip_with_length; congruence.
    + eexists. split; [ reflexivity | ].
      split; [ apply repeat_length | reflexivity ].
  - eexists. split; [ reflexivity | ].
    split; [ apply repeat_length | reflexivity ].
Qed.

Lemma well_formed_derive (n : nat) (cols : list (string * column))
  (op : fnum -> fnum -> fnum) (k a b : string) :
  well_formed_columns n cols ->
  a <> "fy" -> b <> "fy" ->
  a <> "fiscal_year_end" -> a <> "fiscal_year_end_y" ->
  b <> "fiscal_year_end" -> b <> "fiscal_year_end_y" ->
  well_formed_columns n (set_column cols k (derive n cols op a b)).
Proof.
  intros Hwf Ha Hb Ha1 Ha2 Hb1 Hb2.
  destruct (derive_length n cols op a b Hwf Ha Hb Ha1 Ha2 Hb1 Hb2)
    as [l [-> [Hl _]]].
  apply well_formed_set; assumption.
Qed.

Lemma well_formed_yoy (n : nat) (cols : list (string * column)) :
  well_formed_columns n cols ->
  well_formed_columns n
    (set_column cols "revenue_yoy"
       (if has_wide_col cols "revenue"
        then NumCol (pct_change (num_col cols "revenue"))
        else na_column n)).
Proof.
  intros Hwf. unfold has_wide_col. simpl.
  destruct (dict_has cols "revenue") eqn:E.
  - apply well_formed_set; [ exact Hwf | ]. rewrite pct_change_length.
    apply (num_col_length n cols "revenue" Hwf E); discriminate.
  - apply well_formed_set; [ exact Hwf | apply repeat_length ].
Qed.

Lemma well_formed_with_derived (n : nat) (cols : list (string * column)) :
  well_formed_columns n cols -> well_formed_columns n (with_derived n cols).
Proof.
  intros Hwf. unfold with_derived. cbv zeta.
  repeat first
    [ apply well_formed_derive; try discriminate
    | apply well_formed_yoy
    | exact Hwf ].
Qed.

Lemma well_formed_pivot (long : list SeriesRow) (index : list Z)
  (cols : list (string * column)) :
  pivot long = Ok (index, cols) ->
  well_formed_columns (List.length index) (merge_fy_end long index cols)
  /\ StronglySorted Z.lt index.
Proof.
  unfold pivot. destruct (str_in "fy" _); [ discriminate | ].
  intros E. inversion E as [[Hindex Hcols]]. clear E. subst index cols.
  split; [ | apply sorted_unique_increasing ].
  set (index := sorted_unique_Z _).
  assert (Hwf0 : forall k v,
    In (k, v) (map (fun nm => (nm, NumCol (map (fun fy => last_value long fy nm)
                                             index)))
                 (sorted_unique_str
                    (map s_name
                       (filter (fun s => negb (isna (s_value s))) long)))) ->
    column_length v = List.length index /\ is_num_col v = true).
  { intros k v Hin. apply in_map_iff in Hin. destruct Hin as [nm [E _]].
    inversion E. subst. simpl. rewrite length_map. auto. }
  unfold merge_fy_end. intros k v Hin.
  destruct (dict_has _ "fiscal_year_end").
  - apply in_app_or in Hin. destruct Hin as [Hin | [Hin | []]].
    + apply in_map_iff in Hin. destruct Hin as [[k0 v0] [E Hin0]].
      destruct (Hwf0 _ _ Hin0) as [H1 H2]. simpl in E.
      destruct (String.eqb k0 "fiscal_year_end"); inversion E; subst; auto.
    + inversion Hin. subst. simpl. rewrite length_map. auto.
  - apply in_app_or in Hin. destruct Hin as [Hin | [Hin | []]].
    + destruct (Hwf0 _ _ Hin). auto.
    + inversion Hin. subst. simpl. rewrite length_map. auto.
Qed.

(** X10. In a table that the builder returns the fiscal years increase
    strictly from row to row and every column has one cell per row. *)
Theorem annual_table_well_formed (df : DataFrame)
  (specs : option (list ConceptSpec)) (cfg : option FinancialsConfig)
  (t : AnnualTable)
  (Hbuild : build_annual_financials_table df specs cfg = Ok t) :
  StronglySorted Z.lt (t_fy t)
  /\ Forall (fun kv => column_length (snd kv) = List.length (t_fy t))
       (t_columns t)
  /\ (t_columns t = [] /\ t_fy t = [] /\ t_concept_map t = None
      \/ t_concept_map t <> None
         /\ forall c, In c derived_cols -> dict_has (t_columns t) c = true).
Proof.
  destruct (build_structure df specs cfg t Hbuild)
    as [_ [all [cmap [_ [[_ ->] | [index [cols [_ [Hpivot ->]]]]]]]]].
  - split; [ constructor | ]. split; [ constructor | ]. left. auto.
  - destruct (well_formed_pivot _ _ _ Hpivot) as [Hwf Hsorted].
    apply well_formed_with_derived in Hwf. simpl.
    split; [ exact Hsorted | ]. split.
    + apply Forall_forall. intros [k v] Hin. apply (Hwf k v Hin).
    + right. split; [ discriminate | ].
      intros c Hc. unfold dict_has, with_derived, set_column. cbv zeta.
      simpl in Hc.
      destruct Hc as [<- | [<- | [<- | [<- | [<- | [<- | []]]]]]];
        rewrite ?dict_get_set_other by discriminate;
        rewrite dict_get_set_same; reflexivity.
Qed.

(** ** The derived columns *)

Lemma zip_with_nth {A B C : Type} (f : A -> B -> C) (l : list A) (m : list B)
  (i : nat) (da : A) (db : B) (dc : C) :
  (i < List.length l)%nat -> (i < List.length m)%nat ->
  nth i (zip_with f l m) dc = f (nth i l da) (nth i m db).
Proof.
  revert m i. induction l as [ | a l IH]; intros [ | b m] i Hl Hm;
    simpl in *; try lia.
  destruct i as [ | i]; [ reflexivity | ]. apply IH; lia.
Qed.

Lemma derive_ext (n : nat) (w1 w2 : list (string * column))
  (op : fnum -> fnum -> fnum) (a b : string) :
  dict_get w1 a = dict_get w2 a -> dict_get w1 b = dict_get w2 b ->
  derive n w1 op a b = derive n w2 op a b.
Proof.
  intros Ha Hb. unfold derive, has_wide_col, dict_has, num_col.
  rewrite Ha, Hb. reflexivity.
Qed.

(** Each derived column of the finished table is the combination of the
    columns of the finished table it is derived from. *)
Lemma with_derived_columns (n : nat) (w : list (string * column)) :
  let T := with_derived n w in
  dict_get T "fcf" = Some (derive n T fsub "cfo" "capex")
  /\ dict_get T "gross_margin"
     = Some (derive n T fdiv "gross_profit" "revenue")
  /\ dict_get T "operating_margin"
     = Some (derive n T fdiv "operating_income" "revenue")
  /\ dict_get T "net_margin" = Some (derive n T fdiv "net_income" "revenue")
  /\ dict_get T "fcf_margin" = Some (derive n T fdiv "fcf" "revenue").
Proof.
  intros T. unfold T, with_derived, set_column. cbv zeta.
  repeat split.
  all: repeat (rewrite dict_get_set_other by discriminate).
  all: rewrite dict_get_set_same; f_equal; apply derive_ext.
  all: repeat first
         [ rewrite dict_get_set_other by discriminate
         | symmetry; rewrite dict_get_set_other by discriminate ];
       reflexivity.
Qed.

Lemma derived_cell (n : nat) (T : list (string * column)) (k : string)
  (op : fnum -> fnum -> fnum) (a b : string) (i : nat) :
  well_formed_columns n T ->
  dict_get T k = Some (derive n T op a b) ->
  a <> "fy" -> b <> "fy" ->
  a <> "fiscal_year_end" -> a <> "fiscal_year_end_y" ->
  b <> "fiscal_year_end" -> b <> "fiscal_year_end_y" ->
  (i < n)%nat ->
  nth i (num_col T k) FNaN
  = if dict_has T a && dict_has T b
    then op (nth i (num_col T a) FNaN) (nth i (num_col T b) FNaN)
    else FNaN.
Proof.
  intros Hwf Hk Ha Hb Ha1 Ha2 Hb1 Hb2 Hi.
  destruct (derive_length n T op a b Hwf Ha Hb Ha1 Ha2 Hb1 Hb2)
    as [l [Hl [Hlen Hval]]].
  unfold num_col at 1. rewrite Hk, Hl, Hval.
  destruct (dict_has T a) eqn:Hda; simpl.
  - destruct (dict_has T b) eqn:Hdb.
    + destruct (num_col_length n T a Hwf Hda Ha1 Ha2) as [_ Hla].
      destruct (num_col_length n T b Hwf Hdb Hb1 Hb2) as [_ Hlb].
      apply zip_with_nth; lia.
    + apply nth_repeat.
  - apply nth_repeat.
Qed.

(** X11. In the row of a fiscal year of a table that the builder returns,
    free cash flow is operating cash flow minus capital expenditure, the
    gross, operating and net margins are the line item divided by revenue
    and the free-cash-flow margin is free cash flow divided by revenue, in
    float arithmetic on the cells of that row; a ratio one of whose two
    columns the table lacks is missing. *)
Theorem derived_columns_spec (df : DataFrame)
  (specs : option (list ConceptSpec)) (cfg : option FinancialsConfig)
  (t : AnnualTable) (i : nat) (y : Z)
  (Hbuild : build_annual_financials_table df specs cfg = Ok t)
  (Hrow : nth_error (t_fy t) i = Some y) :
  let has := dict_has (t_columns t) in
  let cell := fun c => cell_at t c y in
  cell "fcf" = (if has "cfo" && has "capex"
                then fsub (cell "cfo") (cell "capex") else FNaN)
  /\ cell "gross_margin"
     = (if has "gross_profit" && has "revenue"
        then fdiv (cell "gross_profit") (cell "revenue") else FNaN)
  /\ cell "operating_margin"
     = (if has "operating_income" && has "revenue"
        then fdiv (cell "operating_income") (cell "revenue") else FNaN)
  /\ cell "net_margin"
     = (if has "net_income" && has "revenue"
        then fdiv (cell "net_income") (cell "revenue") else FNaN)
  /\ cell "fcf_margin"
     = (if has "revenue"
        then fdiv (cell "fcf") (cell "revenue") else FNaN).
Proof.
  destruct (build_structure df specs cfg t Hbuild)
    as [_ [all [cmap [_ [[_ ->] | [index [cols [_ [Hpivot ->]]]]]]]]].
  { destruct i; discriminate. }
  destruct (well_formed_pivot _ _ _ Hpivot) as [Hwf Hsorted].
  apply well_formed_with_derived in Hwf.
  simpl in Hrow. intros has cell. unfold cell, cell_at. simpl.
  rewrite (position_nth_error _ _ _ (increasing_NoDup _ Hsorted) Hrow).
  assert (Hi : (i < List.length index)%nat)
    by (apply nth_error_Some; congruence).
  set (T := with_derived (List.length index) _) in *.
  destruct (with_derived_columns (List.length index)
              (merge_fy_end (filter (fun s => notna (s_fy s))
                               (List.concat all)) index cols))
    as [H1 [H2 [H3 [H4 H5]]]].
  fold T in H1, H2, H3, H4, H5.
  assert (Hfcf : has "fcf" = true).
  { unfold has, dict_has. simpl. fold T. rewrite H1. reflexivity. }
  split; [ | split; [ | split; [ | split ] ] ].
  - apply (derived_cell (List.length index) T "fcf" fsub "cfo" "capex");
      try discriminate; assumption.
  - apply (derived_cell (List.length index) T "gross_margin" fdiv "gross_profit" "revenue");
      try discriminate; assumption.
  - apply (derived_cell (List.length index) T "operating_margin" fdiv "operating_income"
             "revenue"); try discriminate; assumption.
  - apply (derived_cell (List.length index) T "net_margin" fdiv "net_income" "revenue");
      try discriminate; assumption.
  - rewrite (derived_cell (List.length index) T "fcf_margin" fdiv "fcf" "revenue" i Hwf H5);
      try discriminate; try assumption.
    unfold has in Hfcf. simpl in Hfcf. fold T in Hfcf. rewrite Hfcf.
    reflexivity.
Qed.

(** ** The loop over the metric specs *)

Lemma series_loop_outcome (df : DataFrame) (n : Z) :
  has_required df ->
  forall specs acc cmap,
  exists results,
    Forall2 (fun spec s => extract_annual_series df spec n = Ok s)
      specs results
    /\ series_loop df specs n acc cmap
       = Ok (acc ++ filter nonempty results,
             fold_left record_concept (combine specs results) cmap).
Proof.
  intros Hreq. induction specs as [ | spec rest IH]; intros acc cmap.
  - exists []. split; [ constructor | ]. simpl. rewrite app_nil_r.
    reflexivity.
  - destruct (extract_annual_series_returns df spec n Hreq) as [s [Hs _]].
    destruct s as [ | row s].
    + destruct (IH acc (dict_set cmap (name spec) "")) as [results [HF Hrun]].
      exists ([] :: results). split; [ constructor; assumption | ].
      simpl. rewrite Hs. cbn [bind]. exact Hrun.
    + destruct (IH (acc ++ [row :: s])
                  (dict_set cmap (name spec)
                     (concept_of_series (row :: s)))) as [results [HF Hrun]].
      exists ((row :: s) :: results). split; [ constructor; assumption | ].
      simpl. rewrite Hs. cbn [bind].
      unfold concept_of_series in Hrun. rewrite Hrun.
      rewrite <- app_assoc. reflexivity.
Qed.

Lemma record_concepts_spec (pairs : list (ConceptSpec * list SeriesRow))
  (m : list (string * string)) :
  let m' := fold_left record_concept pairs m in
  (forall p, In p pairs ->
     exists p', In p' pairs /\ name (fst p') = name (fst p)
       /\ dict_get m' (name (fst p)) = Some (concept_of_series (snd p')))
  /\ (forall k v, dict_get m' k = Some v ->
        dict_get m k = Some v
        \/ exists p', In p' pairs /\ name (fst p') = k
             /\ v = concept_of_series (snd p')).
Proof.
  induction pairs as [ | a l IH] using rev_ind; simpl.
  - split; [ intros p [] | auto ].
  - rewrite fold_left_app. simpl. destruct IH as [IHa IHb].
    unfold record_concept at 1 3. split.
    + intros p Hp.
      destruct (string_dec (name (fst a)) (name (fst p))) as [E | E].
      * exists a. split; [ apply in_or_app; right; left; reflexivity | ].
        split; [ exact E | ]. rewrite <- E. apply dict_get_set_same.
      * apply in_app_or in Hp. destruct Hp as [Hp | [<- | []]];
          [ | congruence ].
        destruct (IHa p Hp) as [p' [Hp' [Hn Hg]]].
        exists p'. split; [ apply in_or_app; left; exact Hp' | ].
        split; [ exact Hn | ].
        rewrite dict_get_set_other by exact E. exact Hg.
    + intros k v Hg.
      destruct (string_dec (name (fst a)) k) as [E | E].
      * subst k. rewrite dict_get_set_same in Hg. inversion Hg.
        right. exists a. split; [ apply in_or_app; right; left | ]; auto.
      * rewrite dict_get_set_other in Hg by exact E.
        destruct (IHb k v Hg) as [H | [p' [Hp' H]]]; [ left; exact H | ].
        right. exists p'. split; [ apply in_or_app; left; exact Hp' | exact H ].
Qed.

Lemma Forall2_combine_In {A B : Type} (R : A -> B -> Prop) (l : list A)
  (m : list B) (a : A) (b : B) :
  Forall2 R l m -> In (a, b) (combine l m) -> In a l /\ In b m /\ R a b.
Proof.
  induction 1 as [ | x y l m Hxy HF IH]; simpl; intros Hin; [ destruct Hin | ].
  destruct Hin as [Hin | Hin].
  - inversion Hin. subst. auto.
  - destruct (IH Hin) as [H1 [H2 H3]]. auto.
Qed.

Lemma Forall2_In_l {A B : Type} (R : A -> B -> Prop) (l : list A)
  (m : list B) (a : A) :
  Forall2 R l m -> In a l -> exists b, In (a, b) (combine l m).
Proof.
  induction 1 as [ | x y l m Hxy HF IH]; simpl; intros Hin; [ destruct Hin | ].
  destruct Hin as [<- | Hin]; [ eauto | ].
  destruct (IH Hin) as [b Hb]. eauto.
Qed.

Lemma last_In {A : Type} (a : A) (l : list A) (d : A) :
  In (last (a :: l) d) (a :: l).
Proof.
  revert a. induction l as [ | b l IH]; intros a; [ left; reflexivity | ].
  right. apply (IH b).
Qed.

(** X12. In a table with rows that the builder returns, the concept map
    has an entry for the name of every metric spec and for nothing else;
    an entry is the empty string or a candidate concept of a spec of that
    name. *)
Theorem concept_map_covers_specs (df : DataFrame)
  (specs : option (list ConceptSpec)) (cfg : option FinancialsConfig)
  (t : AnnualTable) (m : list (string * string))
  (Hbuild : build_annual_financials_table df specs cfg = Ok t)
  (Hmap : t_concept_map t = Some m) :
  let configured := or_default specs default_mvp_specs in
  (forall spec, In spec configured -> dict_has m (name spec) = true)
  /\ forall k v, dict_get m k = Some v ->
       exists spec, In spec configured /\ name spec = k
                    /\ (v = "" \/ In v (candidates spec)).
Proof.
  intros configured.
  destruct (build_structure df specs cfg t Hbuild)
    as [Hreq [all [cmap [Hloop Hcases]]]].
  destruct (series_loop_outcome df
              (last_n_years (or_default cfg default_financials_config))
              Hreq configured [] []) as [results [HF Hrun]].
  fold configured in Hloop. rewrite Hrun in Hloop. inversion Hloop.
  assert (Hm : m = cmap).
  { destruct Hcases as [[_ ->] | [index [cols [_ [_ ->]]]]];
      simpl in Hmap; congruence. }
  subst m cmap.
  destruct (record_concepts_spec (combine configured results) [])
    as [Ha Hb].
  split.
  - intros spec Hspec. destruct (Forall2_In_l _ _ _ spec HF Hspec) as [s Hs].
    destruct (Ha (spec, s) Hs) as [p' [_ [_ Hg]]]. simpl in Hg.
    unfold dict_has. rewrite Hg. reflexivity.
  - intros k v Hg. destruct (Hb k v Hg) as [H | [[spec s] [Hp [Hn Hv]]]];
      [ discriminate | ].
    simpl in Hn, Hv.
    destruct (Forall2_combine_In _ _ _ _ _ HF Hp) as [Hspec [_ Hs]].
    exists spec. split; [ exact Hspec | ]. split; [ exact Hn | ].
    destruct s as [ | row s]; [ left; exact Hv | right ].
    destruct (extract_annual_series_props df spec
                (last_n_years (or_default cfg default_financials_config))
                Hreq)
      as [s' [Hs' [_ [_ [concept [Hc Hall]]]]]].
    assert (s' = row :: s) by congruence. subst s'.
    rewrite Forall_forall in Hall.
    destruct (Hall _ (last_In row s (mkSeriesRow None None FNaN "" "")))
      as [Hused _].
    unfold concept_of_series in Hv. rewrite Hv, Hused.
    destruct Hc as [Hc | Hc]; [ discriminate | exact Hc ].
Qed.

(** ** The metric columns hold the selected values *)

Lemma fold_last_value (long : list SeriesRow) (fy : Z) (nm : string)
  (v acc : fnum) :
  (forall r, In r long -> in_group fy nm r = true -> s_value r = v) ->
  fold_left
    (fun acc s =>
       if opt_eqb Z.eqb (s_fy s) (Some fy) && String.eqb (s_name s) nm
          && negb (isna (s_value s))
       then s_value s else acc) long acc
  = if existsb (in_group fy nm) long then v else acc.
Proof.
  revert acc. induction long as [ | a l IH]; intros acc H; [ reflexivity | ].
  cbn [fold_left existsb]. fold (in_group fy nm a).
  destruct (in_group fy nm a) eqn:E.
  - rewrite (H a (or_introl eq_refl) E).
    rewrite IH by (intros r Hr; apply H; right; exact Hr).
    simpl. destruct (existsb (in_group fy nm) l); reflexivity.
  - apply IH. intros r Hr. apply H. right. exact Hr.
Qed.

Lemma with_derived_other (n : nat) (w : list (string * column)) (k : string) :
  ~ In k derived_cols -> dict_get (with_derived n w) k = dict_get w k.
Proof.
  intros Hk. unfold with_derived, set_column. cbv zeta.
  rewrite !dict_get_set_other; [ reflexivity | .. ];
    intros E; apply Hk; rewrite <- E; simpl; tauto.
Qed.

Lemma merge_fy_end_other (long : list SeriesRow) (index : list Z)
  (cols : list (string * column)) (k : string) :
  k <> "fiscal_year_end" -> k <> "fiscal_year_end_x" ->
  k <> "fiscal_year_end_y" ->
  dict_get (merge_fy_end long index cols) k = dict_get cols k.
Proof.
  intros H1 H2 H3. unfold merge_fy_end.
  assert (Hend : forall (key : string) (v : column),
            k <> key -> dict_get [(key, v)] k = None).
  { intros key v Hne. simpl. destruct (String.eqb key k) eqn:E;
      [ apply String.eqb_eq in E; congruence | reflexivity ]. }
  destruct (dict_has cols "fiscal_year_end").
  - rewrite dict_get_app, dict_get_rename by assumption.
    rewrite Hend by assumption. destruct (dict_get cols k); reflexivity.
  - rewrite dict_get_app, Hend by assumption.
    destruct (dict_get cols k); reflexivity.
Qed.

Lemma NoDup_map_inj {A B : Type} (f : A -> B) (l : list A) (a b : A) :
  NoDup (map f l) -> In a l -> In b l -> f a = f b -> a = b.
Proof.
  induction l as [ | x l IH]; simpl; intros Hnd Ha Hb E; [ destruct Ha | ].
  inversion Hnd as [ | ? ? Hx Hl]; subst.
  destruct Ha as [<- | Ha], Hb as [<- | Hb]; auto.
  - exfalso. apply Hx. rewrite E. apply in_map. exact Hb.
  - exfalso. apply Hx. rewrite <- E. apply in_map. exact Ha.
Qed.

Lemma present_In (l : list (option Z)) (y : Z) :
  In y (present l) <-> In (Some y) l.
Proof.
  induction l as [ | [a|] l IH]; simpl; [ tauto | | ].
  - rewrite IH. split; intros [H | H]; auto; left; congruence.
  - rewrite IH. split; [ auto | intros [H | H]; [ discriminate | auto ] ].
Qed.

Lemma position_In (l : list Z) (y : Z) :
  NoDup l -> In y l ->
  exists i, position y l = Some i /\ nth_error l i = Some y.
Proof.
  intros Hnd Hin. apply In_nth_error in Hin. destruct Hin as [i Hi].
  exists i. split; [ apply position_nth_error; assumption | exact Hi ].
Qed.

(** X13. With metric names that are pairwise distinct, a metric whose name
    is not that of a derived or fiscal-year-end column has, in the row of
    each fiscal year of its annual series, the value of the series; in the
    rows of the other fiscal years its cell is missing. *)
Theorem metric_cell_is_series_value (df : DataFrame)
  (specs : option (list ConceptSpec)) (cfg : option FinancialsConfig)
  (t : AnnualTable) (spec : ConceptSpec) (s : list SeriesRow)
  (Hbuild : build_annual_financials_table df specs cfg = Ok t)
  (Hnames : NoDup (map name (or_default specs default_mvp_specs)))
  (Hspec : In spec (or_default specs default_mvp_specs))
  (Hreserved : ~ In (name spec) reserved_cols)
  (Hseries : extract_annual_series df spec
               (last_n_years (or_default cfg default_financials_config))
             = Ok s) :
  (forall row y, In row s -> s_fy row = Some y ->
     In y (t_fy t) /\ cell_at t (name spec) y = s_value row)
  /\ (forall y, (forall row, In row s -> s_fy row <> Some y) ->
        cell_at t (name spec) y = FNaN).
Proof.
  set (configured := or_default specs default_mvp_specs) in *.
  set (n := last_n_years (or_default cfg default_financials_config)) in *.
  destruct (build_structure df specs cfg t Hbuild)
    as [Hreq [all [cmap [Hloop Hcases]]]].
  destruct (series_loop_outcome df n Hreq configured [] [])
    as [results [HF Hrun]].
  fold configured n in Hloop. rewrite Hrun in Hloop.
  inversion Hloop as [[Hall Hcmap]]. clear Hloop Hrun Hcmap.
  destruct (extract_annual_series_props df spec n Hreq)
    as [s' [Hs' [_ [Hsorted [concept [_ Hprops]]]]]].
  assert (s' = s) by congruence. subst s'. rewrite Forall_forall in Hprops.
  assert (Hin_results : In s results).
  { destruct (Forall2_In_l _ _ _ spec HF Hspec) as [s0 Hs0].
    destruct (Forall2_combine_In _ _ _ _ _ HF Hs0) as [_ [Hr He]].
    assert (s0 = s) by congruence. subst. exact Hr. }
  assert (Hnamed : forall r, In r (List.concat all) ->
                             s_name r = name spec -> In r s).
  { intros r Hr Hn. apply in_concat in Hr. destruct Hr as [s0 [Hs0 Hr]].
    rewrite <- Hall in Hs0. apply filter_In in Hs0. destruct Hs0 as [Hs0 _].
    apply In_nth_error in Hs0. destruct Hs0 as [i Hi].
    assert (Hpair : exists spec0, In (spec0, s0) (combine configured results)).
    { clear - HF Hi. revert i Hi.
      induction HF as [ | x y l m Hxy HF IH]; intros i Hi;
        [ destruct i; discriminate | ].
      destruct i as [ | i]; simpl in Hi.
      - inversion Hi. subst. exists x. left. reflexivity.
      - destruct (IH i Hi) as [spec0 H]. exists spec0. right. exact H. }
    destruct Hpair as [spec0 Hpair].
    destruct (Forall2_combine_In _ _ _ _ _ HF Hpair) as [Hspec0 [_ He]].
    destruct (extract_annual_series_returns df spec0 n Hreq) as [s1 [Hs1 Hnm]].
    assert (s1 = s0) by congruence. subst s1. rewrite Forall_forall in Hnm.
    assert (spec0 = spec).
    { apply (NoDup_map_inj name configured); try assumption.
      rewrite <- (Hnm r Hr). exact Hn. }
    subst spec0. congruence. }
  destruct Hcases as [[Hnil ->] | [index [cols [_ [Hpivot ->]]]]].
  { assert (Hs_nil : s = []).
    { destruct s as [ | row s]; [ reflexivity | ].
      assert (Hin : In (row :: s) (filter nonempty results))
        by (apply filter_In; auto).
      rewrite Hall, Hnil in Hin. destruct Hin. }
    subst s. split; [ intros row y [] | reflexivity ]. }
  set (long := filter (fun r => notna (s_fy r)) (List.concat all)) in *.
  destruct (well_formed_pivot _ _ _ Hpivot) as [_ Hsorted_index].
  pose proof (increasing_NoDup _ Hsorted_index) as Hnd.
  assert (Hcol : dict_get
                   (with_derived (List.length index)
                      (merge_fy_end long index cols)) (name spec)
                 = dict_get cols (name spec)).
  { rewrite with_derived_other.
    - apply merge_fy_end_other; intros E; apply Hreserved; rewrite E;
        unfold reserved_cols; simpl; tauto.
    - intros Hk. apply Hreserved. unfold reserved_cols. apply in_or_app.
      left. exact Hk. }
  unfold pivot in Hpivot. destruct (str_in "fy" _); [ discriminate | ].
  injection Hpivot as Hindex Hcols.
  assert (Hgroup : forall y r, In r long -> in_group y (name spec) r = true ->
                               In r s /\ s_fy r = Some y).
  { intros y r Hr Hg. unfold in_group in Hg.
    apply andb_true_iff in Hg. destruct Hg as [Hg _].
    apply andb_true_iff in Hg. destruct Hg as [Hfy Hn].
    apply String.eqb_eq in Hn.
    apply (opt_eqb_spec Z.eqb Z.eqb_eq) in Hfy.
    unfold long in Hr. apply filter_In in Hr. split; [ | exact Hfy ].
    apply Hnamed; tauto. }
  unfold cell_at, num_col. cbn [t_fy t_columns]. rewrite Hcol.
  rewrite <- Hcols, dict_get_tabulate. split.
  - intros row y Hrow Hy.
    destruct (Hprops row Hrow) as [_ [Hname [_ [_ Hvalue]]]].
    assert (Hlong : In row long).
    { unfold long. apply filter_In. rewrite Hy. split; [ | reflexivity ].
      apply in_concat. exists s. split; [ | exact Hrow ].
      rewrite <- Hall. apply filter_In. split; [ exact Hin_results | ].
      destruct s; [ destruct Hrow | reflexivity ]. }
    assert (Hkept : In row (filter (fun r => negb (isna (s_value r))) long))
      by (apply filter_In; rewrite Hvalue; auto).
    assert (Hy_index : In y index).
    { rewrite <- Hindex. unfold sorted_unique_Z. apply sort_by_In.
      apply nodup_In. apply present_In. rewrite <- Hy.
      apply in_map. exact Hkept. }
    split; [ exact Hy_index | ].
    destruct (position_In index y Hnd Hy_index) as [i [-> Hi]].
    replace (str_in (name spec) _) with true.
    2:{ symmetry. apply str_in_In. unfold sorted_unique_str.
        apply sort_by_In. apply nodup_In. rewrite <- Hname.
        apply in_map. exact Hkept. }
    rewrite Hindex.
    erewrite nth_indep
      by (rewrite length_map; apply nth_error_Some; congruence).
    rewrite (map_nth (fun fy => last_value long fy (name spec)) index 0 i).
    rewrite (nth_error_nth _ _ 0 Hi).
    unfold last_value. rewrite (fold_last_value long y (name spec)
                                  (s_value row)).
    + replace (existsb (in_group y (name spec)) long) with true;
        [ reflexivity | ].
      symmetry. apply existsb_exists. exists row. split; [ exact Hlong | ].
      unfold in_group. rewrite Hy, Hname, Hvalue. cbn [opt_eqb].
      rewrite Z.eqb_refl, String.eqb_refl. reflexivity.
    + intros r Hr Hg. destruct (Hgroup y r Hr Hg) as [Hrs Hry].
      f_equal. apply (increasing_fy_In s); try assumption. congruence.
  - intros y Hnone.
    destruct (position y index) as [i|] eqn:Hpos; [ | reflexivity ].
    destruct (str_in (name spec) _); [ | destruct i; reflexivity ].
    rewrite Hindex.
    destruct (Nat.lt_ge_cases i (List.length index)) as [Hlt | Hge].
    + erewrite nth_indep by (rewrite length_map; exact Hlt).
      rewrite (map_nth (fun fy => last_value long fy (name spec)) index 0 i).
      assert (Hi : nth i index 0 = y).
      { clear - Hpos. revert i Hpos.
        induction index as [ | x l IH]; intros i Hpos; [ discriminate | ].
        simpl in Hpos. destruct (x =? y) eqn:E.
        - inversion Hpos. apply Z.eqb_eq in E. exact E.
        - destruct (position y l) as [j|] eqn:Hj; [ | discriminate ].
          inversion Hpos. simpl. apply IH. reflexivity. }
      rewrite Hi. unfold last_value.
      rewrite (fold_last_value long y (name spec) FNaN).
      * destruct (existsb (in_group y (name spec)) long); reflexivity.
      * intros r Hr Hg. destruct (Hgroup y r Hr Hg) as [Hrs Hry].
        exfalso. apply (Hnone r Hrs). exact Hry.
    + apply nth_overflow. rewrite length_map. exact Hge.
Qed.

(** ** The table for display *)

Lemma scale_fold (cs : list string) :
  NoDup cs ->
  forall cols : list (string * column),
  (forall k l, In k cs -> dict_get cols k <> Some (DateCol l)) ->
  exists cols',
    fold_left scale_column cs (Some cols) = Some cols'
    /\ forall k,
         dict_get cols' k
         = if str_in k cs
           then match dict_get cols k with
                | Some (NumCol l) =>
                    Some (NumCol (map (fun x => fdiv x billion) l))
                | other => other
                end
           else dict_get cols k.
Proof.
  induction 1 as [ | c cs Hc Hnd IH]; intros cols Hnum.
  - exists cols. split; reflexivity.
  - cbn [fold_left].
    assert (Hstep : exists cols1,
      scale_column (Some cols) c = Some cols1
      /\ dict_get cols1 c
         = match dict_get cols c with
           | Some (NumCol l) => Some (NumCol (map (fun x => fdiv x billion) l))
           | other => other
           end
      /\ forall k, c <> k -> dict_get cols1 k = dict_get cols k).
    { unfold scale_column.
      destruct (dict_get cols c) as [[l | l] | ] eqn:E.
      - eexists. split; [ reflexivity | ]. unfold set_column. split.
        + apply dict_get_set_same.
        + intros k Hk. apply dict_get_set_other. exact Hk.
      - exfalso. apply (Hnum c l); [ left; reflexivity | exact E ].
      - exists cols. rewrite E. auto. }
    destruct Hstep as [cols1 [-> [Hsame Hother]]].
    destruct (IH cols1) as [cols' [Hfold Hget]].
    { intros k l Hk. rewrite Hother.
      - apply Hnum. right. exact Hk.
      - intros ->. contradiction. }
    exists cols'. split; [ exact Hfold | ]. intros k. rewrite Hget.
    unfold str_in. cbn [existsb]. fold (str_in k cs).
    destruct (String.eqb k c) eqn:E.
    + apply String.eqb_eq in E. subst k.
      replace (str_in c cs) with false; [ exact Hsame | ].
      symmetry. apply not_true_is_false. rewrite str_in_In. exact Hc.
    + rewrite Hother; [ reflexivity | ].
      intros ->. rewrite String.eqb_refl in E. discriminate.
Qed.

(** X14. Preparing a table of the builder for display never fails: the
    fiscal years stay, each cell of the amount columns (revenue, gross
    profit, operating income, net income, cash flow from operations,
    capital expenditure, free cash flow, cash, equity) is divided by 1e9,
    a missing cell staying missing, and every other column (the margins,
    the growth, the fiscal year ends) is left as it is. *)
Theorem display_scales_amounts (df : DataFrame)
  (specs : option (list ConceptSpec)) (cfg : option FinancialsConfig)
  (t : AnnualTable)
  (Hbuild : build_annual_financials_table df specs cfg = Ok t) :
  exists d,
    format_financials_for_display t = Some d
    /\ t_fy d = t_fy t
    /\ (forall c y, In c scale_cols ->
          cell_at d c y = fdiv (cell_at t c y) billion)
    /\ (forall c, ~ In c scale_cols ->
          dict_get (t_columns d) c = dict_get (t_columns t) c).
Proof.
  assert (Hwf : well_formed_columns (List.length (t_fy t)) (t_columns t)).
  { destruct (build_structure df specs cfg t Hbuild)
      as [_ [all [cmap [_ [[_ ->] | [index [cols [_ [Hpivot ->]]]]]]]]].
    - intros k v [].
    - destruct (well_formed_pivot _ _ _ Hpivot) as [Hwf _].
      apply well_formed_with_derived. exact Hwf. }
  unfold format_financials_for_display.
  destruct (table_empty t) eqn:Hempty.
  { exists t. split; [ reflexivity | ]. split; [ reflexivity | ].
    split; [ | reflexivity ]. intros c y _. unfold cell_at.
    unfold table_empty in Hempty. destruct (t_fy t); [ | discriminate ].
    reflexivity. }
  destruct (scale_fold scale_cols) with (cols := t_columns t)
    as [cols' [-> Hget]].
  { unfold scale_cols. repeat constructor; simpl; intuition discriminate. }
  { intros k l Hk E. apply dict_get_In in E.
    destruct (Hwf _ _ E) as [_ [Hn | [-> | ->]]]; [ discriminate | | ];
      simpl in Hk; intuition discriminate. }
  eexists. split; [ reflexivity | ]. cbn [t_fy t_columns].
  split; [ reflexivity | ]. split.
  - intros c y Hc. unfold cell_at, num_col. cbn [t_fy t_columns].
    rewrite Hget. apply str_in_In in Hc. rewrite Hc.
    destruct (position y (t_fy t)) as [i|]; [ | reflexivity ].
    destruct (dict_get (t_columns t) c) as [[l | l] | ].
    + apply (map_nth (fun x => fdiv x billion) l FNaN i).
    + destruct i; reflexivity.
    + destruct i; reflexivity.
  - intros c Hc. rewrite Hget.
    replace (str_in c scale_cols) with false; [ reflexivity | ].
    symmetry. apply not_true_is_false. rewrite str_in_In. exact Hc.
Qed.

(** ** The client of the SEC endpoints *)

Lemma rstrip_cons (c : ascii) (r : string) :
  is_space c = false -> rstrip (String c r) = String c (rstrip r).
Proof.
  intros Hc. cbn [rstrip]. rewrite Hc. destruct (rstrip r); reflexivity.
Qed.

Lemma rstrip_idempotent (s : string) : rstrip (rstrip s) = rstrip s.
Proof.
  induction s as [ | c r IH]; [ reflexivity | ].
  cbn [rstrip]. destruct (rstrip r) as [ | c' r'] eqn:E.
  - destruct (is_space c) eqn:Hc; [ reflexivity | ].
    cbn [rstrip]. rewrite Hc. reflexivity.
  - cbn [rstrip]. cbn [rstrip] in IH. 
    destruct (rstrip r') as [ | c'' r''] eqn:E'.
    + destruct (is_space c') eqn:Hc'; [ discriminate | ].
      rewrite IH. reflexivity.
    + rewrite IH. reflexivity.
Qed.

Lemma lstrip_head (s : string) :
  match lstrip s with
  | EmptyString => True
  | String c _ => is_space c = false
  end.
Proof.
  induction s as [ | c r IH]; simpl; [ exact I | ].
  destruct (is_space c) eqn:Hc; [ exact IH | exact Hc ].
Qed.

Lemma stripped_strip (s : string) : stripped (strip s).
Proof.
  unfold strip. pose proof (lstrip_head s) as Hh.
  destruct (lstrip s) as [ | c r]; [ exact I | ].
  rewrite (rstrip_cons c r Hh). split; [ exact Hh | apply rstrip_idempotent ].
Qed.

Lemma strip_stripped (s : string) : stripped s -> strip s = s.
Proof.
  destruct s as [ | c r]; [ reflexivity | ]. intros [Hc Hr].
  unfold strip. cbn [lstrip]. rewrite Hc, (rstrip_cons c r Hc), Hr.
  reflexivity.
Qed.

Lemma rstrip_zeros (k : nat) (s : string) :
  rstrip s = s -> rstrip (zeros k ++ s)%string = (zeros k ++ s)%string.
Proof.
  intros Hs. induction k as [ | k IH]; [ exact Hs | ].
  cbn [zeros String.append]. rewrite rstrip_cons by reflexivity.
  rewrite IH. reflexivity.
Qed.

Lemma length_zeros (k : nat) : String.length (zeros k) = k.
Proof. induction k; simpl; congruence. Qed.

Lemma length_append (a b : string) :
  String.length (a ++ b)%string = (String.length a + String.length b)%nat.
Proof. induction a; simpl; congruence. Qed.

Lemma zfill_length (width : nat) (s : string) :
  String.length (zfill width s) = Nat.max width (String.length s).
Proof.
  unfold zfill. destruct (Nat.leb_spec width (String.length s)) as [H | H].
  - lia.
  - destruct s as [ | c r].
    + rewrite length_zeros. simpl in *. lia.
    + destruct (is_sign c); cbn [String.length] in *;
        rewrite length_append, length_zeros; cbn [String.length]; lia.
Qed.

Lemma stripped_zfill (width : nat) (s : string) :
  stripped s -> stripped (zfill width s).
Proof.
  intros Hs. unfold zfill.
  destruct (Nat.leb_spec width (String.length s)) as [Hle | Hlt];
    [ exact Hs | ].
  destruct (width - String.length s)%nat as [ | fill] eqn:Hfill; [ lia | ].
  assert (Hz : forall t, rstrip t = t -> stripped (zeros (S fill) ++ t)%string).
  { intros t Ht. cbn [zeros String.append stripped].
    split; [ reflexivity | ]. apply rstrip_zeros. exact Ht. }
  destruct s as [ | c r].
  - specialize (Hz EmptyString eq_refl).
    replace (zeros (S fill)) with (zeros (S fill) ++ "")%string;
      [ exact Hz | ].
    clear. induction (S fill); simpl; congruence.
  - destruct Hs as [Hc Hr]. destruct (is_sign c).
    + split; [ exact Hc | apply rstrip_zeros; exact Hr ].
    + apply Hz. rewrite rstrip_cons, Hr by exact Hc. reflexivity.
Qed.

Lemma cik_pad10_fixed (cik : cik_arg) :
  cik_pad10 (CikStr (cik_pad10 cik)) = cik_pad10 cik.
Proof.
  unfold cik_pad10. cbv zeta. cbn [str].
  rewrite strip_stripped by (apply stripped_zfill, stripped_strip).
  set (r := zfill 10 (strip (str cik))).
  assert (Hlen : (10 <= String.length r)%nat)
    by (unfold r; rewrite zfill_length; lia).
  unfold zfill at 1. apply Nat.leb_le in Hlen. rewrite Hlen. reflexivity.
Qed.

(** X15. [cik_pad10] gives a string of at least ten characters, as long as
    the stripped argument when that is longer, without white space at
    either end, and padding a padded identifier changes nothing. *)
Theorem cik_pad10_idempotent (cik : cik_arg) :
  String.length (cik_pad10 cik)
  = Nat.max 10 (String.length (strip (str cik)))
  /\ strip (cik_pad10 cik) = cik_pad10 cik
  /\ cik_pad10 (CikStr (cik_pad10 cik)) = cik_pad10 cik.
Proof.
  split; [ apply zfill_length | ]. split; [ | apply cik_pad10_fixed ].
  apply strip_stripped. apply stripped_zfill, stripped_strip.
Qed.

Lemma digits_stripped (d : Decimal.uint) :
  rstrip (NilEmpty.string_of_uint d) = NilEmpty.string_of_uint d.
Proof.
  induction d; cbn [NilEmpty.string_of_uint]; [ reflexivity | .. ];
    rewrite rstrip_cons by reflexivity; rewrite IHd; reflexivity.
Qed.

Lemma parse_zeros (k : nat) (s : string) :
  NilEmpty.uint_of_string (zeros k ++ s)%string
  = option_map (Nat.iter k Decimal.D0) (NilEmpty.uint_of_string s).
Proof.
  induction k as [ | k IH]; cbn [zeros String.append Nat.iter].
  - destruct (NilEmpty.uint_of_string s); reflexivity.
  - cbn [NilEmpty.uint_of_string]. rewrite IH.
    destruct (NilEmpty.uint_of_string s); reflexivity.
Qed.

Lemma of_uint_zeros (k : nat) (d : Decimal.uint) :
  Z.of_uint (Nat.iter k Decimal.D0 d) = Z.of_uint d.
Proof. induction k as [ | k IH]; [ reflexivity | exact IH ]. Qed.

(** X16. The padded identifier of an integer reads back, as a decimal
    numeral, as that integer. *)
Theorem cik_pad10_of_int (n : Z) :
  option_map Z.of_int (NilZero.int_of_string (cik_pad10 (CikInt n)))
  = Some n.
Proof.
  unfold cik_pad10. cbv zeta. cbn [str].
  assert (Hd : exists d neg,
    d <> Decimal.Nil
    /\ Z.to_int n = (if neg : bool then Decimal.Neg d else Decimal.Pos d)).
  { destruct n as [ | p | p].
    - exists (Decimal.D0 Decimal.Nil), false. split; [ discriminate | reflexivity ].
    - exists (Pos.to_uint p), false.
      split; [ apply Unsigned.to_uint_nonnil | reflexivity ].
    - exists (Pos.to_uint p), true.
      split; [ apply Unsigned.to_uint_nonnil | reflexivity ]. }
  destruct Hd as [d [neg [Hnil Hto]]].
  rewrite <- (DecimalZ.of_to n) at 2. rewrite Hto.
  assert (Hs : NilZero.string_of_uint d = NilEmpty.string_of_uint d)
    by (destruct d; [ contradiction | reflexivity .. ]).
  assert (Hhead : exists c r, NilEmpty.string_of_uint d = String c r
                              /\ is_space c = false /\ is_sign c = false
                              /\ Ascii.eqb c "-" = false).
  { destruct d; [ contradiction | .. ]; eexists; eexists;
      (split; [ reflexivity | repeat split ]). }
  destruct Hhead as [c [r [Hcr [Hsp [Hsg Hminus]]]]].
  pose proof (digits_stripped d) as Hrs.
  destruct neg; cbn [NilZero.string_of_int]; rewrite Hs.
  - rewrite strip_stripped by (split; [ reflexivity | exact Hrs ]).
    unfold zfill.
    destruct (Nat.leb_spec 10 (String.length (String "-" (NilEmpty.string_of_uint d))))
      as [Hle | Hlt].
    + cbn [NilZero.int_of_string]. rewrite Ascii.eqb_refl.
      unfold NilZero.uint_of_string. rewrite Hcr, <- Hcr.
      rewrite NilEmpty.usu. reflexivity.
    + destruct (10 - _)%nat as [ | fill] eqn:Hfill; [ lia | ].
      cbn [is_sign orb Ascii.eqb]. 
      replace (is_sign "-") with true by reflexivity.
      cbn [NilZero.int_of_string]. rewrite Ascii.eqb_refl.
      unfold NilZero.uint_of_string. cbn [zeros String.append].
      change (String "0" (zeros fill ++ NilEmpty.string_of_uint d)%string)
        with (zeros (S fill) ++ NilEmpty.string_of_uint d)%string.
      rewrite parse_zeros, NilEmpty.usu. cbn [option_map Z.of_int].
      rewrite of_uint_zeros. reflexivity.
  - rewrite strip_stripped
      by (rewrite Hcr; split; [ exact Hsp | ];
          rewrite Hcr in Hrs; rewrite rstrip_cons in Hrs by exact Hsp;
          congruence).
    unfold zfill.
    destruct (Nat.leb_spec 10 (String.length (NilEmpty.string_of_uint d)))
      as [Hle | Hlt].
    + unfold NilZero.int_of_string. rewrite Hcr, Hminus, <- Hcr.
      unfold NilZero.uint_of_string. rewrite Hcr, <- Hcr.
      rewrite NilEmpty.usu. reflexivity.
    + destruct (10 - _)%nat as [ | fill] eqn:Hfill; [ lia | ].
      rewrite Hcr, Hsg, <- Hcr.
      cbn [zeros String.append NilZero.int_of_string].
      replace (Ascii.eqb "0" "-") with false by reflexivity.
      unfold NilZero.uint_of_string.
      change (String "0" (zeros fill ++ NilEmpty.string_of_uint d)%string)
        with (zeros (S fill) ++ NilEmpty.string_of_uint d)%string.
      rewrite parse_zeros, NilEmpty.usu. cbn [option_map Z.of_int].
      rewrite of_uint_zeros. reflexivity.
Qed.

Lemma retry_loop_effects {json : Type} (dumps : json -> string)
  (server : nat -> string -> response json)
  (attempts : nat) (full_url cache_file : string) :
  forall (last_err : option request_error) (w w' : world)
         (r : client_result json),
  retry_loop dumps server attempts full_url cache_file last_err w = (w', r) ->
  exists k,
    (k <= attempts)%nat
    /\ requests w' = requests w ++ repeat full_url k
    /\ match r with
       | Got data =>
           (0 < k)%nat
           /\ cache w' = dict_set (cache w) cache_file (dumps data)
           /\ exists status,
                server (List.length (requests w) + k - 1)%nat full_url
                = Answer status (Some data)
                /\ status <> 429 /\ status <> 403
                /\ (status < 400 \/ 600 <= status)
       | Raised e =>
           k = attempts /\ cache w' = cache w
           /\ exists cause, e = RequestFailed full_url cause
       end.
Proof.
  induction attempts as [ | n IH]; intros last_err w w' r Hrun.
  - simpl in Hrun. inversion Hrun. subst. exists 0%nat.
    split; [ lia | ]. split; [ simpl; rewrite app_nil_r; reflexivity | ].
    split; [ reflexivity | ]. split; [ reflexivity | ]. eauto.
  - cbn [retry_loop] in Hrun.
    set (w1 := mkWorld (cache w) (requests w ++ [full_url])) in *.
    assert (Hnext : forall e,
      retry_loop dumps server n full_url cache_file e w1 = (w', r) ->
      exists k,
        (k <= S n)%nat
        /\ requests w' = requests w ++ repeat full_url k
        /\ match r with
           | Got data =>
               (0 < k)%nat
               /\ cache w' = dict_set (cache w) cache_file (dumps data)
               /\ exists status,
                    server (List.length (requests w) + k - 1)%nat full_url
                    = Answer status (Some data)
                    /\ status <> 429 /\ status <> 403
                    /\ (status < 400 \/ 600 <= status)
           | Raised e =>
               k = S n /\ cache w' = cache w
               /\ exists cause, e = RequestFailed full_url cause
           end).
    { intros e He. destruct (IH e w1 w' r He) as [k [Hk [Hreq Hr]]].
      exists (S k). split; [ lia | ]. split.
      - rewrite Hreq. unfold w1. cbn [requests repeat].
        rewrite <- app_assoc. reflexivity.
      - destruct r as [data | e'].
        + destruct Hr as [Hpos [Hcache [status Hst]]].
          split; [ lia | ]. split; [ exact Hcache | ]. exists status.
          unfold w1 in Hst. cbn [requests] in Hst.
          rewrite length_app in Hst. cbn [List.length] in Hst.
          replace (List.length (requests w) + S k - 1)%nat
            with (List.length (requests w) + 1 + k - 1)%nat by lia.
          exact Hst.
        + destruct Hr as [-> [Hcache Hcause]]. auto. }
    destruct (server (List.length (requests w)) full_url)
      as [status body | ] eqn:Hserver; [ | eapply Hnext; eassumption ].
    destruct (status =? 429) eqn:H429; [ eapply Hnext; eassumption | ].
    destruct (status =? 403) eqn:H403; [ eapply Hnext; eassumption | ].
    destruct ((400 <=? status) && (status <? 600)) eqn:Hraise;
      [ eapply Hnext; eassumption | ].
    destruct body as [data | ]; [ | eapply Hnext; eassumption ].
    inversion Hrun. subst. exists 1%nat. split; [ lia | ].
    split; [ reflexivity | ]. split; [ lia | ]. split; [ reflexivity | ].
    exists status. replace (List.length (requests w) + 1 - 1)%nat
      with (List.length (requests w)) by lia.
    split; [ exact Hserver | ]. apply Z.eqb_neq in H429, H403.
    split; [ exact H429 | ]. split; [ exact H403 | ].
    apply andb_false_iff in Hraise. destruct Hraise as [H | H]; lia.
Qed.

(** X17. What a call of [get_json] does: it asks the server for the full
    URL at most [max_retries] times and for nothing else; data comes from
    the cache file, which then stays, or from the last answer, whose status
    is neither 429 nor 403 nor an error status, and is then written to the
    cache file; a failure leaves the cache as it was, and a failure of the
    requests comes after exactly [max_retries] of them. *)
Theorem get_json_effects {json : Type} (dumps : json -> string)
  (loads : string -> option json) (sha256_hexdigest : string -> string)
  (server : nat -> string -> response json)
  (cfg : SecClientConfig) (url : string)
  (cache_key : option string) (use_cache : bool) (w : world) :
  let full_url := full_url_of cfg url in
  let cache_file := cache_file_of sha256_hexdigest cfg url cache_key in
  let out := get_json dumps loads sha256_hexdigest server cfg url cache_key
               use_cache w in
  exists k,
    (k <= Z.to_nat (max_retries cfg))%nat
    /\ requests (fst out) = requests w ++ repeat full_url k
    /\ match snd out with
       | Got data =>
           k = 0%nat /\ cache (fst out) = cache w /\ use_cache = true
           /\ (exists text, dict_get (cache w) cache_file = Some text
                            /\ loads text = Some data)
           \/ (0 < k)%nat
              /\ cache (fst out) = dict_set (cache w) cache_file (dumps data)
              /\ exists status,
                   server (List.length (requests w) + k - 1)%nat full_url
                   = Answer status (Some data)
                   /\ status <> 429 /\ status <> 403
                   /\ (status < 400 \/ 600 <= status)
       | Raised JSONDecodeError =>
           k = 0%nat /\ cache (fst out) = cache w /\ use_cache = true
           /\ exists text, dict_get (cache w) cache_file = Some text
                           /\ loads text = None
       | Raised (RequestFailed u _) =>
           u = full_url /\ k = Z.to_nat (max_retries cfg)
           /\ cache (fst out) = cache w
       end.
Proof.
  intros full_url cache_file out.
  destruct out as [w' r] eqn:Hrun. subst out. cbn [fst snd].
  unfold get_json in Hrun. fold full_url cache_file in Hrun.
  destruct (if use_cache then dict_get (cache w) cache_file else None)
    as [text | ] eqn:Hcached.
  - destruct use_cache; [ | discriminate ].
    exists 0%nat. split; [ lia | ].
    destruct (loads text) as [data | ] eqn:Hloads; inversion Hrun; subst;
      (split; [ simpl; rewrite app_nil_r; reflexivity | ]).
    + left. repeat split. exists text. auto.
    + repeat split. exists text. auto.
  - destruct (retry_loop_effects _ _ _ _ _ _ _ _ _ Hrun) as [k [Hk [Hreq Hr]]].
    exists k. split; [ exact Hk | ]. split; [ exact Hreq | ].
    destruct r as [data | e]; [ right; exact Hr | ].
    destruct Hr as [-> [Hcache [cause ->]]]. auto.
Qed.

(** X18. When [json.loads] reads back what [json.dumps] writes, data that
    [get_json] has returned is returned again, from the cache and without
    a request, by the next call for the same URL and key. *)
Theorem get_json_cached_again {json : Type} (dumps : json -> string)
  (loads : string -> option json) (sha256_hexdigest : string -> string)
  (server : nat -> string -> response json)
  (cfg : SecClientConfig) (url : string)
  (cache_key : option string) (use_cache : bool) (w w' : world) (data : json)
  (Hround : forall d, loads (dumps d) = Some d)
  (Hrun : get_json dumps loads sha256_hexdigest server cfg url cache_key
            use_cache w = (w', Got data)) :
  get_json dumps loads sha256_hexdigest server cfg url cache_key true w'
  = (w', Got data).
Proof.
  unfold get_json in *.
  set (full_url := full_url_of cfg url) in *.
  set (cache_file := cache_file_of sha256_hexdigest cfg url cache_key) in *.
  destruct (if use_cache then dict_get (cache w) cache_file else None)
    as [text | ] eqn:Hcached.
  - destruct use_cache; [ | discriminate ].
    destruct (loads text) eqn:Hloads; inversion Hrun; subst.
    rewrite Hcached, Hloads. reflexivity.
  - destruct (retry_loop_effects _ _ _ _ _ _ _ _ _ Hrun)
      as [k [_ [_ [_ [Hcache _]]]]].
    rewrite Hcache, dict_get_set_same, Hround. reflexivity.
Qed.

Lemma retry_loop_refused {json : Type} (dumps : json -> string)
  (server : nat -> string -> response json)
  (attempts : nat) (full_url cache_file : string) :
  forall (last_err : option request_error) (w : world),
  (forall i, (i < attempts)%nat ->
     exists body,
       server (List.length (requests w) + i)%nat full_url = Answer 403 body) ->
  retry_loop dumps server attempts full_url cache_file last_err w
  = (mkWorld (cache w) (requests w ++ repeat full_url attempts),
     Raised (RequestFailed full_url
               (match attempts with O => last_err | S _ => Some Forbidden end))).
Proof.
  induction attempts as [ | n IH]; intros last_err w Hserver.
  - simpl. rewrite app_nil_r. destruct w; reflexivity.
  - cbn [retry_loop]. destruct (Hserver 0%nat ltac:(lia)) as [body Hb].
    rewrite Nat.add_0_r in Hb. rewrite Hb.
    replace (403 =? 429) with false by reflexivity.
    replace (403 =? 403) with true by reflexivity.
    rewrite IH.
    + cbn [cache requests repeat]. rewrite <- app_assoc.
      destruct n; reflexivity.
    + intros i Hi. cbn [requests]. rewrite length_app. cbn [List.length].
      destruct (Hserver (S i) ltac:(lia)) as [body' Hb'].
      exists body'. rewrite <- Hb'. f_equal. lia.
Qed.

(** X19. A status 403 does not end the retries: when the server answers
    403 to every request, [get_json] without the cache asks [max_retries]
    times and raises the error of the exhausted retries, the 403 error
    being its cause only. *)
Theorem get_json_retries_forbidden {json : Type} (dumps : json -> string)
  (loads : string -> option json) (sha256_hexdigest : string -> string)
  (server : nat -> string -> response json)
  (cfg : SecClientConfig) (url : string)
  (cache_key : option string) (w : world)
  (Hretries : 0 < max_retries cfg)
  (Hserver : forall i, (i < Z.to_nat (max_retries cfg))%nat ->
     exists body,
       server (List.length (requests w) + i)%nat (full_url_of cfg url)
       = Answer 403 body) :
  get_json dumps loads sha256_hexdigest server cfg url cache_key false w
  = (mkWorld (cache w)
       (requests w
        ++ repeat (full_url_of cfg url) (Z.to_nat (max_retries cfg))),
     Raised (RequestFailed (full_url_of cfg url) (Some Forbidden))).
Proof.
  unfold get_json. cbv zeta. rewrite retry_loop_refused by exact Hserver.
  destruct (Z.to_nat (max_retries cfg)) eqn:E; [ lia | reflexivity ].
Qed.

(** X20. [get_submissions] and [get_companyfacts] pad the identifier they
    are given, so an identifier that is padded already, as [ticker_to_cik]
    returns it, leads to the same call. *)
Theorem client_calls_pad_cik {json : Type} (dumps : json -> string)
  (loads : string -> option json) (sha256_hexdigest : string -> string)
  (server : nat -> string -> response json)
  (cfg : SecClientConfig) (cik : cik_arg) (use_cache : bool) (w : world) :
  get_submissions dumps loads sha256_hexdigest server cfg
    (CikStr (cik_pad10 cik)) use_cache w
  = get_submissions dumps loads sha256_hexdigest server cfg cik use_cache w
  /\ get_companyfacts dumps loads sha256_hexdigest server cfg
       (CikStr (cik_pad10 cik)) use_cache w
     = get_companyfacts dumps loads sha256_hexdigest server cfg cik
         use_cache w.
Proof.
  unfold get_submissions, get_companyfacts. cbv zeta.
  rewrite cik_pad10_fixed. split; reflexivity.
Qed.

(** ** The further properties at sample inputs *)

Lemma normalize_row_invariants_witness :
  In sample_row
    (rows (normalize_companyfacts_to_df sample_store annual_forms_config))
  /\ f_taxonomy sample_row = "us-gaap"
  /\ f_has_dimensions sample_row = false
  /\ In (f_form sample_row) ["10-K"].
Proof.
  assert (Hrow : In sample_row
            (rows (normalize_companyfacts_to_df sample_store
                     annual_forms_config)))
    by (left; reflexivity).
  split; [ exact Hrow | ].
  destruct (normalize_row_invariants sample_store annual_forms_config
              sample_row Hrow) as [_ [Htax [_ [Hdim Hform]]]].
  split; [ exact Htax | ]. split; [ exact (Hdim eq_refl) | ].
  exact (Hform ["10-K"] eq_refl).
Defined.

Lemma has_columns_all (cs : list string) :
  forallb (fun c => has_col c two_durations_2022) cs = true ->
  has_columns cs two_durations_2022.
Proof.
  intros H c Hc. rewrite forallb_forall in H. exact (H c Hc).
Defined.

Lemma dedupe_keeps_latest_filed_witness :
  has_columns dedupe_columns two_durations_2022
  /\ exists out,
       dedupe_keep_latest_filed two_durations_2022 = Ok out
       /\ NoDup (map dedupe_key (rows out))
       /\ forall r, In r (rows out) -> In r (rows two_durations_2022).
Proof.
  assert (Hcols : has_columns dedupe_columns two_durations_2022)
    by (apply has_columns_all; reflexivity).
  split; [ exact Hcols | ].
  destruct (dedupe_keeps_latest_filed two_durations_2022 Hcols)
    as [out [Hrun [_ [Hnd [Hin _]]]]].
  exists out. auto.
Defined.

Lemma extract_concept_series_sorted_witness :
  has_columns ["concept"; "unit"; "end"; "filed"] two_durations_2022
  /\ exists out,
       extract_concept_series two_durations_2022 "Revenues" "USD" = Ok out
       /\ Permutation (rows out)
            (filter (fun r => String.eqb (f_concept r) "Revenues"
                              && String.eqb (f_unit r) "USD")
               (rows two_durations_2022)).
Proof.
  assert (Hcols : has_columns ["concept"; "unit"; "end"; "filed"]
                    two_durations_2022)
    by (apply has_columns_all; reflexivity).
  split; [ exact Hcols | ].
  destruct (extract_concept_series_sorted two_durations_2022 "Revenues" "USD"
              Hcols) as [out [Hrun [Hperm _]]].
  exists out. auto.
Defined.

Lemma annualize_spans_one_year_witness :
  has_col "end" two_durations_2022 = true
  /\ exists out,
       _annualize_duration_series two_durations_2022 = Ok out
       /\ ((forall r, In r (rows out) -> f_start r = None)
           \/ (forall r, In r (rows out) ->
                 exists n, span_days r = Some n /\ 330 <= n <= 400)).
Proof.
  split; [ reflexivity | ].
  destruct (annualize_spans_one_year two_durations_2022 eq_refl)
    as [out [Hrun [_ Hspan]]].
  exists out. auto.
Defined.

Lemma select_best_row_per_fy_idempotent_witness :
  has_col "end" two_durations_2022 = true
  /\ has_col "value" two_durations_2022 = true
  /\ bind (_select_best_row_per_fy two_durations_2022)
       _select_best_row_per_fy
     = _select_best_row_per_fy two_durations_2022.
Proof.
  split; [ reflexivity | ]. split; [ reflexivity | ].
  exact (select_best_row_per_fy_idempotent two_durations_2022 eq_refl
           eq_refl).
Defined.

Lemma has_required_sample : has_required revenue_missing_2022_frame.
Proof.
  intros c Hc.
  assert (H : forallb (fun c => has_col c revenue_missing_2022_frame)
                required_cols = true) by reflexivity.
  rewrite forallb_forall in H. exact (H c Hc).
Defined.

Lemma extract_annual_series_invariants_witness :
  has_required revenue_missing_2022_frame
  /\ exists s,
       extract_annual_series revenue_missing_2022_frame net_income_spec 5
       = Ok s
       /\ (List.length s <= 5)%nat
       /\ forall row, In row s -> s_name row = "net_income".
Proof.
  split; [ exact has_required_sample | ].
  destruct (extract_annual_series_invariants revenue_missing_2022_frame
              net_income_spec 5 has_required_sample)
    as [s [Hrun [Hlen [_ [_ [Hrows _]]]]]].
  exists s. split; [ exact Hrun | ].
  split; [ apply Hlen; lia | ]. intros row Hrow.
  exact (proj1 (Hrows row Hrow)).
Defined.

Lemma build_sample :
  build_annual_financials_table revenue_missing_2022_frame None None
  = Ok revenue_missing_2022_table.
Proof. vm_compute. reflexivity. Defined.

Lemma annual_table_well_formed_witness :
  build_annual_financials_table revenue_missing_2022_frame None None
  = Ok revenue_missing_2022_table
  /\ StronglySorted Z.lt (t_fy revenue_missing_2022_table)
  /\ Forall (fun kv => column_length (snd kv)
                       = List.length (t_fy revenue_missing_2022_table))
       (t_columns revenue_missing_2022_table).
Proof.
  split; [ exact build_sample | ].
  destruct (annual_table_well_formed revenue_missing_2022_frame None None
              revenue_missing_2022_table build_sample) as [Hs [Hc _]].
  split; [ exact Hs | exact Hc ].
Defined.

Lemma derived_columns_spec_witness :
  build_annual_financials_table revenue_missing_2022_frame None None
  = Ok revenue_missing_2022_table
  /\ nth_error (t_fy revenue_missing_2022_table) 0 = Some 2021
  /\ cell_at revenue_missing_2022_table "net_margin" 2021
     = fdiv (cell_at revenue_missing_2022_table "net_income" 2021)
         (cell_at revenue_missing_2022_table "revenue" 2021)
  /\ cell_at revenue_missing_2022_table "fcf" 2021 = FNaN.
Proof.
  split; [ exact build_sample | ]. split; [ reflexivity | ].
  destruct (derived_columns_spec revenue_missing_2022_frame None None
              revenue_missing_2022_table 0 2021 build_sample eq_refl)
    as [Hfcf [_ [_ [Hnet _]]]].
  split; [ exact Hnet | exact Hfcf ].
Defined.

Lemma concept_map_covers_specs_witness :
  build_annual_financials_table revenue_missing_2022_frame None None
  = Ok revenue_missing_2022_table
  /\ exists m,
       t_concept_map revenue_missing_2022_table = Some m
       /\ forall spec, In spec default_mvp_specs ->
            dict_has m (name spec) = true.
Proof.
  split; [ exact build_sample | ]. eexists. split; [ reflexivity | ].
  exact (proj1 (concept_map_covers_specs revenue_missing_2022_frame None None
                  revenue_missing_2022_table _ build_sample eq_refl)).
Defined.

Lemma metric_cell_is_series_value_witness :
  build_annual_financials_table revenue_missing_2022_frame None None
  = Ok revenue_missing_2022_table
  /\ extract_annual_series revenue_missing_2022_frame net_income_spec 5
     = Ok net_income_series
  /\ forall row y, In row net_income_series -> s_fy row = Some y ->
       In y (t_fy revenue_missing_2022_table)
       /\ cell_at revenue_missing_2022_table "net_income" y = s_value row.
Proof.
  assert (Hseries :
    extract_annual_series revenue_missing_2022_frame net_income_spec 5
    = Ok net_income_series) by (vm_compute; reflexivity).
  assert (Hnames : NoDup (map name (or_default None default_mvp_specs))).
  { simpl. repeat constructor; simpl; intuition discriminate. }
  assert (Hspec : In net_income_spec (or_default None default_mvp_specs))
    by (simpl; tauto).
  assert (Hreserved : ~ In (name net_income_spec) reserved_cols)
    by (simpl; intuition discriminate).
  split; [ exact build_sample | ]. split; [ exact Hseries | ].
  exact (proj1 (metric_cell_is_series_value revenue_missing_2022_frame None
                  None revenue_missing_2022_table net_income_spec
                  net_income_series build_sample Hnames Hspec Hreserved
                  Hseries)).
Defined.

Lemma display_scales_amounts_witness :
  build_annual_financials_table revenue_missing_2022_frame None None
  = Ok revenue_missing_2022_table
  /\ exists d,
       format_financials_for_display revenue_missing_2022_table = Some d
       /\ cell_at d "net_income" 2022
          = fdiv (cell_at revenue_missing_2022_table "net_income" 2022)
              billion
       /\ dict_get (t_columns d) "net_margin"
          = dict_get (t_columns revenue_missing_2022_table) "net_margin".
Proof.
  split; [ exact build_sample | ].
  destruct (display_scales_amounts revenue_missing_2022_frame None None
              revenue_missing_2022_table build_sample)
    as [d [Hrun [_ [Hscale Hkeep]]]].
  exists d. split; [ exact Hrun | ]. split.
  - apply Hscale. simpl. tauto.
  - apply Hkeep. simpl. intuition discriminate.
Defined.

Lemma get_json_cached_again_witness :
  (forall d : string, Some ((fun s => s) d) = Some d)
  /\ exists w',
       get_json (fun s => s) Some (fun s => s) answering_server
         sample_client_config "/api/xbrl/frames.json" None false fresh_world
       = (w', Got "{}")
       /\ requests w' = ["https://data.sec.gov/api/xbrl/frames.json"]
       /\ get_json (fun s => s) Some (fun s => s) answering_server
            sample_client_config "/api/xbrl/frames.json" None true w'
          = (w', Got "{}").
Proof.
  split; [ reflexivity | ]. eexists. split; [ reflexivity | ].
  split; [ reflexivity | ].
  exact (get_json_cached_again (fun s => s) Some (fun s => s)
           answering_server sample_client_config "/api/xbrl/frames.json"
           None false fresh_world _ "{}" (fun d => eq_refl) eq_refl).
Defined.

Lemma get_json_retries_forbidden_witness :
  0 < max_retries sample_client_config
  /\ get_json (fun s => s) Some (fun s => s) refusing_server
       sample_client_config "submissions/CIK0000320193.json" None false
       fresh_world
     = (mkWorld []
          (repeat "https://data.sec.gov/submissions/CIK0000320193.json" 3),
        Raised (RequestFailed
                  "https://data.sec.gov/submissions/CIK0000320193.json"
                  (Some Forbidden))).
Proof.
  split; [ reflexivity | ].
  exact (get_json_retries_forbidden (fun s => s) Some (fun s => s)
           refusing_server sample_client_config
           "submissions/CIK0000320193.json" None fresh_world eq_refl
           (fun i _ => ex_intro _ None eq_refl)).
Defined.
